(** * Archestra platform: guardrail proxy, tool-invocation policies and
      dual-LLM quarantine

    A shallow embedding of the backend's security path:
    - [ToolInvocationPolicyModel.evaluateForAgent] (models/tool-invocation-policy),
    - the chat-completions handler of [routes/proxy.ts],
    - [DualLlmSubagent] ([routes/proxy/utils/dual-llm-subagent.ts]),
    - [evaluateIfContextIsTrusted] ([routes/proxy/utils/trusted-data/anthropic.ts]).

    JavaScript exceptions are explicit ([Outcome]); the database and the
    LLM call counter are threaded as explicit state.  Library and engine
    primitives ([JSON.parse], [_.get], [new RegExp], [JSON.stringify], the
    LLM clients) are Section variables, and so is the order in which the
    store returns the rows of a select without ORDER BY.  The examples run
    on a model of lodash's [_.get] ([Lodash.get]). *)

From Stdlib Require Import String Ascii List Bool Arith ZArith QArith Qround.
From Stdlib Require Import DecimalString Lia Permutation.
Import ListNotations.

Set Warnings "-register-all".
Close Scope Q_scope.
Local Open Scope string_scope.

(* ===================================================================== *)
(** ** JavaScript values *)
(* ===================================================================== *)

Module Js.

(** A JS number as [JSON.parse] can produce it: the exact rational value of
    a finite double, or an infinity (from overflow, e.g. [1e999]).  [NaN]
    has no JSON spelling. *)
Inductive Number : Type :=
| Finite (q : Q)
| PosInfinity
| NegInfinity.

(** JSON values. Object fields are kept in source order. *)
Inductive Json : Type :=
| JNull
| JBool (b : bool)
| JNumber (n : Number)
| JString (s : string)
| JArray (xs : list Json)
| JObject (fields : list (string * Json)).

(** A thrown JS error: constructor name, [message], and the [status]
    property that HTTP client errors carry.  For [err_status], [None] is
    an error without a [status] property, [Some None] one whose [status]
    is [undefined] (a connection error of the OpenAI client), and
    [Some (Some n)] one whose [status] is the number [n]. *)
Record Error : Type := mkError {
  err_name : string;
  err_message : string;
  err_status : option (option nat)
}.

Definition SyntaxError (msg : string) : Error := mkError "SyntaxError" msg None.
Definition TypeError (msg : string) : Error := mkError "TypeError" msg None.

(** Result of running a piece of JS: it returns or it throws. *)
Inductive Outcome (A : Type) : Type :=
| Returned (a : A)
| Thrown (e : Error).
Arguments Returned {A} a.
Arguments Thrown {A} e.

(** [String.prototype.startsWith] *)
Definition startsWith (s affix : string) : bool := String.prefix affix s.

(** [String.prototype.endsWith] *)
Fixpoint endsWith (s affix : string) : bool :=
  (s =? affix)
  || match s with
     | EmptyString => false
     | String _ s' => endsWith s' affix
     end.

(** [String.prototype.includes] *)
Fixpoint includes (s needle : string) : bool :=
  String.prefix needle s
  || match s with
     | EmptyString => false
     | String _ s' => includes s' needle
     end.

(** Truthiness of a string: only the empty string is falsy. *)
Definition truthy_string (s : string) : bool :=
  match s with EmptyString => false | _ => true end.

(** Own-property read [obj.key] on a JSON value; [None] is [undefined]. *)
Fixpoint assoc (key : string) (fields : list (string * Json)) : option Json :=
  match fields with
  | [] => None
  | (k, v) :: rest => if k =? key then Some v else assoc key rest
  end.

Definition prop (j : Json) (key : string) : option Json :=
  match j with
  | JObject fields => assoc key fields
  | _ => None
  end.

(** Split on a one-character separator, as [s.split(sep)]. *)
Fixpoint split_on (sep : ascii) (s : string) : list string :=
  match s with
  | EmptyString => [EmptyString]
  | String c s' =>
      if Ascii.eqb c sep then EmptyString :: split_on sep s'
      else match split_on sep s' with
           | [] => [String c EmptyString]
           | h :: t => String c h :: t
           end
  end.

(** What a property read finds on a value that [JSON.parse] produced:
    JSON data, or a member that the value takes from its prototype chain
    ([constructor], [toString], [hasOwnProperty], ...).  Such a member is a
    function or an object of the runtime: it is not [undefined] and it is
    not a string. *)
Inductive Value : Type :=
| Data (j : Json)
| Inherited (name : string).

End Js.
Import Js.

(* ===================================================================== *)
(** ** [_.get] of lodash *)
(* ===================================================================== *)

(** lodash 4.17, [get(object, path)] for a string path, after its source
    ([get], [baseGet], [castPath], [isKey], [stringToPath]).  Strings are
    read one character per code unit.  The prototype chain is the
    engine's: it is a parameter. *)
Module Lodash.

Definition dot : ascii := "."%char.
Definition openBracket : ascii := "["%char.
Definition closeBracket : ascii := "]"%char.
Definition backslash : ascii := ascii_of_nat 92.
Definition doubleQuote : ascii := ascii_of_nat 34.
Definition singleQuote : ascii := ascii_of_nat 39.

Definition isDigit (c : ascii) : bool :=
  let n := nat_of_ascii c in (48 <=? n)%nat && (n <=? 57)%nat.

(** [\w] *)
Definition isWordChar (c : ascii) : bool :=
  let n := nat_of_ascii c in
  isDigit c
  || ((65 <=? n)%nat && (n <=? 90)%nat)
  || ((97 <=? n)%nat && (n <=? 122)%nat)
  || (n =? 95)%nat.

(** A character that [.] does not match in a pattern. *)
Definition isLineTerminator (c : ascii) : bool :=
  let n := nat_of_ascii c in (n =? 10)%nat || (n =? 13)%nat.

Definition isBracket (c : ascii) : bool :=
  Ascii.eqb c openBracket || Ascii.eqb c closeBracket.

Definition isQuote (c : ascii) : bool :=
  Ascii.eqb c doubleQuote || Ascii.eqb c singleQuote.

Fixpoint forallChars (p : ascii -> bool) (s : string) : bool :=
  match s with
  | EmptyString => true
  | String c r => p c && forallChars p r
  end.

(** [reIsPlainProp = /^\w*$/] *)
Definition isPlainProp (s : string) : bool := forallChars isWordChar s.

(** The body of a quoted key in [rePropName] and [reIsDeepProp]: characters
    other than the quote and the backslash, and backslash pairs, up to the
    closing quote.  Gives the body with its escapes removed (as
    [reEscapeChar] removes them) and the text after the closing quote. *)
Fixpoint quotedBody (q : ascii) (s : string) : option (string * string) :=
  match s with
  | EmptyString => None
  | String c r =>
      if Ascii.eqb c q then Some (EmptyString, r)
      else if Ascii.eqb c backslash then
        match r with
        | EmptyString => None
        | String d r' =>
            if isLineTerminator d then None
            else match quotedBody q r' with
                 | Some (body, rest) => Some (String d body, rest)
                 | None => None
                 end
        end
      else match quotedBody q r with
           | Some (body, rest) => Some (String c body, rest)
           | None => None
           end
  end.

(** After an opening bracket: a quoted key and the closing bracket. *)
Definition bracketQuoted (s : string) : option (string * string) :=
  match s with
  | String q r =>
      if isQuote q then
        match quotedBody q r with
        | Some (body, String c rest) =>
            if Ascii.eqb c closeBracket then Some (body, rest) else None
        | _ => None
        end
      else None
  | EmptyString => None
  end.

(** After an opening bracket: no bracket up to a closing bracket. *)
Fixpoint bracketPlain (s : string) : bool :=
  match s with
  | EmptyString => false
  | String c r =>
      if Ascii.eqb c closeBracket then true
      else if Ascii.eqb c openBracket then false
      else bracketPlain r
  end.

(** [reIsDeepProp]: a dot, or a bracket group holding no bracket or a
    quoted key. *)
Fixpoint isDeepProp (s : string) : bool :=
  match s with
  | EmptyString => false
  | String c r =>
      Ascii.eqb c dot
      || (Ascii.eqb c openBracket
          && (bracketPlain r
              || match bracketQuoted r with Some _ => true | None => false end))
      || isDeepProp r
  end.

Fixpoint takeWhile (p : ascii -> bool) (s : string) : string * string :=
  match s with
  | EmptyString => (EmptyString, EmptyString)
  | String c r =>
      if p c then let (taken, rest) := takeWhile p r in (String c taken, rest)
      else (EmptyString, s)
  end.

(** After an opening bracket: a number, [-?\d+(?:\.\d+)?], and the closing
    bracket. *)
Definition bracketNumber (s : string) : option (string * string) :=
  let (sign, s1) :=
    match s with
    | String c r => if Ascii.eqb c "-"%char then ("-", r) else ("", s)
    | EmptyString => ("", s)
    end in
  let (digits, s2) := takeWhile isDigit s1 in
  match digits with
  | EmptyString => None
  | _ =>
      let (fraction, s3) :=
        match s2 with
        | String c r =>
            if Ascii.eqb c dot then
              let (more, r') := takeWhile isDigit r in
              match more with
              | EmptyString => ("", s2)
              | _ => (String dot more, r')
              end
            else ("", s2)
        | EmptyString => ("", s2)
        end in
      match s3 with
      | String c rest =>
          if Ascii.eqb c closeBracket
          then Some (sign ++ digits ++ fraction, rest) else None
      | EmptyString => None
      end
  end.

(** A dot or an empty bracket pair. *)
Definition afterSeparator (s : string) : option string :=
  match s with
  | String c r =>
      if Ascii.eqb c dot then Some r
      else if Ascii.eqb c openBracket then
        match r with
        | String d r' => if Ascii.eqb d closeBracket then Some r' else None
        | EmptyString => None
        end
      else None
  | EmptyString => None
  end.

(** The lookahead of [rePropName]: a separator followed by a separator or
    the end of the path, so that an empty key stands here. *)
Definition emptyKeyAhead (s : string) : bool :=
  match afterSeparator s with
  | Some EmptyString => true
  | Some r => match afterSeparator r with Some _ => true | None => false end
  | None => false
  end.

Definition isNameChar (c : ascii) : bool :=
  negb (Ascii.eqb c dot || isBracket c).

(** The matches of [rePropName] from the left: a name, a bracketed number
    or quoted key, or an empty key; a character where none of them starts
    is stepped over. *)
Fixpoint propNames (fuel : nat) (s : string) : list string :=
  match fuel with
  | O => []
  | S fuel' =>
      match s with
      | EmptyString => []
      | String c r =>
          if isNameChar c then
            let (name, rest) := takeWhile isNameChar s in
            name :: propNames fuel' rest
          else
            match (if Ascii.eqb c openBracket
                   then match bracketNumber r with
                        | Some found => Some found
                        | None => bracketQuoted r
                        end
                   else None) with
            | Some (key, rest) => key :: propNames fuel' rest
            | None =>
                if emptyKeyAhead s then EmptyString :: propNames fuel' r
                else propNames fuel' r
            end
      end
  end.

(** [stringToPath] *)
Definition stringToPath (s : string) : list string :=
  (match s with
   | String c _ => if Ascii.eqb c dot then [EmptyString] else []
   | EmptyString => []
   end ++ propNames (String.length s) s)%list.

Fixpoint digitsValue (acc : nat) (s : string) : nat :=
  match s with
  | EmptyString => acc
  | String c r => digitsValue (10 * acc + (nat_of_ascii c - 48)) r
  end.

(** A key that is an array index: decimal digits without a leading zero. *)
Definition arrayIndex (key : string) : option nat :=
  match key with
  | EmptyString => None
  | String c r =>
      if forallChars isDigit key
         && (negb (Ascii.eqb c "0"%char)
             || match r with EmptyString => true | _ => false end)
      then Some (digitsValue 0 key) else None
  end.

Definition lengthOf (n : nat) : Value :=
  Data (JNumber (Finite (inject_Z (Z.of_nat n)))).

Fixpoint charAt (s : string) (k : nat) : option ascii :=
  match s, k with
  | EmptyString, _ => None
  | String c _, O => Some c
  | String _ r, S k' => charAt r k'
  end.

(** [value[key]] for a property the value has itself: a field of an
    object, an element or the length of an array, a character or the
    length of a string. *)
Definition own (v : Value) (key : string) : option Value :=
  match v with
  | Data (JObject fields) => option_map Data (assoc key fields)
  | Data (JArray xs) =>
      match arrayIndex key with
      | Some k => option_map Data (nth_error xs k)
      | None => if key =? "length" then Some (lengthOf (length xs)) else None
      end
  | Data (JString s) =>
      match arrayIndex key with
      | Some k =>
          option_map (fun c => Data (JString (String c EmptyString))) (charAt s k)
      | None =>
          if key =? "length" then Some (lengthOf (String.length s)) else None
      end
  | _ => None
  end.

Section Get.

(** The engine's part of a property read: what the prototype chain gives
    for a key the value does not have itself. *)
Variable inherited : Value -> string -> option Value.

(** [value[key]] *)
Definition member (v : Value) (key : string) : option Value :=
  match own v key with
  | Some found => Some found
  | None => inherited v key
  end.

(** [isKey(value, object)] *)
Definition isKey (path : string) (object : Json) : bool :=
  isPlainProp path
  || negb (isDeepProp path)
  || match object with
     | JNull => false
     | _ => match member (Data object) path with
            | Some _ => true
            | None => false
            end
     end.

(** [castPath(value, object)] *)
Definition castPath (path : string) (object : Json) : list string :=
  if isKey path object then [path] else stringToPath path.

(** The loop of [baseGet], with the keys still to read: it stops at
    [null] and at [undefined]. *)
Fixpoint baseGet (object : Value) (keys : list string) : option Value :=
  match keys with
  | [] => Some object
  | key :: rest =>
      match object with
      | Data JNull => None
      | _ =>
          match member object key with
          | Some found => baseGet found rest
          | None => None
          end
      end
  end.

(** [_.get(object, path)]; [None] is [undefined]. *)
Definition get (object : Json) (path : string) : option Value :=
  match castPath path object with
  | [] => None
  | keys => baseGet (Data object) keys
  end.

End Get.

End Lodash.

(* ===================================================================== *)
(** ** Tool-invocation policies: [ToolInvocationPolicyModel] *)
(* ===================================================================== *)

Module ToolInvocationPolicyModel.

Inductive Operator : Type :=
| OpEndsWith | OpStartsWith | OpContains | OpNotContains
| OpEqual | OpNotEqual | OpRegex.

Inductive Action : Type := Allow | Block.

(** A row of [tool_invocation_policies]. *)
Record ToolInvocationPolicy : Type := mkPolicy {
  id : string;
  toolId : string;
  description : string;
  argumentName : string;
  operator : Operator;
  value : string;
  action : Action;
  blockPrompt : option string
}.

(** A row of [tools] (the columns the query reads). *)
Record Tool : Type := mkTool {
  tool_id : string;
  tool_agentId : string;
  tool_name : string
}.

(** A row of the join table [agent_tool_invocation_policies]. *)
Record AgentToolInvocationPolicy : Type := mkJoin {
  join_agentId : string;
  join_policyId : string
}.

Record Database : Type := mkDatabase {
  agentToolInvocationPoliciesTable : list AgentToolInvocationPolicy;
  toolInvocationPoliciesTable : list ToolInvocationPolicy;
  toolsTable : list Tool
}.

Record EvaluationResult : Type := mkResult {
  isAllowed : bool;
  denyReason : string
}.

(** The rows that the select of [evaluateForAgent] matches: join rows,
    inner-joined with their policy and the policy's tool, filtered on agent
    id and tool name.  The list stands for the rows matched, each as often
    as it is matched; the order in which the store hands them out is not
    this one (see [rowOrder] below). *)
Definition matchedPolicies
    (db : Database) (agentId toolName : string) : list ToolInvocationPolicy :=
  flat_map (fun j =>
    flat_map (fun p =>
      flat_map (fun t =>
        if (join_agentId j =? agentId) && (tool_name t =? toolName)
        then [p] else [])
        (filter (fun t => toolId p =? tool_id t) (toolsTable db)))
      (filter (fun p => join_policyId j =? id p)
              (toolInvocationPoliciesTable db)))
    (agentToolInvocationPoliciesTable db).

(** [blockPrompt || `Policy violation: ${description}`] *)
Definition violationReason (policy : ToolInvocationPolicy) : string :=
  match blockPrompt policy with
  | Some prompt =>
      if truthy_string prompt then prompt
      else "Policy violation: " ++ description policy
  | None => "Policy violation: " ++ description policy
  end.

Section Evaluator.

(** [_.get(object, path)]; [None] is [undefined]. *)
Variable lodash_get : Json -> string -> option Value.

(** [new RegExp(source)]: the compiled pattern's [test], or the message of
    the [SyntaxError] thrown for a source that does not compile. *)
Variable RegExp_new : string -> (string -> bool) + string.

(** The order in which the store returns the rows of a select that has no
    ORDER BY: an arrangement of the rows matched, of the store's choosing. *)
Variable rowOrder : list ToolInvocationPolicy -> list ToolInvocationPolicy.

(** [const applicablePoliciesForAgent = await db.select(...)...]: the rows
    the select matches, as the store returns them. *)
Definition applicablePoliciesForAgent
    (db : Database) (agentId toolName : string) : list ToolInvocationPolicy :=
  rowOrder (matchedPolicies db agentId toolName).

(** The [switch (operator)] of the loop body.  The [typeof] test comes
    first, so a pattern is compiled only for a string argument. *)
Definition conditionMet
    (op : Operator) (argumentValue : Value) (policyValue : string)
    : Outcome bool :=
  match op with
  | OpEndsWith =>
      Returned match argumentValue with
               | Data (JString s) => endsWith s policyValue
               | _ => false
               end
  | OpStartsWith =>
      Returned match argumentValue with
               | Data (JString s) => startsWith s policyValue
               | _ => false
               end
  | OpContains =>
      Returned match argumentValue with
               | Data (JString s) => includes s policyValue
               | _ => false
               end
  | OpNotContains =>
      Returned match argumentValue with
               | Data (JString s) => negb (includes s policyValue)
               | _ => false
               end
  | OpEqual =>
      Returned match argumentValue with
               | Data (JString s) => s =? policyValue
               | _ => false
               end
  | OpNotEqual =>
      Returned match argumentValue with
               | Data (JString s) => negb (s =? policyValue)
               | _ => true
               end
  | OpRegex =>
      match argumentValue with
      | Data (JString s) =>
          match RegExp_new policyValue with
          | inl test => Returned (test s)
          | inr msg => Thrown (SyntaxError msg)
          end
      | _ => Returned false
      end
  end.

Definition allowed : EvaluationResult := mkResult true "".

(** The [for (const { policy } of applicablePoliciesForAgent)] loop. *)
Fixpoint evaluatePolicies
    (policies : list ToolInvocationPolicy) (toolInput : Json)
    : Outcome EvaluationResult :=
  match policies with
  | [] => Returned allowed
  | policy :: rest =>
      match lodash_get toolInput (argumentName policy) with
      | None =>
          match action policy with
          | Block => evaluatePolicies rest toolInput
          | Allow =>
              Returned (mkResult false
                ("Missing required argument: " ++ argumentName policy))
          end
      | Some argumentValue =>
          match conditionMet (operator policy) argumentValue (value policy) with
          | Thrown e => Thrown e
          | Returned met =>
              match action policy with
              | Allow =>
                  if negb met
                  then Returned (mkResult false (violationReason policy))
                  else evaluatePolicies rest toolInput
              | Block =>
                  if met
                  then Returned (mkResult false (violationReason policy))
                  else evaluatePolicies rest toolInput
              end
          end
      end
  end.

Definition evaluateForAgent
    (db : Database) (agentId toolName : string) (toolInput : Json)
    : Outcome EvaluationResult :=
  evaluatePolicies (applicablePoliciesForAgent db agentId toolName) toolInput.

(** A policy lets the loop go on to the next one. *)
Definition passes (toolInput : Json) (p : ToolInvocationPolicy) : Prop :=
  match lodash_get toolInput (argumentName p) with
  | None => action p = Block
  | Some v =>
      exists met, conditionMet (operator p) v (value p) = Returned met
                  /\ met = match action p with Allow => true | Block => false end
  end.

End Evaluator.

(** Following the specification's words, "the argument, looked up by
    dotted path in the tool arguments": the value reached by reading the
    keys of the path, one after the other, among the fields of the
    arguments themselves.  [None]: the arguments have no such argument. *)
Fixpoint get_keys (j : Json) (keys : list string) : option Json :=
  match keys with
  | [] => Some j
  | k :: ks =>
      match prop j k with
      | Some v => get_keys v ks
      | None => None
      end
  end.

Definition argumentAt (toolInput : Json) (path : string) : option Json :=
  get_keys toolInput (split_on "."%char path).

End ToolInvocationPolicyModel.

(* ===================================================================== *)
(** ** Effects: state threaded through code that may throw *)
(* ===================================================================== *)

Module Eff.

(** A computation over a store [S]: it returns or throws, and the writes
    made before a throw stay. *)
Definition M (S A : Type) : Type := S -> Outcome A * S.

Definition ret {S A} (a : A) : M S A := fun s => (Returned a, s).

Definition throw {S A} (e : Error) : M S A := fun s => (Thrown e, s).

Definition bind {S A B} (m : M S A) (k : A -> M S B) : M S B :=
  fun s =>
    match m s with
    | (Returned a, s') => k a s'
    | (Thrown e, s') => (Thrown e, s')
    end.

Definition lift {S A} (o : Outcome A) : M S A := fun s => (o, s).

Definition gets {S A} (f : S -> A) : M S A := fun s => (Returned (f s), s).

Definition modify {S} (f : S -> S) : M S unit := fun s => (Returned tt, f s).

End Eff.
Import Eff.

Declare Scope eff_scope.
Delimit Scope eff_scope with eff.
Notation "x <- m ;; k" := (bind m (fun x => k))
  (at level 61, m at next level, right associativity) : eff_scope.
Notation "m ;;; k" := (bind m (fun _ => k))
  (at level 61, right associativity) : eff_scope.

(* ===================================================================== *)
(** ** The chat-completions handler: [routes/proxy.ts] *)
(* ===================================================================== *)

Module Proxy.

Import ToolInvocationPolicyModel.
Local Open Scope eff_scope.

(** An entry of an assistant message's [tool_calls]: a function tool call
    carries [function: {name, arguments}], a custom one does not. *)
Inductive ToolCall : Type :=
| FunctionToolCall (id name arguments : string)
| CustomToolCall (id name input : string).

Definition toolCallId (tc : ToolCall) : string :=
  match tc with
  | FunctionToolCall i _ _ => i
  | CustomToolCall i _ _ => i
  end.

(** The [content] of a message as the handler can meet it (the request
    schema lets any value through): a string, [null], no [content] field
    at all, or a value of another kind (an array of parts, an object, a
    number), of which the handler only ever takes [String(content)]. *)
Inductive Content : Type :=
| ContentText (text : string)
| ContentNull
| ContentUndefined
| ContentOther (asString : string).

(** [String(content)], the text that [JSON.parse(content)] parses. *)
Definition contentText (c : Content) : string :=
  match c with
  | ContentText text => text
  | ContentNull => "null"
  | ContentUndefined => "undefined"
  | ContentOther asString => asString
  end.

(** An OpenAI-shape chat message.  For [tool_call_id] and [tool_calls],
    [None] is a missing or null field. *)
Record Message : Type := mkMessage {
  role : string;
  content : Content;
  tool_call_id : option string;
  tool_calls : option (list ToolCall)
}.

Record Choice : Type := mkChoice {
  choice_index : nat;
  message : Message;
  finish_reason : string
}.

Record ChatCompletionRequest : Type := mkRequest {
  model : string;
  messages : list Message;
  stream : bool
}.

Record ChatCompletionResponse : Type := mkResponse {
  response_id : string;
  response_model : string;
  choices : list Choice
}.

(** A tool-call fragment inside a stream chunk's delta. *)
Record ToolCallDelta : Type := mkDelta {
  delta_index : nat;
  delta_id : option string;
  delta_name : option string;
  delta_arguments : option string
}.

Record ChatCompletionChunk : Type := mkChunk {
  chunk_id : string;
  chunk_content : option string;
  chunk_tool_calls : list ToolCallDelta
}.

(** A row of [interactions]. *)
Record Interaction : Type := mkInteraction {
  chatId : string;
  interaction_content : Message;
  tainted : bool;
  taintReason : option string
}.

(** What the handler reads and writes: the two tables and the reply under
    construction (headers set and raw writes made so far). *)
Record State : Type := mkState {
  chats : list string;
  interactions : list Interaction;
  replyHeaders : list (string * string);
  rawWritten : list string
}.

Inductive Body : Type :=
| ErrorBody (message type : string)
| CompletionBody (response : ChatCompletionResponse).

(** How the handler finishes: with [reply.status(n).send(body)], with
    [reply.raw.end()] after raw writes, or, when the catch block throws in
    its turn, with an exception, having sent no answer of its own (what the
    framework makes of the exception is not this code's). *)
Inductive Sent : Type :=
| SentJson (status : nat) (body : Body)
| RawEnded
| HandlerThrew.

Record TrustResult : Type := mkTrust {
  isTrusted : bool;
  trustReason : string
}.

(** The provider interface of [providers/types.ts].  A stream yields its
    chunks and then ends, or throws after the chunks it yielded. *)
Record LLMProvider : Type := mkProvider {
  chatCompletion : ChatCompletionRequest -> Outcome ChatCompletionResponse;
  chatCompletionStream :
    ChatCompletionRequest -> list ChatCompletionChunk * option Error
}.

(** [InteractionModel.create]; [tainted] defaults to false. *)
Definition InteractionModel_create (i : Interaction) : M State unit :=
  modify (fun st =>
    mkState (chats st) (interactions st ++ [i])
            (replyHeaders st) (rawWritten st)).

(** [InteractionModel.findByChatId]: rows of the chat, oldest first. *)
Definition InteractionModel_findByChatId (c : string)
    : M State (list Interaction) :=
  gets (fun st => filter (fun i => chatId i =? c) (interactions st)).

Definition reply_header (k v : string) : M State unit :=
  modify (fun st =>
    mkState (chats st) (interactions st)
            (replyHeaders st ++ [(k, v)]) (rawWritten st)).

Definition reply_raw_write (data : string) : M State unit :=
  modify (fun st =>
    mkState (chats st) (interactions st)
            (replyHeaders st) (rawWritten st ++ [data])).

Definition newline : string := String (ascii_of_nat 10) EmptyString.

(** The inner [for (const toolCall of content.tool_calls)] of
    [extractToolNameFromHistory]: [None] when no id matches; reading
    [toolCall.function.name] of a custom tool call throws. *)
Fixpoint findToolCallName (tcs : list ToolCall) (wanted : option string)
    : option (Outcome string) :=
  match tcs with
  | [] => None
  | tc :: rest =>
      match wanted with
      | Some w =>
          if toolCallId tc =? w then
            Some match tc with
                 | FunctionToolCall _ name _ => Returned name
                 | CustomToolCall _ _ _ =>
                     Thrown (TypeError "Cannot read properties of undefined (reading 'name')")
                 end
          else findToolCallName rest wanted
      | None => findToolCallName rest wanted
      end
  end.

(** The outer loop, over the interactions from the newest to the oldest. *)
Fixpoint searchHistory (newestFirst : list Interaction) (wanted : option string)
    : Outcome (option string) :=
  match newestFirst with
  | [] => Returned None
  | interaction :: older =>
      let c := interaction_content interaction in
      if role c =? "assistant" then
        match tool_calls c with
        | Some tcs =>
            match findToolCallName tcs wanted with
            | Some (Returned name) => Returned (Some name)
            | Some (Thrown e) => Thrown e
            | None => searchHistory older wanted
            end
        | None => searchHistory older wanted
        end
      else searchHistory older wanted
  end.

Definition extractToolNameFromHistory (c : string) (wanted : option string)
    : M State (option string) :=
  found <- InteractionModel_findByChatId c ;;
  lift (searchHistory (rev found) wanted).

Section Handler.

(** [JSON.parse]: the value, or the message of the [SyntaxError]. *)
Variable JSON_parse : string -> Json + string.

(** [JSON.stringify] of a stream chunk. *)
Variable JSON_stringify : ChatCompletionChunk -> string.

(** [new TrustedDataPolicyEvaluator({toolName, toolCallId, output},
    policies).evaluate()] *)
Variable trustedDataEvaluate : string -> option string -> Json -> TrustResult.

(** [new ToolInvocationPolicyEvaluator({toolName, toolCallId, input},
    policies).evaluate()] *)
Variable toolInvocationEvaluate : string -> string -> Json -> EvaluationResult.

Variable llmProvider : LLMProvider.

Definition parse (text : string) : M State Json :=
  match JSON_parse text with
  | inl v => ret v
  | inr msg => throw (SyntaxError msg)
  end.

(** [JSON.parse(toolMessage.content)]: the content is turned into a
    string and that string is parsed. *)
Definition parseContent (c : Content) : M State Json :=
  parse (contentText c).

(** Body of the ingress loop for one message. *)
Definition processIncomingMessage (c : string) (m : Message) : M State unit :=
  if role m =? "tool" then
    toolResult <- parseContent (content m) ;;
    toolName <- extractToolNameFromHistory c (tool_call_id m) ;;
    match toolName with
    | Some name =>
        if truthy_string name then
          let r := trustedDataEvaluate name (tool_call_id m) toolResult in
          InteractionModel_create
            (mkInteraction c m (negb (isTrusted r)) (Some (trustReason r)))
        else ret tt
    | None => ret tt
    end
  else ret tt.

Fixpoint processIncomingMessages (c : string) (ms : list Message)
    : M State unit :=
  match ms with
  | [] => ret tt
  | m :: rest =>
      processIncomingMessage c m ;;; processIncomingMessages c rest
  end.

(** Store the last message when it is a user message.  With no message
    at all, reading [role] of [undefined] throws. *)
Definition storeUserMessage (c : string) (ms : list Message) : M State unit :=
  match last (map Some ms) None with
  | None => throw (TypeError "Cannot read properties of undefined (reading 'role')")
  | Some lastMessage =>
      if role lastMessage =? "user"
      then InteractionModel_create (mkInteraction c lastMessage false None)
      else ret tt
  end.

Fixpoint relayChunks (chunks : list ChatCompletionChunk) : M State unit :=
  match chunks with
  | [] => ret tt
  | chunk :: rest =>
      reply_raw_write ("data: " ++ JSON_stringify chunk ++ newline ++ newline) ;;;
      relayChunks rest
  end.

(** The [if (requestBody.stream)] branch. *)
Definition handleStreaming (requestBody : ChatCompletionRequest) : M State Sent :=
  reply_header "Content-Type" "text/event-stream" ;;;
  reply_header "Cache-Control" "no-cache" ;;;
  reply_header "Connection" "keep-alive" ;;;
  let (chunks, failure) := chatCompletionStream llmProvider requestBody in
  relayChunks chunks ;;;
  match failure with
  | Some e => throw e
  | None =>
      reply_raw_write ("data: [DONE]" ++ newline ++ newline) ;;;
      ret RawEnded
  end.

(** The gate over [assistantMessage.tool_calls]: [Some reason] is the
    early [return reply.status(403)]; [None] is falling out of the loop. *)
Fixpoint evaluateToolCalls (tcs : list ToolCall) : M State (option string) :=
  match tcs with
  | [] => ret None
  | tc :: rest =>
      match tc with
      | FunctionToolCall i name arguments =>
          toolInput <- parse arguments ;;
          let r := toolInvocationEvaluate name i toolInput in
          if negb (isAllowed r) then ret (Some (denyReason r))
          else evaluateToolCalls rest
      | CustomToolCall _ _ _ => evaluateToolCalls rest
      end
  end.

(** The non-streaming tail of the [try] block. *)
Definition handleNonStreaming (c : string) (requestBody : ChatCompletionRequest)
    : M State Sent :=
  response <- lift (chatCompletion llmProvider requestBody) ;;
  match choices response with
  | [] => throw (TypeError "Cannot read properties of undefined (reading 'message')")
  | first :: _ =>
      let assistantMessage := message first in
      denied <- match tool_calls assistantMessage with
                | Some tcs => evaluateToolCalls tcs
                | None => ret None
                end ;;
      match denied with
      | Some reason =>
          ret (SentJson 403 (ErrorBody reason "tool_invocation_blocked"))
      | None =>
          InteractionModel_create (mkInteraction c assistantMessage false None) ;;;
          ret (SentJson 200 (CompletionBody response))
      end
  end.

(** The part of the [try] block before the upstream call: the scan of
    inbound tool results, then the user message. *)
Definition ingress (c : string) (requestBody : ChatCompletionRequest)
    : M State unit :=
  processIncomingMessages c (messages requestBody) ;;;
  storeUserMessage c (messages requestBody).

Definition tryBlock (c : string) (requestBody : ChatCompletionRequest)
    : M State Sent :=
  ingress c requestBody ;;;
  if stream requestBody
  then handleStreaming requestBody
  else handleNonStreaming c requestBody.

(** Whether raw writes were made between two states of the reply: once
    [reply.raw.write] has run, the head of the response is on the wire. *)
Definition rawStarted (st st' : State) : bool :=
  negb (length (rawWritten st') =? length (rawWritten st))%nat.

(** The [catch (error)] block.  [reply.status(statusCode)] throws for a
    status that is not a number from 100 to 599, [undefined] included, and
    [send] throws once the head of the response is on the wire; in both
    cases the block sends nothing. *)
Definition catchBlock (e : Error) (started : bool) : Sent :=
  let statusCode :=
    match err_status e with Some status => status | None => Some 500 end in
  match statusCode with
  | Some n =>
      if (100 <=? n)%nat && (n <=? 599)%nat && negb started
      then SentJson n (ErrorBody (err_message e) "api_error")
      else HandlerThrew
  | None => HandlerThrew
  end.

(** The handler of [POST /v1/:provider/chat/completions]. *)
Definition chatCompletions (c : string) (requestBody : ChatCompletionRequest)
    (st : State) : Sent * State :=
  if existsb (String.eqb c) (chats st) then
    match tryBlock c requestBody st with
    | (Returned sent, st') => (sent, st')
    | (Thrown e, st') => (catchBlock e (rawStarted st st'), st')
    end
  else
    (SentJson 404 (ErrorBody "Chat not found" "invalid_request_error"), st).

(** A tool call lets the gate go on to the next one: it is not a
    function call, or its arguments parse and the evaluator allows it. *)
Definition toolCallPasses (tc : ToolCall) : Prop :=
  match tc with
  | FunctionToolCall i name arguments =>
      exists toolInput,
        JSON_parse arguments = inl toolInput
        /\ isAllowed (toolInvocationEvaluate name i toolInput) = true
  | CustomToolCall _ _ _ => True
  end.

(** One server-sent event carrying a chunk. *)
Definition sseEvent (chunk : ChatCompletionChunk) : string :=
  "data: " ++ JSON_stringify chunk ++ newline ++ newline.

End Handler.

End Proxy.

(* ===================================================================== *)
(** ** Anthropic message shapes *)
(* ===================================================================== *)

Module Anthropic.

Inductive Role : Type := User | Assistant.

(** The [content] of a [tool_result] block: a string, an array of blocks
    (kept as JSON), or absent. *)
Inductive ToolResultContent : Type :=
| ContentString (s : string)
| ContentBlocks (blocks : Json)
| ContentAbsent.

Inductive ContentBlock : Type :=
| TextBlock (text : string)
| ToolUseBlock (id name : string) (input : Json)
| ToolResultBlock (tool_use_id : string) (content : ToolResultContent)
                  (is_error : option bool)
| OtherBlock (type : string) (data : Json).

Inductive MessageContent : Type :=
| StringContent (s : string)
| ArrayContent (blocks : list ContentBlock).

Record Message : Type := mkMessage {
  role : Role;
  content : MessageContent
}.

Definition Messages : Type := list Message.

Definition isToolResult (b : ContentBlock) : bool :=
  match b with
  | ToolResultBlock _ _ _ => true
  | _ => false
  end.

End Anthropic.

(* ===================================================================== *)
(** ** The quarantine sub-agent: [dual-llm-subagent.ts] *)
(* ===================================================================== *)

Module DualLlm.

Import Anthropic.
Local Open Scope eff_scope.

Record DualLlmMessage : Type := mkMsg {
  msg_role : string;
  msg_content : string
}.

(** The default row of the dual-LLM configuration. *)
Record DualLlmConfig : Type := mkConfig {
  mainAgentPrompt : string;
  quarantinedAgentPrompt : string;
  summaryPrompt : string;
  maxRounds : nat
}.

Record DualLlmResult : Type := mkDualLlmResult {
  result_agentId : string;
  result_toolCallId : string;
  conversations : list DualLlmMessage;
  result : string
}.

(** The database rows the sub-agent touches and the number of LLM calls
    made so far. *)
Record Store : Type := mkStore {
  dualLlmConfig : DualLlmConfig;
  dualLlmResults : list DualLlmResult;
  llmCalls : nat
}.

(** The [DualLlmClient] interface.  A call may answer differently each
    time, so the oracle also sees how many calls came before it; a network
    or upstream failure is a throw. *)
Record DualLlmClient : Type := mkClient {
  chat : nat -> list DualLlmMessage -> Outcome string;
  chatWithSchema : nat -> list DualLlmMessage -> Outcome Json
}.

(** The string and regular-expression primitives the sub-agent uses. *)
Record StringEngine : Type := mkEngine {
  (** [s.replace(pattern, replacement)] with a string pattern *)
  replace : string -> string -> string -> string;
  (** [s.trim()] *)
  trim : string -> string;
  (** capture 1 of [/QUESTION:\s*(.+?)(?=\nOPTIONS:)/s] *)
  matchQuestion : string -> option string;
  (** capture 1 of [/OPTIONS:\s*([\s\S]+)/] *)
  matchOptions : string -> option string;
  (** [line.replace(/^\d+:\s*/, "")] *)
  stripIndex : string -> string;
  (** [JSON.stringify(value, null, 2)]; [None] is [undefined] *)
  stringifyPretty : option Json -> string;
  (** [JSON.parse]: the value, or the message of the [SyntaxError] *)
  JSON_parse : string -> Json + string
}.

Record DualLlmSubagent : Type := mkSubagent {
  config : DualLlmConfig;
  agentId : string;
  toolCallId : string;
  llmClient : DualLlmClient;
  originalUserRequest : string;
  toolResult : option Json
}.

(** Modelled from the spec: [DualLlmResultModel.findByToolCallId], whose
    source is not in the repository files at hand: the row cached for a
    tool-call id, or null. *)
Definition DualLlmResultModel_findByToolCallId (tc : string)
    : M Store (option DualLlmResult) :=
  gets (fun st =>
    find (fun r => result_toolCallId r =? tc) (dualLlmResults st)).

(** Modelled from the spec: [DualLlmResultModel.create], whose source is
    not in the repository files at hand: insert one row.  Nothing here
    stops a second row for the same id. *)
Definition DualLlmResultModel_create (r : DualLlmResult) : M Store unit :=
  modify (fun st =>
    mkStore (dualLlmConfig st) (dualLlmResults st ++ [r]) (llmCalls st)).

(** Modelled from the spec: [DualLlmConfigModel.getDefault], whose source
    is not in the repository files at hand: the singleton row. *)
Definition DualLlmConfigModel_getDefault : M Store DualLlmConfig :=
  gets dualLlmConfig.

(** [String(n)] for an integer. *)
Definition toString (z : Z) : string :=
  DecimalString.NilZero.string_of_int (Z.to_int z).

(** [xs.join(sep)] *)
Fixpoint join (sep : string) (xs : list string) : string :=
  match xs with
  | [] => ""
  | [x] => x
  | x :: rest => x ++ sep ++ join sep rest
  end.

(** [xs.map((x, idx) => f(x, idx))] *)
Fixpoint mapi {A B} (f : A -> Z -> B) (from : Z) (xs : list A) : list B :=
  match xs with
  | [] => []
  | x :: rest => f x from :: mapi f (from + 1)%Z rest
  end.

(** [!value] on a JSON value. *)
Definition falsy (j : Json) : bool :=
  match j with
  | JNull => true
  | JBool b => negb b
  | JNumber (Finite q) => Qeq_bool q 0
  | JString s => negb (truthy_string s)
  | _ => false
  end.

(** [options[k]] inside a template literal. *)
Definition optionAt (options : list string) (k : Z) : string :=
  if (k <? 0)%Z then "undefined"
  else nth (Z.to_nat k) options "undefined".

Definition lengthZ {A} (xs : list A) : Z := Z.of_nat (length xs).

(** The store differs at most by LLM calls made: same configuration, same
    cached results. *)
Definition onlyCalls (st st' : Store) : Prop :=
  dualLlmConfig st' = dualLlmConfig st
  /\ dualLlmResults st' = dualLlmResults st
  /\ (llmCalls st <= llmCalls st')%nat.

(** A client that never fails. *)
Definition reliable (client : DualLlmClient) : Prop :=
  (forall calls conversation, exists s,
      chat client calls conversation = Returned s)
  /\ (forall calls conversation, exists j,
      chatWithSchema client calls conversation = Returned j).

Section Subagent.

Variable engine : StringEngine.

Definition llm_chat (client : DualLlmClient) (conversation : list DualLlmMessage)
    : M Store string :=
  fun st =>
    (chat client (llmCalls st) conversation,
     mkStore (dualLlmConfig st) (dualLlmResults st) (S (llmCalls st))).

Definition llm_chatWithSchema (client : DualLlmClient)
    (conversation : list DualLlmMessage) : M Store Json :=
  fun st =>
    (chatWithSchema client (llmCalls st) conversation,
     mkStore (dualLlmConfig st) (dualLlmResults st) (S (llmCalls st))).

(** The validation after the quarantined call: structure check, then
    [Math.floor] and the bounds check. *)
Definition validateAnswer (parsed : Json) (n : Z) : Z :=
  if falsy parsed then (n - 1)%Z
  else
    match prop parsed "answer" with
    | Some (JNumber (Finite q)) =>
        let answerIndex := Qfloor q in
        if (answerIndex <? 0)%Z || (answerIndex >=? n)%Z
        then (n - 1)%Z
        else answerIndex
    | Some (JNumber PosInfinity) => (n - 1)%Z
    | Some (JNumber NegInfinity) => (n - 1)%Z
    | _ => (n - 1)%Z
    end.

Definition quarantinedPromptFor (self : DualLlmSubagent)
    (question : string) (options : list string) : string :=
  let optionsText :=
    join Proxy.newline
         (mapi (fun opt idx => toString idx ++ ": " ++ opt) 0%Z options) in
  replace engine
    (replace engine
      (replace engine
        (replace engine (quarantinedAgentPrompt (config self))
           "{{toolResultData}}" (stringifyPretty engine (toolResult self)))
        "{{question}}" question)
      "{{options}}" optionsText)
    "{{maxIndex}}" (toString (lengthZ options - 1)).

(** [answerQuestion]: the quarantined agent sees the tool result and
    returns the index of one option. *)
Definition answerQuestion (self : DualLlmSubagent)
    (question : string) (options : list string) : M Store Z :=
  parsed <- llm_chatWithSchema (llmClient self)
              [mkMsg "user" (quarantinedPromptFor self question options)] ;;
  ret (validateAnswer parsed (lengthZ options)).

(** [generateSummary] *)
Definition generateSummary (self : DualLlmSubagent)
    (conversation : list DualLlmMessage) : M Store string :=
  let qaText :=
    join Proxy.newline
         (filter truthy_string (map msg_content conversation)) in
  let prompt := replace engine (summaryPrompt (config self)) "{{qaText}}" qaText in
  llm_chat (llmClient self) [mkMsg "user" prompt].

Definition parseOptions (optionsText : string) : list string :=
  filter truthy_string
    (map (fun line => trim engine (stripIndex engine line))
         (split_on (ascii_of_nat 10) optionsText)).

(** The Q&A loop, with [rounds] iterations left. *)
Fixpoint questionLoop (self : DualLlmSubagent) (rounds : nat)
    (conversation : list DualLlmMessage) : M Store (list DualLlmMessage) :=
  match rounds with
  | O => ret conversation
  | S rounds' =>
      response <- llm_chat (llmClient self) conversation ;;
      let conversation :=
        (conversation ++ [mkMsg "assistant" response])%list in
      if (response =? "DONE") || includes response "DONE" then ret conversation
      else
        match matchQuestion engine response, matchOptions engine response with
        | Some q, Some o =>
            let question := trim engine q in
            let options := parseOptions (trim engine o) in
            answerIndex <- answerQuestion self question options ;;
            let selectedOption := optionAt options answerIndex in
            questionLoop self rounds'
              (conversation ++
               [mkMsg "user" ("Answer: " ++ toString answerIndex
                              ++ " (" ++ selectedOption ++ ")")])%list
        | _, _ => ret conversation
        end
  end.

(** [processWithMainAgent]: run the loop, summarise, store the result. *)
Definition processWithMainAgent (self : DualLlmSubagent) : M Store string :=
  let prompt :=
    replace engine (mainAgentPrompt (config self))
            "{{originalUserRequest}}" (originalUserRequest self) in
  conversation <- questionLoop self (maxRounds (config self))
                    [mkMsg "user" prompt] ;;
  summary <- generateSummary self conversation ;;
  DualLlmResultModel_create
    (mkDualLlmResult (agentId self) (toolCallId self) conversation summary) ;;;
  ret summary.

(** [extractUserRequestFromAnthropic], over the messages newest first. *)
Fixpoint userRequestFrom (newestFirst : Messages) : string :=
  match newestFirst with
  | [] => "process this data"
  | m :: older =>
      match role m, content m with
      | User, StringContent s => s
      | User, ArrayContent blocks =>
          match find (fun b => match b with TextBlock _ => true | _ => false end)
                     blocks with
          | Some (TextBlock text) => text
          | _ => userRequestFrom older
          end
      | Assistant, _ => userRequestFrom older
      end
  end.

Definition extractUserRequestFromAnthropic (messages : Messages) : string :=
  userRequestFrom (rev messages).

(** The value a tool result stands for: parsed JSON when its content is a
    string that parses, the string itself otherwise, the content as it is
    when it is not a string. *)
Definition toolResultValue (c : ToolResultContent) : option Json :=
  match c with
  | ContentString s =>
      match JSON_parse engine s with
      | inl v => Some v
      | inr _ => Some (JString s)
      end
  | ContentBlocks blocks => Some blocks
  | ContentAbsent => None
  end.

Fixpoint toolResultInBlocks (blocks : list ContentBlock) (toolUseId : string)
    : option (option Json) :=
  match blocks with
  | [] => None
  | ToolResultBlock i c _ :: rest =>
      if i =? toolUseId then Some (toolResultValue c)
      else toolResultInBlocks rest toolUseId
  | _ :: rest => toolResultInBlocks rest toolUseId
  end.

(** [extractToolResultFromAnthropic] *)
Fixpoint extractToolResultFromAnthropic (messages : Messages) (toolUseId : string)
    : Outcome (option Json) :=
  match messages with
  | [] => Thrown (mkError "Error"
                    ("Tool result not found for toolUseId: " ++ toolUseId) None)
  | m :: rest =>
      match role m, content m with
      | User, ArrayContent blocks =>
          match toolResultInBlocks blocks toolUseId with
          | Some v => Returned v
          | None => extractToolResultFromAnthropic rest toolUseId
          end
      | _, _ => extractToolResultFromAnthropic rest toolUseId
      end
  end.

(** [createDualLlmClient(provider, apiKey)] *)
Variable createDualLlmClient : string -> string -> DualLlmClient.

(** [DualLlmSubagent.create] with Anthropic parameters. *)
Definition create (messages : Messages) (toolUseId agent apiKey : string)
    : M Store DualLlmSubagent :=
  cfg <- DualLlmConfigModel_getDefault ;;
  let client := createDualLlmClient "anthropic" apiKey in
  let userRequest := extractUserRequestFromAnthropic messages in
  toolResult <- lift (extractToolResultFromAnthropic messages toolUseId) ;;
  ret (mkSubagent cfg agent toolUseId client userRequest toolResult).

End Subagent.

End DualLlm.

(* ===================================================================== *)
(** ** Inbound tool results: [trusted-data/anthropic.ts] *)
(* ===================================================================== *)

Module TrustedData.

Import Anthropic DualLlm.
Local Open Scope eff_scope.

(** What [TrustedDataPolicyModel.evaluate] resolves to. *)
Record Evaluation : Type := mkEvaluation {
  isTrusted : bool;
  isBlocked : bool;
  shouldSanitizeWithDualLlm : bool;
  reason : string
}.

Fixpoint toolUseName (blocks : list ContentBlock) (toolUseId : string)
    : option string :=
  match blocks with
  | [] => None
  | ToolUseBlock i name _ :: rest =>
      if i =? toolUseId then Some name else toolUseName rest toolUseId
  | _ :: rest => toolUseName rest toolUseId
  end.

Fixpoint toolNameFrom (newestFirst : Messages) (toolUseId : string)
    : option string :=
  match newestFirst with
  | [] => None
  | m :: older =>
      match role m, content m with
      | Assistant, ArrayContent blocks =>
          match toolUseName blocks toolUseId with
          | Some name => Some name
          | None => toolNameFrom older toolUseId
          end
      | _, _ => toolNameFrom older toolUseId
      end
  end.

(** [extractToolNameFromMessages]: the name of the [tool_use] block with
    this id in the most recent assistant message that has one, or null. *)
Definition extractToolNameFromMessages (messages : Messages) (toolUseId : string)
    : option string :=
  toolNameFrom (rev messages) toolUseId.

(** [`[Content blocked by policy${reason ? `: ${reason}` : ""}]`] *)
Definition blockedNotice (reason : string) : string :=
  "[Content blocked by policy"
  ++ (if truthy_string reason then ": " ++ reason else "") ++ "]".

(** [{ ...contentBlock, content }] on a [tool_result] block. *)
Definition withContent (toolUseId : string) (is_error : option bool)
    (newContent : string) : ContentBlock :=
  ToolResultBlock toolUseId (ContentString newContent) is_error.

(** What [evaluateIfContextIsTrusted] resolves to. *)
Record Filtered : Type := mkFiltered {
  filteredMessages : Messages;
  contextIsTrusted : bool
}.

(** What may become of a content block: a [tool_result] keeps its id and
    error flag and may get a string content; any other block is kept. *)
Definition frameBlock (b b' : ContentBlock) : Prop :=
  match b with
  | ToolResultBlock i c e =>
      b' = b \/ exists s, b' = ToolResultBlock i (ContentString s) e
  | _ => b' = b
  end.

(** What may become of a message: a user message with a non-empty array of
    blocks keeps its role and the shape of its content, block by block; any
    other message is kept. *)
Definition frameMessage (m m' : Message) : Prop :=
  match role m, content m with
  | User, ArrayContent (b :: bs) =>
      exists blocks',
        m' = mkMessage User (ArrayContent blocks')
        /\ Forall2 frameBlock (b :: bs) blocks'
  | _, _ => m' = m
  end.

(** A block sits in a user message of the conversation. *)
Definition hosted (messages : Messages) (b : ContentBlock) : Prop :=
  exists m blocks,
    In m messages /\ role m = User /\ content m = ArrayContent blocks
    /\ In b blocks.

(** The rows cached for a tool-call id. *)
Definition rowsFor (toolUseId : string) (rows : list DualLlmResult)
    : list DualLlmResult :=
  filter (fun r => result_toolCallId r =? toolUseId) rows.

Section Evaluate.

Variable engine : StringEngine.
Variable createDualLlmClient : string -> string -> DualLlmClient.

(** [TrustedDataPolicyModel.evaluate(agentId, toolName, toolResult)] *)
Variable TrustedDataPolicyModel_evaluate :
  string -> string -> option Json -> Evaluation.

(** Body of the inner loop for one content block: the block to push and
    the new value of [hasUntrustedData]. *)
Definition processContentBlock (messages : Messages) (agent apiKey : string)
    (contentBlock : ContentBlock) (hasUntrustedData : bool)
    : M Store (ContentBlock * bool) :=
  match contentBlock with
  | ToolResultBlock toolUseId c is_error =>
      let toolResult := toolResultValue engine c in
      match extractToolNameFromMessages messages toolUseId with
      | Some toolName =>
          if truthy_string toolName then
            let ev := TrustedDataPolicyModel_evaluate agent toolName toolResult in
            let hasUntrustedData :=
              if negb (isTrusted ev) then true else hasUntrustedData in
            if isBlocked ev then
              ret (withContent toolUseId is_error (blockedNotice (reason ev)),
                   hasUntrustedData)
            else if shouldSanitizeWithDualLlm ev then
              existingResult <- DualLlmResultModel_findByToolCallId toolUseId ;;
              match existingResult with
              | Some row =>
                  ret (withContent toolUseId is_error (result row),
                       hasUntrustedData)
              | None =>
                  dualLlmSubagent <-
                    create engine createDualLlmClient
                           messages toolUseId agent apiKey ;;
                  summary <- processWithMainAgent engine dualLlmSubagent ;;
                  ret (withContent toolUseId is_error summary, hasUntrustedData)
              end
            else ret (contentBlock, hasUntrustedData)
          else ret (contentBlock, true)
      | None => ret (contentBlock, true)
      end
  | _ => ret (contentBlock, hasUntrustedData)
  end.

Fixpoint processContentBlocks (messages : Messages) (agent apiKey : string)
    (blocks : list ContentBlock) (hasUntrustedData : bool)
    : M Store (list ContentBlock * bool) :=
  match blocks with
  | [] => ret ([], hasUntrustedData)
  | contentBlock :: rest =>
      r <- processContentBlock messages agent apiKey
                               contentBlock hasUntrustedData ;;
      rs <- processContentBlocks messages agent apiKey rest (snd r) ;;
      ret (fst r :: fst rs, snd rs)
  end.

(** Body of the outer loop for one message. *)
Definition processMessage (messages : Messages) (agent apiKey : string)
    (m : Message) (hasUntrustedData : bool) : M Store (Message * bool) :=
  match role m, content m with
  | User, ArrayContent (b :: bs) =>
      r <- processContentBlocks messages agent apiKey (b :: bs)
                                hasUntrustedData ;;
      ret (mkMessage (role m) (ArrayContent (fst r)), snd r)
  | _, _ => ret (m, hasUntrustedData)
  end.

Fixpoint processMessages (messages : Messages) (agent apiKey : string)
    (todo : Messages) (hasUntrustedData : bool) : M Store (Messages * bool) :=
  match todo with
  | [] => ret ([], hasUntrustedData)
  | m :: rest =>
      r <- processMessage messages agent apiKey m hasUntrustedData ;;
      rs <- processMessages messages agent apiKey rest (snd r) ;;
      ret (fst r :: fst rs, snd rs)
  end.

Definition evaluateIfContextIsTrusted (messages : Messages)
    (agent apiKey : string) : M Store Filtered :=
  r <- processMessages messages agent apiKey messages false ;;
  ret (mkFiltered (fst r) (negb (snd r))).

(** Sanitising the same block [n] times, one run after the other; the
    blocks produced, in order. *)
Fixpoint sanitiseTimes (n : nat) (messages : Messages) (agent apiKey : string)
    (contentBlock : ContentBlock) : M Store (list ContentBlock) :=
  match n with
  | O => ret []
  | S n' =>
      r <- processContentBlock messages agent apiKey contentBlock false ;;
      rs <- sanitiseTimes n' messages agent apiKey contentBlock ;;
      ret (fst r :: rs)
  end.

End Evaluate.

End TrustedData.

(* ===================================================================== *)
(** ** Concrete instances used by the examples *)
(* ===================================================================== *)

Module Examples.

Import ToolInvocationPolicyModel.

(** The members every value other than [null] takes from
    [Object.prototype].  What arrays, strings, numbers and functions add of
    their own is left out of the examples. *)
Definition objectPrototype : list string :=
  [ "constructor"; "__defineGetter__"; "__defineSetter__"; "hasOwnProperty";
    "__lookupGetter__"; "__lookupSetter__"; "isPrototypeOf";
    "propertyIsEnumerable"; "toString"; "valueOf"; "__proto__";
    "toLocaleString" ].

Definition objectMembers (v : Value) (key : string) : option Value :=
  match v with
  | Data JNull => None
  | Data _ =>
      if existsb (String.eqb key) objectPrototype
      then Some (Inherited key) else None
  | Inherited _ => None
  end.

(** [_.get] of the examples. *)
Definition lodashGet : Json -> string -> option Value :=
  Lodash.get objectMembers.

(** A store that returns the rows in the order of the join rows. *)
Definition joinOrder (rows : list ToolInvocationPolicy)
    : list ToolInvocationPolicy := rows.

(** A pattern engine for the examples: a source without metacharacters
    matches where it occurs; an unclosed group does not compile. *)
Definition literalRegExp (source : string) : (string -> bool) + string :=
  if includes source "(" then
    inr ("Invalid regular expression: /" ++ source ++ "/: Unterminated group")
  else inl (fun s => includes s source).

Definition readFileTool : Tool := mkTool "tool-1" "agent-A" "readFile".
Definition sendEmailTool : Tool := mkTool "tool-2" "agent-A" "sendEmail".

(** [readFile] is allowed only under [/home/]. *)
Definition allowHome : ToolInvocationPolicy :=
  mkPolicy "pol-1" "tool-1" "Files must be under /home" "path"
           OpStartsWith "/home/" Allow None.

(** No e-mail to [@grafana.com]. *)
Definition blockGrafana : ToolInvocationPolicy :=
  mkPolicy "pol-2" "tool-2" "Cannot send emails to @grafana.com domain" "to"
           OpEndsWith "@grafana.com" Block None.

(** A block rule on the carbon-copy field, with its own prompt. *)
Definition blockCc : ToolInvocationPolicy :=
  mkPolicy "pol-3" "tool-2" "No carbon copies to evil.com" "cc"
           OpContains "evil.com" Block (Some "cc to evil.com is forbidden").

(** A block rule whose pattern does not compile. *)
Definition blockBadRegex : ToolInvocationPolicy :=
  mkPolicy "pol-4" "tool-2" "Malformed pattern" "to" OpRegex "(" Block None.

Definition db : Database :=
  mkDatabase
    [mkJoin "agent-A" "pol-1"; mkJoin "agent-A" "pol-3"; mkJoin "agent-A" "pol-2"]
    [allowHome; blockGrafana; blockCc; blockBadRegex]
    [readFileTool; sendEmailTool].

Definition dbBadRegex : Database :=
  mkDatabase
    [mkJoin "agent-A" "pol-4"]
    [allowHome; blockGrafana; blockCc; blockBadRegex]
    [readFileTool; sendEmailTool].

Definition emailToGrafana : Json :=
  JObject [("to", JString "x@grafana.com"); ("body", JString "hi")].

(** *** The proxy handler *)

Import Proxy.

Definition dq : string := String (ascii_of_nat 34) EmptyString.
Definition quoted (s : string) : string := dq ++ s ++ dq.

(** The text [{"to":"x@grafana.com","body":"hi"}]. *)
Definition emailToGrafanaText : string :=
  "{" ++ quoted "to" ++ ":" ++ quoted "x@grafana.com" ++ ","
      ++ quoted "body" ++ ":" ++ quoted "hi" ++ "}".

(** The text [{"to":"bob@archestra.ai","body":"hi"}]. *)
Definition emailToBobText : string :=
  "{" ++ quoted "to" ++ ":" ++ quoted "bob@archestra.ai" ++ ","
      ++ quoted "body" ++ ":" ++ quoted "hi" ++ "}".

Definition emailToBob : Json :=
  JObject [("to", JString "bob@archestra.ai"); ("body", JString "hi")].

(** A truncated object: [{"to":"x@grafana.com"] without its closing brace. *)
Definition truncatedText : string :=
  "{" ++ quoted "to" ++ ":" ++ quoted "x@grafana.com".

(** The text [{"emails":[]}] of a tool result. *)
Definition emailsText : string := "{" ++ quoted "emails" ++ ":[]}".

(** [JSON.parse] on the texts of the examples; any other text is rejected
    the way the parser rejects a malformed one. *)
Definition parseTable : list (string * Json) :=
  [ (emailToGrafanaText, emailToGrafana);
    (emailToBobText, emailToBob);
    (emailsText, JObject [("emails", JArray [])]);
    ("null", JNull) ].

Definition tableParse (text : string) : Json + string :=
  match find (fun entry => fst entry =? text) parseTable with
  | Some (_, v) => inl v
  | None => inr "Unexpected end of JSON input"
  end.

(** Escaping of double quotes inside a JSON string. *)
Fixpoint escaped (s : string) : string :=
  match s with
  | EmptyString => EmptyString
  | String c s' =>
      if Ascii.eqb c (ascii_of_nat 34)
      then String (ascii_of_nat 92) (String c (escaped s'))
      else String c (escaped s')
  end.

Definition field (name : string) (v : option string) : string :=
  quoted name ++ ":"
  ++ match v with Some text => quoted (escaped text) | None => "null" end.

Definition deltaText (d : ToolCallDelta) : string :=
  "{" ++ field "id" (delta_id d) ++ "," ++ field "name" (delta_name d)
      ++ "," ++ field "arguments" (delta_arguments d) ++ "}".

(** [JSON.stringify] on the chunks of the examples. *)
Definition chunkText (chunk : ChatCompletionChunk) : string :=
  "{" ++ field "id" (Some (chunk_id chunk)) ++ ","
      ++ field "content" (chunk_content chunk) ++ ","
      ++ quoted "tool_calls" ++ ":["
      ++ String.concat "," (map deltaText (chunk_tool_calls chunk)) ++ "]}".

Definition trustNothing (toolName : string) (toolCallId : option string)
    (output : Json) : TrustResult :=
  mkTrust false "no applicable trusted-data policy matched".

(** The gate of the examples: the policies of [db] for agent A. *)
Definition agentAEvaluate (toolName toolCallId : string) (input : Json)
    : EvaluationResult :=
  match evaluateForAgent lodashGet literalRegExp joinOrder
                         db "agent-A" toolName input with
  | Returned r => r
  | Thrown e => mkResult false (err_message e)
  end.

Definition userAsks : Message :=
  mkMessage "user" (ContentText "email the report") None None.

Definition assistantCalls (arguments : string) : Message :=
  mkMessage "assistant" ContentNull None
            (Some [FunctionToolCall "call-1" "sendEmail" arguments]).

Definition upstreamReply (arguments : string) : ChatCompletionResponse :=
  mkResponse "chatcmpl-1" "gpt-4o"
             [mkChoice 0 (assistantCalls arguments) "tool_calls"].

(** One chunk carrying a whole tool call, then the end of the stream. *)
Definition toolCallChunk : ChatCompletionChunk :=
  mkChunk "chunk-1" None
          [mkDelta 0 (Some "call-1") (Some "sendEmail") (Some emailToGrafanaText)].

Definition upstream (arguments : string) : LLMProvider :=
  mkProvider (fun _ => Returned (upstreamReply arguments))
             (fun _ => ([toolCallChunk], None)).

Definition request (streaming : bool) : ChatCompletionRequest :=
  mkRequest "gpt-4o" [userAsks] streaming.

(** A tool result whose [tool_call_id] no stored assistant message issued. *)
Definition orphanToolMessage : Message :=
  mkMessage "tool" (ContentText emailsText) (Some "call-unknown") None.

Definition requestWithOrphan : ChatCompletionRequest :=
  mkRequest "gpt-4o" [orphanToolMessage; userAsks] false.

Definition freshChat : State := mkState ["chat-1"] [] [] [].

Definition handle (arguments : string) :=
  chatCompletions tableParse chunkText trustNothing agentAEvaluate
                  (upstream arguments) "chat-1".

(** The store once the user message of [request] is recorded. *)
Definition afterIngress : State :=
  mkState ["chat-1"] [mkInteraction "chat-1" userAsks false None] [] [].

(** *** The quarantine sub-agent *)

Import Anthropic DualLlm TrustedData.

(** The text after the first occurrence of [needle], and the text before
    it. *)
Fixpoint textAfter (needle s : string) : option string :=
  if String.prefix needle s
  then Some (substring (String.length needle)
                       (String.length s - String.length needle) s)
  else match s with
       | EmptyString => None
       | String _ s' => textAfter needle s'
       end.

Fixpoint textBefore (needle s : string) : option string :=
  if String.prefix needle s then Some EmptyString
  else match s with
       | EmptyString => None
       | String c s' =>
           match textBefore needle s' with
           | Some t => Some (String c t)
           | None => None
           end
       end.

Definition isSpace (c : ascii) : bool :=
  match nat_of_ascii c with
  | 9 | 10 | 13 | 32 => true
  | _ => false
  end.

Definition isDigit (c : ascii) : bool :=
  ((48 <=? nat_of_ascii c) && (nat_of_ascii c <=? 57))%nat.

Fixpoint dropWhile (f : ascii -> bool) (s : string) : string :=
  match s with
  | EmptyString => EmptyString
  | String c s' => if f c then dropWhile f s' else s
  end.

Fixpoint reversed (s acc : string) : string :=
  match s with
  | EmptyString => acc
  | String c s' => reversed s' (String c acc)
  end.

Definition trimText (s : string) : string :=
  reversed (dropWhile isSpace (reversed (dropWhile isSpace s) "")) "".

(** Replacement of the first occurrence, for replacements without [$]. *)
Definition replaceFirst (s pattern replacement : string) : string :=
  match textBefore pattern s, textAfter pattern s with
  | Some before, Some after => before ++ replacement ++ after
  | _, _ => s
  end.

Definition questionOf (response : string) : option string :=
  match textAfter "QUESTION:" response with
  | Some rest =>
      match textBefore (newline ++ "OPTIONS:") (dropWhile isSpace rest) with
      | Some EmptyString => None
      | other => other
      end
  | None => None
  end.

Definition optionsOf (response : string) : option string :=
  match textAfter "OPTIONS:" response with
  | Some rest =>
      match dropWhile isSpace rest with
      | EmptyString => None
      | text => Some text
      end
  | None => None
  end.

Definition withoutIndex (line : string) : string :=
  match line with
  | String c _ =>
      if isDigit c then
        match dropWhile isDigit line with
        | String ":" rest => dropWhile isSpace rest
        | _ => line
        end
      else line
  | EmptyString => line
  end.

(** The engine of the examples. *)
Definition textEngine : StringEngine :=
  mkEngine replaceFirst trimText questionOf optionsOf withoutIndex
           (fun _ => "<tool result>") tableParse.

Definition prompts : DualLlmConfig :=
  mkConfig "Request: {{originalUserRequest}}"
           "Data: {{toolResultData}} Q: {{question}} O: {{options}} max {{maxIndex}}"
           "Summarise: {{qaText}}"
           3.

(** A privileged model that asks one question with three options, then is
    done, then summarises; a quarantined model that answers with [answer]. *)
Definition askOnce : string :=
  "QUESTION: Who sent the mail?" ++ newline ++ "OPTIONS:" ++ newline
  ++ "0: a colleague" ++ newline ++ "1: a stranger" ++ newline ++ "2: unknown".

Definition scripted (answer : Json) : DualLlmClient :=
  mkClient
    (fun calls conversation =>
       match calls with
       | 0 => Returned askOnce
       | 2 => Returned "DONE"
       | _ => Returned ("summary of " ++ toString (lengthZ conversation)
                        ++ " message(s)")
       end)
    (fun _ _ => Returned answer).

Definition answerOf (x : Number) : Json := JObject [("answer", JNumber x)].

Definition clientFor (answer : Json) (provider apiKey : string) : DualLlmClient :=
  scripted answer.

Definition threeOptions : list string := ["a colleague"; "a stranger"; "unknown"].

Definition subagent (answer : Json) : DualLlmSubagent :=
  mkSubagent prompts "agent-A" "toolu-1" (scripted answer)
             "check my mail" (Some (JObject [("emails", JArray [])])).

Definition emptyStore : Store := mkStore prompts [] 0.

(** A store that already holds the sanitised result of [toolu-1]. *)
Definition cachedStore : Store :=
  mkStore prompts [mkDualLlmResult "agent-A" "toolu-1" [] "SAFE"] 0.

(** An Anthropic conversation: the request, the assistant's tool use, the
    tool result, and a tool result whose [tool_use_id] nobody issued. *)
Definition getEmailsResult : ContentBlock :=
  ToolResultBlock "toolu-1" (ContentString emailsText) None.

Definition orphanResult : ContentBlock :=
  ToolResultBlock "toolu-9" (ContentString emailsText) None.

Definition conversation : Messages :=
  [ Anthropic.mkMessage User (StringContent "check my mail");
    Anthropic.mkMessage Assistant
      (ArrayContent [TextBlock "Let me look.";
                     ToolUseBlock "toolu-1" "getEmails" (JObject [])]);
    Anthropic.mkMessage User
      (ArrayContent [getEmailsResult; TextBlock "and summarise it"]) ].

Definition conversationWithOrphan : Messages :=
  [ Anthropic.mkMessage User (StringContent "check my mail");
    Anthropic.mkMessage User (ArrayContent [orphanResult]) ].

(** No trusted-data policy matches: every result goes to the dual LLM. *)
Definition sanitiseAll (agent toolName : string) (toolResult : option Json)
    : Evaluation :=
  mkEvaluation false false true "no applicable trusted-data policy matched".

Definition evaluateContext (answer : Json) :=
  evaluateIfContextIsTrusted textEngine (clientFor answer) sanitiseAll.

End Examples.

(* ===================================================================== *)
(** ** The rest of [ToolInvocationPolicyModel]: the policy table *)
(* ===================================================================== *)

Module PolicyStore.

Import ToolInvocationPolicyModel.

Section Selects.

(** The order in which the store returns the rows of a select that has no
    ORDER BY, as in [ToolInvocationPolicyModel]. *)
Variable rowOrder : list ToolInvocationPolicy -> list ToolInvocationPolicy.

(** [findAll] *)
Definition findAll (db : Database) : list ToolInvocationPolicy :=
  rowOrder (toolInvocationPoliciesTable db).

(** [findById]: the first of the rows returned, or null. *)
Definition findById (db : Database) (i : string) : option ToolInvocationPolicy :=
  match rowOrder (filter (fun p => id p =? i) (toolInvocationPoliciesTable db)) with
  | policy :: _ => Some policy
  | [] => None
  end.

(** [findByToolId] *)
Definition findByToolId (db : Database) (t : string) : list ToolInvocationPolicy :=
  rowOrder (filter (fun p => toolId p =? t) (toolInvocationPoliciesTable db)).

End Selects.

(** [create]: insert the row and return it.  The row is given as the
    database completes it (its id filled in). *)
Definition create (policy : ToolInvocationPolicy) (db : Database)
    : ToolInvocationPolicy * Database :=
  (policy,
   mkDatabase (agentToolInvocationPoliciesTable db)
              (toolInvocationPoliciesTable db ++ [policy])
              (toolsTable db)).

(** [delete]: remove the rows with this id and report whether one was
    removed.  The join table references the policy with [onDelete:
    "cascade"], so its rows for the policy go too. *)
Definition delete (i : string) (db : Database) : bool * Database :=
  let rowCount :=
    length (filter (fun p => id p =? i) (toolInvocationPoliciesTable db)) in
  ((0 <? rowCount)%nat,
   mkDatabase
     (filter (fun j => negb (join_policyId j =? i))
             (agentToolInvocationPoliciesTable db))
     (filter (fun p => negb (id p =? i)) (toolInvocationPoliciesTable db))
     (toolsTable db)).

End PolicyStore.

(* ===================================================================== *)
(** ** The interaction model: [models/interaction.ts] *)
(* ===================================================================== *)

Module InteractionModel.

Import Proxy.

(** The argument of [create]; [tainted] and [taintReason] are optional. *)
Record CreateData : Type := mkData {
  data_chatId : string;
  data_content : Message;
  data_tainted : option bool;
  data_taintReason : option string
}.

(** [create]: [tainted: data.tainted ?? false]. *)
Definition create (data : CreateData) (rows : list Interaction)
    : Interaction * list Interaction :=
  let row :=
    mkInteraction (data_chatId data) (data_content data)
                  (match data_tainted data with Some b => b | None => false end)
                  (data_taintReason data) in
  (row, (rows ++ [row])%list).

(** [findByChatId]: the rows of the chat, oldest first. *)
Definition findByChatId (c : string) (rows : list Interaction)
    : list Interaction :=
  filter (fun i => chatId i =? c) rows.

(** [findTaintedByChatId]: the tainted rows of the chat, oldest first. *)
Definition findTaintedByChatId (c : string) (rows : list Interaction)
    : list Interaction :=
  filter (fun i => (chatId i =? c) && tainted i) rows.

End InteractionModel.

(* ===================================================================== *)
(** ** Descriptions used to state what the handler and the rewrite do *)
(* ===================================================================== *)

Module ProxySpec.

Import Proxy.

(** The stored history of a chat, newest first, as
    [extractToolNameFromHistory] walks it. *)
Definition history (c : string) (st : State) : list Interaction :=
  rev (filter (fun i => chatId i =? c) (interactions st)).

(** An assistant interaction that issued a function tool call. *)
Definition issued (i : Interaction) (wanted name : string) : Prop :=
  role (interaction_content i) = "assistant"
  /\ exists tcs arguments,
       tool_calls (interaction_content i) = Some tcs
       /\ In (FunctionToolCall wanted name arguments) tcs.

(** An assistant interaction that carries a tool call with this id. *)
Definition carries (i : Interaction) (wanted : string) : Prop :=
  role (interaction_content i) = "assistant"
  /\ exists tcs tc,
       tool_calls (interaction_content i) = Some tcs
       /\ In tc tcs /\ toolCallId tc = wanted.

(** What the handler may add to the interactions of chat [c]: rows of
    that chat; a tainted row is a tool message with a reason. *)
Definition addedRow (c : string) (i : Interaction) : Prop :=
  chatId i = c
  /\ (tainted i = true ->
      role (interaction_content i) = "tool" /\ taintReason i <> None).

(** The store after some handler code for chat [c] ran: the chats are the
    same and the interactions only got rows added at the end. *)
Definition grows (c : string) (st st' : State) : Prop :=
  chats st' = chats st
  /\ exists added,
       interactions st' = (interactions st ++ added)%list
       /\ Forall (addedRow c) added.

(** Nothing was set or written on the reply. *)
Definition quiet (st st' : State) : Prop :=
  replyHeaders st' = replyHeaders st /\ rawWritten st' = rawWritten st.

Section Rows.

Variable JSON_parse : string -> Json + string.
Variable trustedDataEvaluate : string -> option string -> Json -> TrustResult.

(** The row the ingress scan records for one message, the tool name being
    resolved in the history [past]. *)
Definition rowFor (c : string) (past : list Interaction) (m : Message)
    : list Interaction :=
  if role m =? "tool" then
    match JSON_parse (contentText (content m)),
          searchHistory past (tool_call_id m) with
    | inl toolResult, Returned (Some name) =>
        if truthy_string name then
          let r := trustedDataEvaluate name (tool_call_id m) toolResult in
          [mkInteraction c m (negb (isTrusted r)) (Some (trustReason r))]
        else []
    | _, _ => []
    end
  else [].

(** A message the ingress scan gets through without throwing: when it is
    a tool message, its content parses as JSON and the walk through the
    history does not throw. *)
Definition scannable (past : list Interaction) (m : Message) : Prop :=
  role m = "tool" ->
  (exists v, JSON_parse (contentText (content m)) = inl v)
  /\ exists found, searchHistory past (tool_call_id m) = Returned found.

(** The row recorded for the last message when it is a user message. *)
Definition userRow (c : string) (ms : list Message) : list Interaction :=
  match last (map Some ms) None with
  | Some lastMessage =>
      if role lastMessage =? "user"
      then [mkInteraction c lastMessage false None] else []
  | None => []
  end.

End Rows.

End ProxySpec.

Module TrustedDataSpec.

Import Anthropic DualLlm TrustedData.

Section Flags.

Variable engine : StringEngine.
Variable TrustedDataPolicyModel_evaluate :
  string -> string -> option Json -> Evaluation.

(** A block that makes the context untrusted: a [tool_result] whose tool
    name is not resolved, or whose evaluation is not trusted. *)
Definition untrusted (messages : Messages) (agent : string) (b : ContentBlock)
    : bool :=
  match b with
  | ToolResultBlock i c _ =>
      match extractToolNameFromMessages messages i with
      | Some toolName =>
          if truthy_string toolName then
            negb (isTrusted (TrustedDataPolicyModel_evaluate agent toolName
                               (toolResultValue engine c)))
          else true
      | None => true
      end
  | _ => false
  end.

(** A block for which the rewrite has to run the dual LLM: a [tool_result]
    with a resolved tool name, not blocked, to be sanitised, and without a
    cached row among [rows]. *)
Definition needsLlm (messages : Messages) (agent : string)
    (rows : list DualLlmResult) (b : ContentBlock) : bool :=
  match b with
  | ToolResultBlock i c _ =>
      match extractToolNameFromMessages messages i with
      | Some toolName =>
          let ev := TrustedDataPolicyModel_evaluate agent toolName
                      (toolResultValue engine c) in
          truthy_string toolName
          && negb (isBlocked ev)
          && shouldSanitizeWithDualLlm ev
          && match find (fun r => result_toolCallId r =? i) rows with
             | Some _ => false
             | None => true
             end
      | None => false
      end
  | _ => false
  end.

(** The blocks of a message that the rewrite looks at. *)
Definition scanned (m : Message) : list ContentBlock :=
  match role m, content m with
  | User, ArrayContent blocks => blocks
  | _, _ => []
  end.

End Flags.

(** A row the rewrite may add to the cache: for this agent, keyed by the
    id of a [tool_result] block of the conversation. *)
Definition cachedFor (messages : Messages) (agent : string) (r : DualLlmResult)
    : Prop :=
  result_agentId r = agent
  /\ exists c e, hosted messages (ToolResultBlock (result_toolCallId r) c e).

(** The store after some of the rewrite ran: the configuration is the
    same, LLM calls were only made, and the cache only got rows added at
    the end, each for this agent and a [tool_result] of the conversation. *)
Definition cacheGrows (messages : Messages) (agent : string) (st st' : Store)
    : Prop :=
  dualLlmConfig st' = dualLlmConfig st
  /\ (llmCalls st <= llmCalls st')%nat
  /\ exists added,
       dualLlmResults st' = (dualLlmResults st ++ added)%list
       /\ Forall (cachedFor messages agent) added.

(** An assistant message of the conversation that uses a tool under this
    id and name. *)
Definition uses (messages : Messages) (toolUseId toolName : string) : Prop :=
  exists m blocks input,
    In m messages /\ role m = Assistant /\ content m = ArrayContent blocks
    /\ In (ToolUseBlock toolUseId toolName input) blocks.

End TrustedDataSpec.

(* ===================================================================== *)
(** ** The sub-agent for OpenAI-shape messages *)
(* ===================================================================== *)

Module DualLlmOpenAi.

Import DualLlm.
Local Open Scope eff_scope.

(** The [content] of an OpenAI-shape message: a string, an array of parts
    (kept as JSON), or null. *)
Inductive Content : Type :=
| TextContent (s : string)
| PartsContent (parts : Json)
| NoContent.

Record Message : Type := mkMessage {
  role : string;
  content : Content;
  tool_call_id : string
}.

Section Create.

Variable engine : StringEngine.

(** [JSON.stringify] of a content that is not a string. *)
Variable JSON_stringify : Json -> string.

Variable createDualLlmClient : string -> string -> DualLlmClient.

(** [extractUserRequestFromOpenAi]: the content of the last user message,
    or "process this data" when there is none or it is empty; a content
    that is not a string is stringified. *)
Definition extractUserRequestFromOpenAi (messages : list Message) : string :=
  match last (map Some (filter (fun m => role m =? "user") messages)) None with
  | Some m =>
      match content m with
      | TextContent s => if truthy_string s then s else "process this data"
      | PartsContent parts => JSON_stringify parts
      | NoContent => "process this data"
      end
  | None => "process this data"
  end.

(** [extractToolResultFromOpenAi] *)
Definition extractToolResultFromOpenAi (currentMessage : Message)
    : Outcome (option Json) :=
  if negb (role currentMessage =? "tool") then
    Thrown (mkError "Error" "Current message is not a tool message" None)
  else
    Returned match content currentMessage with
             | TextContent s =>
                 match JSON_parse engine s with
                 | inl v => Some v
                 | inr _ => Some (JString s)
                 end
             | PartsContent parts => Some parts
             | NoContent => Some JNull
             end.

(** [DualLlmSubagent.create] with OpenAI parameters. *)
Definition create (messages : list Message) (currentMessage : Message)
    (agent apiKey : string) : M Store DualLlmSubagent :=
  cfg <- DualLlmConfigModel_getDefault ;;
  let client := createDualLlmClient "openai" apiKey in
  if negb (role currentMessage =? "tool") then
    throw (mkError "Error" "currentMessage must be a tool message" None)
  else
    let userRequest := extractUserRequestFromOpenAi messages in
    toolResult <- lift (extractToolResultFromOpenAi currentMessage) ;;
    ret (mkSubagent cfg agent (tool_call_id currentMessage) client
                    userRequest toolResult).

End Create.

End DualLlmOpenAi.

(* ===================================================================== *)
(** ** More concrete instances *)
(* ===================================================================== *)

Module MoreExamples.

Import ToolInvocationPolicyModel Proxy Examples.

(** [sendEmail({to: 42})]: the recipient is a number. *)
Definition emailToNumber : Json :=
  JObject [("to", JNumber (Finite (inject_Z 42)))].

(** Policies on an argument named [constructor], which no call of
    [sendEmail] carries and every object inherits. *)
Definition blockConstructor : ToolInvocationPolicy :=
  mkPolicy "pol-5" "tool-2" "No constructor but x" "constructor"
           OpNotEqual "x" Block None.

Definition allowConstructor : ToolInvocationPolicy :=
  mkPolicy "pol-6" "tool-2" "The constructor must be x" "constructor"
           OpEqual "x" Allow None.

Definition dbBlockConstructor : Database :=
  mkDatabase [mkJoin "agent-A" "pol-5"] [blockConstructor] [sendEmailTool].

Definition dbAllowConstructor : Database :=
  mkDatabase [mkJoin "agent-A" "pol-6"] [allowConstructor] [sendEmailTool].

Definition allowOtherConstructor : ToolInvocationPolicy :=
  mkPolicy "pol-7" "tool-2" "The constructor must not be x" "constructor"
           OpNotEqual "x" Allow None.

Definition dbAllowOtherConstructor : Database :=
  mkDatabase [mkJoin "agent-A" "pol-7"] [allowOtherConstructor] [sendEmailTool].

(** A policy not yet stored and not assigned to anyone. *)
Definition blockAttachments : ToolInvocationPolicy :=
  mkPolicy "pol-9" "tool-2" "No attachments" "attachment"
           OpNotEqual "" Block None.




(** An upstream whose reply carries a custom tool call only. *)
Definition assistantCustom : Message :=
  mkMessage "assistant" ContentNull None
            (Some [CustomToolCall "call-7" "shell" "rm -rf /"]).

Definition customUpstream : LLMProvider :=
  mkProvider (fun _ => Returned (mkResponse "chatcmpl-2" "gpt-4o"
                                   [mkChoice 0 assistantCustom "tool_calls"]))
             (fun _ => ([], None)).

Definition handleCustom :=
  chatCompletions tableParse chunkText trustNothing agentAEvaluate
                  customUpstream "chat-1".

Definition emptyRequest : ChatCompletionRequest := mkRequest "gpt-4o" [] false.

(** A tool result of unknown origin whose content is plain text, and one
    that has no content at all. *)
Definition plainTextOrphan : Message :=
  mkMessage "tool" (ContentText "It is sunny in Lisbon") (Some "call-unknown")
            None.

Definition requestWithPlainOrphan : ChatCompletionRequest :=
  mkRequest "gpt-4o" [plainTextOrphan; userAsks] false.

Definition emptyToolMessage : Message :=
  mkMessage "tool" ContentUndefined (Some "call-1") None.




(** A chat in which the assistant has asked for [getEmails] under the id
    [call-1], and the request that brings the result back. *)
Definition assistantAsksEmails : Message :=
  mkMessage "assistant" ContentNull None
            (Some [FunctionToolCall "call-1" "getEmails" "{}"]).

Definition chatWithCall : State :=
  mkState ["chat-1"]
          [mkInteraction "chat-1" userAsks false None;
           mkInteraction "chat-1" assistantAsksEmails false None]
          [] [].

Definition emailsToolMessage : Message :=
  mkMessage "tool" (ContentText emailsText) (Some "call-1") None.

Definition requestWithResult : ChatCompletionRequest :=
  mkRequest "gpt-4o" [emailsToolMessage; orphanToolMessage; userAsks] false.

Definition requestWithEmptyResult : ChatCompletionRequest :=
  mkRequest "gpt-4o" [emailsToolMessage; emptyToolMessage; userAsks] false.

Import Anthropic DualLlm TrustedData.



(** An evaluation that blocks every result, and one that trusts every
    result. *)
Definition blockAll (agent toolName : string) (toolResult : option Json)
    : Evaluation :=
  mkEvaluation false true true "mail is off limits".

Definition trustAll (agent toolName : string) (toolResult : option Json)
    : Evaluation :=
  mkEvaluation true false false "Reading e-mails is safe".

(** A conversation with no tool result. *)
Definition smallTalk : Messages :=
  [ Anthropic.mkMessage User (StringContent "hello");
    Anthropic.mkMessage Assistant (ArrayContent [TextBlock "Hello!"]);
    Anthropic.mkMessage User (ArrayContent [TextBlock "how are you?"]) ].

(** OpenAI-shape messages. *)
Definition openAiUser : DualLlmOpenAi.Message :=
  DualLlmOpenAi.mkMessage "user" (DualLlmOpenAi.TextContent "check my mail") "".

Definition openAiTool : DualLlmOpenAi.Message :=
  DualLlmOpenAi.mkMessage "tool" (DualLlmOpenAi.TextContent emailsText) "call-1".

End MoreExamples.

(* ===================================================================== *)
(** * Properties *)
(* ===================================================================== *)

Local Open Scope list_scope.

(** ** The tool-invocation evaluator *)

Section EvaluatorFacts.

Import ToolInvocationPolicyModel.

Variable lodash_get : Json -> string -> option Value.
Variable RegExp_new : string -> (string -> bool) + string.
Variable rowOrder : list ToolInvocationPolicy -> list ToolInvocationPolicy.

Local Abbreviation applicablePoliciesForAgent :=
  (ToolInvocationPolicyModel.applicablePoliciesForAgent rowOrder).
Local Abbreviation evaluatePolicies :=
  (ToolInvocationPolicyModel.evaluatePolicies lodash_get RegExp_new).
Local Abbreviation evaluateForAgent :=
  (ToolInvocationPolicyModel.evaluateForAgent lodash_get RegExp_new rowOrder).
Local Abbreviation conditionMet :=
  (ToolInvocationPolicyModel.conditionMet RegExp_new).
Local Abbreviation passes :=
  (ToolInvocationPolicyModel.passes lodash_get RegExp_new).

(** Policies that pass are stepped over. *)
Lemma evaluatePolicies_skip_passing :
  forall toolInput pre rest,
    Forall (passes toolInput) pre ->
    evaluatePolicies (pre ++ rest) toolInput = evaluatePolicies rest toolInput.
Proof.
  intros toolInput pre rest Hpre.
  induction Hpre as [|q pre Hq _ IH]; [reflexivity|].
  cbn [app ToolInvocationPolicyModel.evaluatePolicies].
  unfold ToolInvocationPolicyModel.passes in Hq.
  destruct (lodash_get toolInput (argumentName q)) as [v|].
  - destruct Hq as (met & Hmet & Hval). rewrite Hmet.
    destruct (action q); subst met; cbn; exact IH.
  - rewrite Hq. exact IH.
Qed.

(** A block policy for whose argument [_.get] answers [undefined] can be
    dropped from the list. *)
Lemma evaluatePolicies_drop_absent_block :
  forall toolInput p pre post,
    lodash_get toolInput (argumentName p) = None ->
    action p = Block ->
    evaluatePolicies (pre ++ p :: post) toolInput
    = evaluatePolicies (pre ++ post) toolInput.
Proof.
  intros toolInput p pre post Hget Hact.
  induction pre as [|q pre IH]; cbn [app ToolInvocationPolicyModel.evaluatePolicies].
  - rewrite Hget, Hact. reflexivity.
  - rewrite IH. reflexivity.
Qed.

(** An allow policy for whose argument [_.get] answers [undefined] rules
    out an allowed result, wherever it stands in the list. *)
Lemma evaluatePolicies_absent_allow_never_allowed :
  forall toolInput p policies r,
    In p policies ->
    lodash_get toolInput (argumentName p) = None ->
    action p = Allow ->
    evaluatePolicies policies toolInput = Returned r ->
    isAllowed r = false.
Proof.
  intros toolInput p policies r Hin Hget Hact.
  induction policies as [|q policies IH]; [destruct Hin|].
  cbn [ToolInvocationPolicyModel.evaluatePolicies].
  destruct Hin as [->|Hin].
  - rewrite Hget, Hact. intros [= <-]. reflexivity.
  - destruct (lodash_get toolInput (argumentName q)) as [v|].
    + destruct (ToolInvocationPolicyModel.conditionMet RegExp_new _ v _) as [met|e];
        [|discriminate].
      destruct (action q), met; cbn; try (intros [= <-]; reflexivity); auto.
    + destruct (action q); [intros [= <-]; reflexivity | auto].
Qed.

(** When every policy passes, the call is allowed with an empty reason. *)
Lemma evaluatePolicies_all_pass :
  forall toolInput policies,
    Forall (passes toolInput) policies ->
    evaluatePolicies policies toolInput = Returned (mkResult true "").
Proof.
  intros toolInput policies H.
  rewrite <- (app_nil_r policies).
  rewrite (evaluatePolicies_skip_passing _ _ [] H). reflexivity.
Qed.

(** Where [_.get] answers [undefined] for the argument of an applicable
    policy [p]: if [p] is an allow policy the call is never allowed, and
    when the policies before [p] pass, the call is denied with reason
    "Missing required argument: " followed by the argument name; if [p] is
    a block policy it is skipped, the result being that of the list
    without [p]. *)
Lemma undefined_argument_allow_denies_block_skips :
  forall db agentId toolName toolInput pre p post,
    applicablePoliciesForAgent db agentId toolName = pre ++ p :: post ->
    lodash_get toolInput (argumentName p) = None ->
    match action p with
    | Allow =>
        (forall r, evaluateForAgent db agentId toolName toolInput = Returned r ->
                   isAllowed r = false)
        /\ (Forall (passes toolInput) pre ->
            evaluateForAgent db agentId toolName toolInput
            = Returned (mkResult false
                          ("Missing required argument: " ++ argumentName p)))
    | Block =>
        evaluateForAgent db agentId toolName toolInput
        = evaluatePolicies (pre ++ post) toolInput
    end.
Proof.
  intros db agentId toolName toolInput pre p post Happ Hget.
  unfold ToolInvocationPolicyModel.evaluateForAgent.
  rewrite Happ.
  destruct (action p) eqn:Hact.
  - split.
    + intros r Hr.
      apply (evaluatePolicies_absent_allow_never_allowed
               toolInput p (pre ++ p :: post) r); auto.
      apply in_or_app. right. left. reflexivity.
    + intros Hpre.
      rewrite (evaluatePolicies_skip_passing _ _ _ Hpre).
      cbn [ToolInvocationPolicyModel.evaluatePolicies].
      rewrite Hget, Hact. reflexivity.
  - apply evaluatePolicies_drop_absent_block; assumption.
Qed.

(** What the loop does with a policy whose argument [_.get] finds and
    which is not a string. *)
Lemma evaluatePolicies_not_a_string :
  forall toolInput p rest v,
    lodash_get toolInput (argumentName p) = Some v ->
    (forall s, v <> Data (JString s)) ->
    evaluatePolicies (p :: rest) toolInput
    = match operator p, action p with
      | OpNotEqual, Allow => evaluatePolicies rest toolInput
      | OpNotEqual, Block => Returned (mkResult false (violationReason p))
      | _, Allow => Returned (mkResult false (violationReason p))
      | _, Block => evaluatePolicies rest toolInput
      end.
Proof.
  intros toolInput p rest v Hget Hnot.
  assert (Hmet : conditionMet (operator p) v (value p)
                 = Returned match operator p with
                            | OpNotEqual => true | _ => false end).
  { destruct v as [[| b | n | s | xs | fields] | name];
      try (destruct (operator p); reflexivity).
    exfalso. apply (Hnot s). reflexivity. }
  cbn [ToolInvocationPolicyModel.evaluatePolicies]. rewrite Hget, Hmet.
  destruct (operator p), (action p); reflexivity.
Qed.

(** C2, the behaviour of the code.  The evaluator asks [_.get] for the
    argument and takes [undefined] for "absent".  Let [p] be an applicable
    policy, reached by the loop, whose argument is absent from the tool
    arguments.  Where [_.get] answers [undefined], an allow policy denies
    with "Missing required argument: " and the argument name, and a block
    policy is skipped.  But [_.get] also answers with values that are not
    among the tool arguments: a member the arguments inherit
    ([constructor], [toString], ...), the length of a string or of an
    array.  The policy is then judged on that value, which is not a
    string: a block policy with [notEqual] denies the call, an allow policy
    with [notEqual] is passed, and an allow policy with any other operator
    denies it with the policy's own reason. *)
Theorem absent_argument_found_by_get :
  forall db agentId toolName toolInput pre p post,
    applicablePoliciesForAgent db agentId toolName = pre ++ p :: post ->
    Forall (passes toolInput) pre ->
    argumentAt toolInput (argumentName p) = None ->
    (lodash_get toolInput (argumentName p) = None ->
     evaluateForAgent db agentId toolName toolInput
     = match action p with
       | Allow =>
           Returned (mkResult false
                       ("Missing required argument: " ++ argumentName p))
       | Block => evaluatePolicies post toolInput
       end)
    /\ (forall found,
          lodash_get toolInput (argumentName p) = Some found ->
          (forall s, found <> Data (JString s)) ->
          evaluateForAgent db agentId toolName toolInput
          = match action p, operator p with
            | Block, OpNotEqual =>
                Returned (mkResult false (violationReason p))
            | Block, _ => evaluatePolicies post toolInput
            | Allow, OpNotEqual => evaluatePolicies post toolInput
            | Allow, _ => Returned (mkResult false (violationReason p))
            end).
Proof.
  intros db agentId toolName toolInput pre p post Happ Hpre _.
  unfold ToolInvocationPolicyModel.evaluateForAgent.
  fold (applicablePoliciesForAgent db agentId toolName).
  rewrite Happ, (evaluatePolicies_skip_passing _ _ _ Hpre).
  split.
  - intros Hget. cbn [ToolInvocationPolicyModel.evaluatePolicies].
    rewrite Hget. destruct (action p); reflexivity.
  - intros found Hget Hnot.
    rewrite (evaluatePolicies_not_a_string _ _ _ _ Hget Hnot).
    destruct (action p), (operator p); reflexivity.
Qed.

(** C3. Policies are evaluated in retrieval order and the first denial
    wins: when the policies before [p] pass and [p] has its argument
    present, a block policy whose operator matches, or an allow policy
    whose operator does not match, denies the call; the reason is [p]'s
    block prompt when that is a non-empty string and "Policy violation: "
    followed by [p]'s description otherwise.  When every applicable policy
    passes the result is allowed with an empty deny reason. *)
Theorem first_denial_wins :
  forall db agentId toolName toolInput,
    (forall pre p post v met,
        applicablePoliciesForAgent db agentId toolName = pre ++ p :: post ->
        Forall (passes toolInput) pre ->
        lodash_get toolInput (argumentName p) = Some v ->
        conditionMet (operator p) v (value p) = Returned met ->
        met = match action p with Block => true | Allow => false end ->
        evaluateForAgent db agentId toolName toolInput
        = Returned (mkResult false
                      match blockPrompt p with
                      | Some (String c s) => String c s
                      | _ => "Policy violation: " ++ description p
                      end))
    /\ (Forall (passes toolInput)
               (applicablePoliciesForAgent db agentId toolName) ->
        evaluateForAgent db agentId toolName toolInput
        = Returned (mkResult true "")).
Proof.
  intros db agentId toolName toolInput. split.
  - intros pre p post v met Happ Hpre Hget Hmet Hval.
    unfold ToolInvocationPolicyModel.evaluateForAgent.
    rewrite Happ.
    rewrite (evaluatePolicies_skip_passing _ _ _ Hpre).
    cbn [ToolInvocationPolicyModel.evaluatePolicies].
    rewrite Hget, Hmet.
    unfold violationReason.
    destruct (action p); subst met; cbn;
      destruct (blockPrompt p) as [[|c s]|]; reflexivity.
  - intros Hall.
    apply evaluatePolicies_all_pass. exact Hall.
Qed.

(** C6, the behaviour of the code.  A regex policy whose value does not
    compile, reached with a string argument, makes the evaluator throw the
    pattern's [SyntaxError]: no allow or deny result is returned and the
    policy is not skipped. *)
Theorem invalid_regex_throws :
  forall db agentId toolName toolInput pre p post s msg,
    applicablePoliciesForAgent db agentId toolName = pre ++ p :: post ->
    Forall (passes toolInput) pre ->
    operator p = OpRegex ->
    RegExp_new (value p) = inr msg ->
    lodash_get toolInput (argumentName p) = Some (Data (JString s)) ->
    evaluateForAgent db agentId toolName toolInput = Thrown (SyntaxError msg).
Proof.
  intros db agentId toolName toolInput pre p post s msg Happ Hpre Hop Hbad Hget.
  unfold ToolInvocationPolicyModel.evaluateForAgent.
  rewrite Happ.
  rewrite (evaluatePolicies_skip_passing _ _ _ Hpre).
  cbn [ToolInvocationPolicyModel.evaluatePolicies].
  rewrite Hget, Hop. cbn. rewrite Hbad. reflexivity.
Qed.

End EvaluatorFacts.

(** ** The chat-completions handler *)

Section ProxyFacts.

Import ToolInvocationPolicyModel Proxy ProxySpec.

Variable JSON_parse : string -> Json + string.
Variable JSON_stringify : ChatCompletionChunk -> string.
Variable trustedDataEvaluate : string -> option string -> Json -> TrustResult.
Variable toolInvocationEvaluate : string -> string -> Json -> EvaluationResult.
Variable llmProvider : LLMProvider.

Local Abbreviation evaluateToolCalls :=
  (Proxy.evaluateToolCalls JSON_parse toolInvocationEvaluate).
Local Abbreviation toolCallPasses :=
  (Proxy.toolCallPasses JSON_parse toolInvocationEvaluate).
Local Abbreviation processIncomingMessage :=
  (Proxy.processIncomingMessage JSON_parse trustedDataEvaluate).
Local Abbreviation processIncomingMessages :=
  (Proxy.processIncomingMessages JSON_parse trustedDataEvaluate).
Local Abbreviation ingress :=
  (Proxy.ingress JSON_parse trustedDataEvaluate).
Local Abbreviation tryBlock :=
  (Proxy.tryBlock JSON_parse JSON_stringify trustedDataEvaluate
                  toolInvocationEvaluate llmProvider).
Local Abbreviation chatCompletions :=
  (Proxy.chatCompletions JSON_parse JSON_stringify trustedDataEvaluate
                         toolInvocationEvaluate llmProvider).
Local Abbreviation handleNonStreaming :=
  (Proxy.handleNonStreaming JSON_parse toolInvocationEvaluate llmProvider).
Local Abbreviation handleStreaming :=
  (Proxy.handleStreaming JSON_stringify llmProvider).
Local Abbreviation sseEvent := (Proxy.sseEvent JSON_stringify).

(** *** What the handler's parts may change *)

Lemma grows_refl : forall c st, grows c st st.
Proof.
  intros c st. split; [reflexivity|].
  exists []. rewrite app_nil_r. split; [reflexivity | constructor].
Qed.

Lemma grows_trans :
  forall c a b d, grows c a b -> grows c b d -> grows c a d.
Proof.
  intros c a b d (C1 & add1 & I1 & F1) (C2 & add2 & I2 & F2).
  split; [congruence|].
  exists (add1 ++ add2). split.
  - rewrite I2, I1, app_assoc. reflexivity.
  - apply Forall_app. split; assumption.
Qed.

Lemma quiet_refl : forall st, quiet st st.
Proof. intros st. split; reflexivity. Qed.

Lemma quiet_trans : forall a b d, quiet a b -> quiet b d -> quiet a d.
Proof. intros a b d [H1 H2] [H3 H4]. split; congruence. Qed.

(** A branch that stops where it is. *)
Ltac idle :=
  intros [= _ <-]; split; [apply grows_refl | apply quiet_refl].

Lemma create_grows :
  forall c i st,
    addedRow c i ->
    grows c st (snd (InteractionModel_create i st))
    /\ quiet st (snd (InteractionModel_create i st)).
Proof.
  intros c i st Hrow. unfold InteractionModel_create, modify. cbn.
  split; [|split; reflexivity].
  split; [reflexivity|].
  exists [i]. split; [reflexivity|]. constructor; [exact Hrow | constructor].
Qed.

Lemma parse_state :
  forall text st, snd (parse JSON_parse text st) = st.
Proof.
  intros text st. unfold parse. destruct (JSON_parse text); reflexivity.
Qed.

Lemma extractToolNameFromHistory_run :
  forall c wanted st,
    extractToolNameFromHistory c wanted st
    = (searchHistory (history c st) wanted, st).
Proof. reflexivity. Qed.

Lemma processIncomingMessage_grows :
  forall c m st,
    grows c st (snd (processIncomingMessage c m st))
    /\ quiet st (snd (processIncomingMessage c m st)).
Proof.
  intros c m st.
  destruct (processIncomingMessage c m st) as [o s] eqn:Hrun. cbn [snd].
  revert Hrun. unfold Proxy.processIncomingMessage.
  destruct (role m =? "tool")%string eqn:Hrole; [|idle].
  apply String.eqb_eq in Hrole.
  unfold bind at 1, parseContent.
  pose proof (parse_state (contentText (content m)) st) as Hst.
  destruct (parse JSON_parse (contentText (content m)) st) as [[v|e] s1];
    cbn [snd] in Hst; subst s1; [|idle].
  unfold bind at 1. rewrite extractToolNameFromHistory_run.
  destruct (searchHistory (history c st) (tool_call_id m)) as [[name|]|e];
    try idle.
  destruct (truthy_string name); [|idle].
  intros Hrun.
  pose proof (create_grows c
                (mkInteraction c m
                   (negb (isTrusted (trustedDataEvaluate name (tool_call_id m) v)))
                   (Some (trustReason (trustedDataEvaluate name (tool_call_id m) v))))
                st) as Hc.
  rewrite Hrun in Hc. cbn [snd] in Hc. apply Hc.
  split; [reflexivity|]. intros _. split; [exact Hrole | discriminate].
Qed.

Lemma processIncomingMessages_grows :
  forall c ms st,
    grows c st (snd (processIncomingMessages c ms st))
    /\ quiet st (snd (processIncomingMessages c ms st)).
Proof.
  intros c ms. induction ms as [|m ms IH]; intros st.
  - split; [apply grows_refl | apply quiet_refl].
  - destruct (processIncomingMessages c (m :: ms) st) as [o s] eqn:Hrun.
    cbn [snd]. revert Hrun.
    cbn [Proxy.processIncomingMessages]. unfold bind at 1.
    pose proof (processIncomingMessage_grows c m st) as [G1 Q1].
    destruct (processIncomingMessage c m st) as [[[]|e] s1]; cbn [snd] in *.
    + intros Hrun. destruct (IH s1) as [G2 Q2]. rewrite Hrun in G2, Q2.
      cbn [snd] in *.
      split; [eapply grows_trans | eapply quiet_trans]; eassumption.
    + intros [= _ <-]. split; assumption.
Qed.

Lemma storeUserMessage_grows :
  forall c ms st,
    grows c st (snd (storeUserMessage c ms st))
    /\ quiet st (snd (storeUserMessage c ms st)).
Proof.
  intros c ms st. unfold storeUserMessage.
  destruct (last (map Some ms) None) as [lastMessage|];
    [|split; [apply grows_refl | apply quiet_refl]].
  destruct (role lastMessage =? "user")%string;
    [|split; [apply grows_refl | apply quiet_refl]].
  apply create_grows. split; [reflexivity | discriminate].
Qed.

Lemma ingress_grows :
  forall c requestBody st,
    grows c st (snd (ingress c requestBody st))
    /\ quiet st (snd (ingress c requestBody st)).
Proof.
  intros c requestBody st.
  destruct (ingress c requestBody st) as [o s] eqn:Hrun. cbn [snd].
  revert Hrun. unfold Proxy.ingress, bind.
  pose proof (processIncomingMessages_grows c (messages requestBody) st)
    as [G1 Q1].
  destruct (processIncomingMessages c (messages requestBody) st)
    as [[[]|e] s1]; cbn [snd] in *.
  - intros Hrun.
    destruct (storeUserMessage_grows c (messages requestBody) s1) as [G2 Q2].
    rewrite Hrun in G2, Q2. cbn [snd] in *.
    split; [eapply grows_trans | eapply quiet_trans]; eassumption.
  - intros [= _ <-]. split; assumption.
Qed.

Lemma evaluateToolCalls_state :
  forall tcs st, snd (evaluateToolCalls tcs st) = st.
Proof.
  induction tcs as [|tc tcs IH]; intros st; [reflexivity|].
  cbn [Proxy.evaluateToolCalls].
  destruct tc as [i name arguments | i name input]; [|apply IH].
  unfold bind, parse. destruct (JSON_parse arguments) as [v|msg]; cbn;
    [|reflexivity].
  destruct (negb (isAllowed (toolInvocationEvaluate name i v)));
    [reflexivity | apply IH].
Qed.

Lemma handleNonStreaming_grows :
  forall c requestBody st,
    grows c st (snd (handleNonStreaming c requestBody st))
    /\ quiet st (snd (handleNonStreaming c requestBody st)).
Proof.
  intros c requestBody st.
  destruct (handleNonStreaming c requestBody st) as [o s] eqn:Hrun. cbn [snd].
  revert Hrun. unfold Proxy.handleNonStreaming, bind at 1, lift.
  destruct (chatCompletion llmProvider requestBody) as [response|e]; [|idle].
  destruct (choices response) as [|first others]; [unfold throw; idle|].
  unfold bind at 1.
  assert (Hstored :
            (InteractionModel_create (mkInteraction c (message first) false None) ;;;
             ret (SentJson 200 (CompletionBody response)))%eff st = (o, s) ->
            grows c st s /\ quiet st s).
  { unfold bind, ret, InteractionModel_create, modify. intros [= _ <-].
    split; [|split; reflexivity].
    split; [reflexivity|]. eexists. split; [reflexivity|].
    constructor; [|constructor]. split; [reflexivity | discriminate]. }
  destruct (tool_calls (message first)) as [tcs|].
  - pose proof (evaluateToolCalls_state tcs st) as Hgate.
    destruct (evaluateToolCalls tcs st) as [[[reason|]|e] s1];
      cbn [snd] in Hgate; subst s1; try (unfold ret; idle).
    exact Hstored.
  - unfold ret at 1. exact Hstored.
Qed.

(** *** The gate *)

(** Tool calls that pass are stepped over. *)
Lemma evaluateToolCalls_skip_passing :
  forall pre rest st,
    Forall toolCallPasses pre ->
    evaluateToolCalls (pre ++ rest) st = evaluateToolCalls rest st.
Proof.
  intros pre rest st Hpre.
  induction Hpre as [|tc pre Htc _ IH]; [reflexivity|].
  cbn [app Proxy.evaluateToolCalls].
  destruct tc as [i name arguments | i name input]; [|exact IH].
  destruct Htc as (toolInput & Hparse & Hallowed).
  unfold bind, parse. rewrite Hparse. cbn. rewrite Hallowed. cbn. exact IH.
Qed.

Lemma evaluateToolCalls_all_pass :
  forall tcs st,
    Forall toolCallPasses tcs ->
    evaluateToolCalls tcs st = (Returned None, st).
Proof.
  intros tcs st H.
  rewrite <- (app_nil_r tcs).
  rewrite (evaluateToolCalls_skip_passing _ [] st H). reflexivity.
Qed.

Lemma rawStarted_quiet :
  forall st st', quiet st st' -> rawStarted st st' = false.
Proof.
  intros st st' [_ H]. unfold rawStarted. rewrite H, Nat.eqb_refl. reflexivity.
Qed.

(** The handler up to the upstream answer, for a request that is not
    streamed. *)
Lemma chatCompletions_non_streaming :
  forall c requestBody st st1,
    existsb (String.eqb c) (chats st) = true ->
    stream requestBody = false ->
    ingress c requestBody st = (Returned tt, st1) ->
    chatCompletions c requestBody st
    = match handleNonStreaming c requestBody st1 with
      | (Returned sent, st') => (sent, st')
      | (Thrown e, st') => (catchBlock e false, st')
      end.
Proof.
  intros c requestBody st st1 Hchat Hstream Hingress.
  unfold Proxy.chatCompletions, Proxy.tryBlock. rewrite Hchat.
  unfold bind at 1. rewrite Hingress, Hstream.
  pose proof (ingress_grows c requestBody st) as [_ Q1].
  rewrite Hingress in Q1. cbn [snd] in Q1.
  pose proof (handleNonStreaming_grows c requestBody st1) as [_ Q2].
  destruct (handleNonStreaming c requestBody st1) as [[sent|e] st'];
    [reflexivity|].
  cbn [snd] in Q2.
  rewrite (rawStarted_quiet _ _ (quiet_trans _ _ _ Q1 Q2)). reflexivity.
Qed.

(** The handler when the ingress phase throws. *)
Lemma chatCompletions_ingress_throws :
  forall c requestBody st st1 e,
    existsb (String.eqb c) (chats st) = true ->
    ingress c requestBody st = (Thrown e, st1) ->
    chatCompletions c requestBody st = (catchBlock e false, st1).
Proof.
  intros c requestBody st st1 e Hchat Hingress.
  unfold Proxy.chatCompletions, Proxy.tryBlock. rewrite Hchat.
  unfold bind at 1. rewrite Hingress.
  pose proof (ingress_grows c requestBody st) as [_ Q1].
  rewrite Hingress in Q1. cbn [snd] in Q1.
  rewrite (rawStarted_quiet _ _ Q1). reflexivity.
Qed.

(** The non-streaming tail, once the upstream answer is known. *)
Lemma handleNonStreaming_gate :
  forall c requestBody st1 response first others tcs,
    chatCompletion llmProvider requestBody = Returned response ->
    choices response = first :: others ->
    tool_calls (message first) = Some tcs ->
    handleNonStreaming c requestBody st1
    = match evaluateToolCalls tcs st1 with
      | (Returned (Some reason), s) =>
          (Returned (SentJson 403 (ErrorBody reason "tool_invocation_blocked")), s)
      | (Returned None, s) =>
          (Returned (SentJson 200 (CompletionBody response)),
           mkState (chats s)
                   (interactions s
                    ++ [mkInteraction c (message first) false None])
                   (replyHeaders s) (rawWritten s))
      | (Thrown e, s) => (Thrown e, s)
      end.
Proof.
  intros c requestBody st1 response first others tcs Hup Hchoices Htcs.
  unfold Proxy.handleNonStreaming, bind at 1, lift.
  rewrite Hup, Hchoices, Htcs.
  unfold bind at 1.
  destruct (evaluateToolCalls tcs st1) as [[[reason|]|e] s]; reflexivity.
Qed.

(** C1. For a non-streaming request whose upstream response's first
    choice carries tool calls, the function tool calls are evaluated in
    order.  At the first one the evaluator denies, the handler answers
    HTTP 403 with body [{error: {message: denyReason, type:
    "tool_invocation_blocked"}}] and the store is the one left by the
    ingress phase: the assistant message is not persisted.  When every
    tool call passes, the assistant message is appended to the
    interactions and the upstream response is sent with status 200. *)
Theorem tool_call_gate :
  forall c requestBody st st1 response first others tcs,
    existsb (String.eqb c) (chats st) = true ->
    stream requestBody = false ->
    ingress c requestBody st = (Returned tt, st1) ->
    chatCompletion llmProvider requestBody = Returned response ->
    choices response = first :: others ->
    tool_calls (message first) = Some tcs ->
    (forall pre i name arguments post toolInput,
        tcs = pre ++ FunctionToolCall i name arguments :: post ->
        Forall toolCallPasses pre ->
        JSON_parse arguments = inl toolInput ->
        isAllowed (toolInvocationEvaluate name i toolInput) = false ->
        chatCompletions c requestBody st
        = (SentJson 403
             (ErrorBody (denyReason (toolInvocationEvaluate name i toolInput))
                        "tool_invocation_blocked"),
           st1))
    /\ (Forall toolCallPasses tcs ->
        chatCompletions c requestBody st
        = (SentJson 200 (CompletionBody response),
           mkState (chats st1)
                   (interactions st1
                    ++ [mkInteraction c (message first) false None])
                   (replyHeaders st1) (rawWritten st1))).
Proof.
  intros c requestBody st st1 response first others tcs
         Hchat Hstream Hingress Hup Hchoices Htcs.
  rewrite (chatCompletions_non_streaming _ _ _ _ Hchat Hstream Hingress).
  split.
  - intros pre i name arguments post toolInput Hsplit Hpre Hparse Hdeny.
    rewrite (handleNonStreaming_gate _ _ _ _ _ _ _ Hup Hchoices Htcs).
    rewrite Hsplit, (evaluateToolCalls_skip_passing _ _ _ Hpre).
    cbn [Proxy.evaluateToolCalls]. unfold bind, parse. rewrite Hparse.
    cbn. rewrite Hdeny. reflexivity.
  - intros Hall.
    rewrite (handleNonStreaming_gate _ _ _ _ _ _ _ Hup Hchoices Htcs).
    rewrite (evaluateToolCalls_all_pass _ _ Hall). reflexivity.
Qed.

(** C7, as the code has it.  When the gate reaches a function tool call
    whose arguments are not valid JSON, the parser's [SyntaxError] goes to
    the handler's catch block: the reply is HTTP 500 with body [{error:
    {message: <the parser's message>, type: "api_error"}}], and the
    assistant message is not persisted. *)
Theorem unparseable_arguments_answer_api_error :
  forall c requestBody st st1 response first others pre i name arguments post msg,
    existsb (String.eqb c) (chats st) = true ->
    stream requestBody = false ->
    ingress c requestBody st = (Returned tt, st1) ->
    chatCompletion llmProvider requestBody = Returned response ->
    choices response = first :: others ->
    tool_calls (message first)
    = Some (pre ++ FunctionToolCall i name arguments :: post) ->
    Forall toolCallPasses pre ->
    JSON_parse arguments = inr msg ->
    chatCompletions c requestBody st
    = (SentJson 500 (ErrorBody msg "api_error"), st1).
Proof.
  intros c requestBody st st1 response first others pre i name arguments post msg
         Hchat Hstream Hingress Hup Hchoices Htcs Hpre Hbad.
  rewrite (chatCompletions_non_streaming _ _ _ _ Hchat Hstream Hingress).
  rewrite (handleNonStreaming_gate _ _ _ _ _ _ _ Hup Hchoices Htcs).
  rewrite (evaluateToolCalls_skip_passing _ _ _ Hpre).
  cbn [Proxy.evaluateToolCalls]. unfold bind, parse. rewrite Hbad.
  reflexivity.
Qed.

(** Relaying writes one event per chunk, in order, and nothing else. *)
Lemma relayChunks_written :
  forall chunks st,
    relayChunks JSON_stringify chunks st
    = (Returned tt,
       mkState (chats st) (interactions st) (replyHeaders st)
               (rawWritten st ++ map sseEvent chunks)).
Proof.
  induction chunks as [|chunk rest IH]; intros st.
  - cbn. rewrite app_nil_r. destruct st; reflexivity.
  - cbn [relayChunks map]. unfold bind at 1, reply_raw_write, modify.
    rewrite IH. cbn. rewrite <- app_assoc. reflexivity.
Qed.

Lemma handleStreaming_run :
  forall requestBody st,
    handleStreaming requestBody st
    = let (chunks, failure) := chatCompletionStream llmProvider requestBody in
      let headers :=
        replyHeaders st ++ [("Content-Type", "text/event-stream");
                            ("Cache-Control", "no-cache");
                            ("Connection", "keep-alive")] in
      match failure with
      | Some e =>
          (Thrown e,
           mkState (chats st) (interactions st) headers
                   (rawWritten st ++ map sseEvent chunks))
      | None =>
          (Returned RawEnded,
           mkState (chats st) (interactions st) headers
                   (rawWritten st ++ map sseEvent chunks
                    ++ [("data: [DONE]" ++ newline ++ newline)%string]))
      end.
Proof.
  intros requestBody st. unfold Proxy.handleStreaming.
  destruct (chatCompletionStream llmProvider requestBody) as [chunks failure].
  unfold bind at 1, reply_header, modify.
  cbn [chats interactions replyHeaders rawWritten].
  unfold bind at 1. cbn [chats interactions replyHeaders rawWritten].
  unfold bind at 1. cbn [chats interactions replyHeaders rawWritten].
  unfold bind at 1. rewrite relayChunks_written.
  cbn [chats interactions replyHeaders rawWritten].
  rewrite <- !app_assoc. cbn [app].
  destruct failure as [e|]; [reflexivity|].
  unfold bind, reply_raw_write, modify, ret. cbn. rewrite <- app_assoc.
  reflexivity.
Qed.

(** C4, the behaviour of the code.  A streamed request whose upstream
    stream completes is answered with one [data: <json>] event per chunk
    followed by [data: [DONE]], and nothing else: the tool-invocation
    evaluator is not consulted, so no error event is written, whatever
    tool calls the chunks carry. *)
Theorem streaming_relays_without_gate :
  forall c requestBody st st1 chunks,
    existsb (String.eqb c) (chats st) = true ->
    stream requestBody = true ->
    ingress c requestBody st = (Returned tt, st1) ->
    chatCompletionStream llmProvider requestBody = (chunks, None) ->
    chatCompletions c requestBody st
    = (RawEnded,
       mkState (chats st1) (interactions st1)
               (replyHeaders st1
                ++ [("Content-Type", "text/event-stream");
                    ("Cache-Control", "no-cache");
                    ("Connection", "keep-alive")])
               (rawWritten st1 ++ map sseEvent chunks
                ++ [("data: [DONE]" ++ newline ++ newline)%string])).
Proof.
  intros c requestBody st st1 chunks Hchat Hstream Hingress Hup.
  unfold Proxy.chatCompletions, tryBlock. rewrite Hchat.
  unfold bind at 1. rewrite Hingress, Hstream.
  unfold Proxy.handleStreaming. rewrite Hup.
  unfold bind at 1, reply_header, modify. cbn [chats interactions replyHeaders rawWritten].
  unfold bind at 1. cbn [chats interactions replyHeaders rawWritten].
  unfold bind at 1. cbn [chats interactions replyHeaders rawWritten].
  unfold bind at 1. rewrite relayChunks_written.
  cbn. rewrite <- !app_assoc. reflexivity.
Qed.

(** *** Tool messages of unknown origin *)

(** A tool message whose [tool_call_id] no stored assistant message of the
    chat carries: its content is parsed first; the store is left as it
    was, whether the parse succeeds or throws. *)
Lemma unresolved_tool_message_run :
  forall c m st,
    role m = "tool" ->
    searchHistory (history c st) (tool_call_id m) = Returned None ->
    processIncomingMessage c m st
    = (match JSON_parse (contentText (content m)) with
       | inl _ => Returned tt
       | inr msg => Thrown (SyntaxError msg)
       end, st).
Proof.
  intros c m st Hrole Hsearch.
  unfold Proxy.processIncomingMessage. rewrite Hrole.
  cbn [String.eqb Ascii.eqb Bool.eqb].
  unfold bind at 1, parseContent, parse.
  destruct (JSON_parse (contentText (content m))) as [v|msg]; [|reflexivity].
  unfold ret. unfold bind at 1. rewrite extractToolNameFromHistory_run.
  rewrite Hsearch. reflexivity.
Qed.

Lemma processIncomingMessages_app :
  forall c pre rest st,
    processIncomingMessages c (pre ++ rest) st
    = match processIncomingMessages c pre st with
      | (Returned _, s) => processIncomingMessages c rest s
      | (Thrown e, s) => (Thrown e, s)
      end.
Proof.
  intros c pre rest. induction pre as [|m pre IH]; intros st; [reflexivity|].
  cbn [app Proxy.processIncomingMessages]. unfold bind.
  destruct (processIncomingMessage c m st) as [[[]|e] s1]; [apply IH|reflexivity].
Qed.

(** The same inside a request: when the scan reaches such a message, a
    content that does not parse ends the request with status 500; a content
    that parses lets the try block go on from the store as it was, with
    the messages after it, the user message and the upstream call on the
    request as it came in. *)
Lemma unresolved_tool_message_in_request :
  forall c requestBody st st1 pre m post,
    existsb (String.eqb c) (chats st) = true ->
    messages requestBody = pre ++ m :: post ->
    processIncomingMessages c pre st = (Returned tt, st1) ->
    role m = "tool" ->
    searchHistory (history c st1) (tool_call_id m) = Returned None ->
    match JSON_parse (contentText (content m)) with
    | inl _ =>
        tryBlock c requestBody st
        = (processIncomingMessages c post ;;;
           storeUserMessage c (messages requestBody) ;;;
           if stream requestBody then handleStreaming requestBody
           else handleNonStreaming c requestBody)%eff st1
    | inr msg =>
        chatCompletions c requestBody st
        = (SentJson 500 (ErrorBody msg "api_error"), st1)
    end.
Proof.
  intros c requestBody st st1 pre m post Hchat Hmessages Hpre Hrole Hsearch.
  assert (Hscan : processIncomingMessages c (messages requestBody) st
                  = match JSON_parse (contentText (content m)) with
                    | inl _ => processIncomingMessages c post st1
                    | inr msg => (Thrown (SyntaxError msg), st1)
                    end).
  { rewrite Hmessages, processIncomingMessages_app, Hpre.
    cbn [Proxy.processIncomingMessages]. unfold bind at 1.
    rewrite (unresolved_tool_message_run _ _ _ Hrole Hsearch).
    destruct (JSON_parse (contentText (content m))); reflexivity. }
  destruct (JSON_parse (contentText (content m))) as [v|msg].
  - unfold Proxy.tryBlock, Proxy.ingress, bind. rewrite Hscan.
    destruct (processIncomingMessages c post st1) as [[[]|e] s2];
      [|reflexivity].
    destruct (storeUserMessage c (messages requestBody) s2) as [[[]|e] s3];
      reflexivity.
  - rewrite (chatCompletions_ingress_throws c requestBody st st1
               (SyntaxError msg) Hchat); [reflexivity|].
    unfold Proxy.ingress, bind. rewrite Hscan. reflexivity.
Qed.

End ProxyFacts.

(** ** The quarantine sub-agent *)

Section DualLlmFacts.

Import Anthropic DualLlm.

Variable engine : StringEngine.

Local Abbreviation answerQuestion := (DualLlm.answerQuestion engine).
Local Abbreviation questionLoop := (DualLlm.questionLoop engine).
Local Abbreviation generateSummary := (DualLlm.generateSummary engine).
Local Abbreviation processWithMainAgent := (DualLlm.processWithMainAgent engine).
Local Abbreviation quarantinedPromptFor := (DualLlm.quarantinedPromptFor engine).

Lemma onlyCalls_refl : forall st, onlyCalls st st.
Proof. intros st. repeat split; auto. Qed.

Lemma onlyCalls_trans :
  forall a b c, onlyCalls a b -> onlyCalls b c -> onlyCalls a c.
Proof.
  intros a b c (H1 & H2 & H3) (H4 & H5 & H6).
  repeat split; try congruence. lia.
Qed.

Lemma validateAnswer_range :
  forall parsed n, (1 <= n)%Z -> (0 <= validateAnswer parsed n < n)%Z.
Proof.
  intros parsed n Hn. unfold validateAnswer.
  destruct (falsy parsed); [lia|].
  destruct (prop parsed "answer") as [[| |[q| |]| | |]|]; try lia.
  cbv zeta.
  destruct (Qfloor q <? 0)%Z eqn:Hlo; cbn [orb]; [lia|].
  destruct (Qfloor q >=? n)%Z eqn:Hhi; [lia|].
  apply Z.ltb_ge in Hlo. rewrite Z.geb_leb in Hhi. apply Z.leb_gt in Hhi. lia.
Qed.

Lemma answerQuestion_run :
  forall self question options st,
    answerQuestion self question options st
    = (match chatWithSchema (llmClient self) (llmCalls st)
               [mkMsg "user" (quarantinedPromptFor self question options)] with
       | Returned parsed => Returned (validateAnswer parsed (lengthZ options))
       | Thrown e => Thrown e
       end,
       mkStore (dualLlmConfig st) (dualLlmResults st) (S (llmCalls st))).
Proof.
  intros self question options st.
  unfold DualLlm.answerQuestion, bind, llm_chatWithSchema, ret.
  destruct (chatWithSchema _ _ _); reflexivity.
Qed.

(** C9, as the code has it.  With at least one option, the index chosen
    for a quarantined reply is within [0, n).  A reply that is null, or
    whose [answer] is absent or not a number, selects the last option.  A
    numeric answer is rounded down; the rounded value is selected when it
    is within [0, n), the last option otherwise, so an integer outside
    [0, n) selects the last option, and with three options the answer 9
    selects index 2. *)
Theorem quarantined_answer_clamped :
  forall self question options st parsed,
    (1 <= length options)%nat ->
    chatWithSchema (llmClient self) (llmCalls st)
      [mkMsg "user" (quarantinedPromptFor self question options)]
    = Returned parsed ->
    exists k,
      fst (answerQuestion self question options st) = Returned k
      /\ (0 <= k < lengthZ options)%Z
      /\ (falsy parsed = true
          \/ prop parsed "answer" = None
          \/ (exists v, prop parsed "answer" = Some v
                        /\ forall x, v <> JNumber x) ->
          k = (lengthZ options - 1)%Z)
      /\ (forall q,
            falsy parsed = false ->
            prop parsed "answer" = Some (JNumber (Finite q)) ->
            k = if ((0 <=? Qfloor q) && (Qfloor q <? lengthZ options))%Z
                then Qfloor q else (lengthZ options - 1)%Z)
      /\ (forall z,
            falsy parsed = false ->
            prop parsed "answer" = Some (JNumber (Finite (inject_Z z))) ->
            ~ (0 <= z < lengthZ options)%Z ->
            k = (lengthZ options - 1)%Z)
      /\ (length options = 3%nat ->
          parsed = JObject [("answer", JNumber (Finite (inject_Z 9)))] ->
          k = 2%Z).
Proof.
  intros self question options st parsed Hn Hreply.
  exists (validateAnswer parsed (lengthZ options)).
  rewrite answerQuestion_run, Hreply. cbn [fst].
  split; [reflexivity|].
  split; [apply validateAnswer_range; unfold lengthZ; lia|].
  unfold validateAnswer.
  split; [|split; [|split]].
  - intros [Hf | [Habs | (v & Hv & Hnot)]].
    + rewrite Hf. reflexivity.
    + rewrite Habs. destruct (falsy parsed); reflexivity.
    + rewrite Hv. destruct (falsy parsed); [reflexivity|].
      destruct v as [| |x| | |]; try reflexivity.
      exfalso. apply (Hnot x). reflexivity.
  - intros q Hf Hq. rewrite Hf, Hq. cbv zeta.
    destruct (Qfloor q <? 0)%Z eqn:Hlo, (Qfloor q >=? lengthZ options)%Z eqn:Hhi;
      cbn [orb];
      destruct (0 <=? Qfloor q)%Z eqn:Hlo', (Qfloor q <? lengthZ options)%Z eqn:Hhi';
      cbn [andb]; try reflexivity; exfalso;
      rewrite ?Z.geb_leb in Hhi;
      repeat match goal with
             | H : (_ <? _)%Z = true |- _ => apply Z.ltb_lt in H
             | H : (_ <? _)%Z = false |- _ => apply Z.ltb_ge in H
             | H : (_ <=? _)%Z = true |- _ => apply Z.leb_le in H
             | H : (_ <=? _)%Z = false |- _ => apply Z.leb_gt in H
             end; lia.
  - intros z Hf Hz Hout. rewrite Hf, Hz. cbv zeta. rewrite Qfloor_Z.
    destruct (z <? 0)%Z eqn:Hlo; cbn [orb]; [reflexivity|].
    destruct (z >=? lengthZ options)%Z eqn:Hhi; [reflexivity|].
    exfalso. apply Hout.
    apply Z.ltb_ge in Hlo. rewrite Z.geb_leb in Hhi. apply Z.leb_gt in Hhi. lia.
  - intros Hlen ->. unfold lengthZ. rewrite Hlen. reflexivity.
Qed.

Lemma llm_chat_onlyCalls :
  forall client conversation st,
    onlyCalls st (snd (llm_chat client conversation st)).
Proof. intros. unfold llm_chat. cbn. repeat split; auto with arith. Qed.

Lemma answerQuestion_onlyCalls :
  forall self question options st,
    onlyCalls st (snd (answerQuestion self question options st)).
Proof.
  intros. rewrite answerQuestion_run. cbn. repeat split; auto with arith.
Qed.

Lemma questionLoop_onlyCalls :
  forall self rounds conversation st,
    onlyCalls st (snd (questionLoop self rounds conversation st)).
Proof.
  intros self rounds.
  induction rounds as [|rounds IH]; intros conversation st.
  - apply onlyCalls_refl.
  - cbn [DualLlm.questionLoop]. unfold bind at 1.
    pose proof (llm_chat_onlyCalls (llmClient self) conversation st) as H1.
    destruct (llm_chat (llmClient self) conversation st) as [[response|e] s1];
      cbn [snd] in *; [|exact H1].
    destruct ((response =? "DONE")%string || includes response "DONE");
      [exact H1|].
    destruct (matchQuestion engine response) as [q|]; [|exact H1].
    destruct (matchOptions engine response) as [o|]; [|exact H1].
    unfold bind at 1.
    pose proof (answerQuestion_onlyCalls self (trim engine q)
                  (parseOptions engine (trim engine o)) s1) as H2.
    destruct (answerQuestion self _ _ s1) as [[k|e] s2]; cbn [snd] in *.
    + eapply onlyCalls_trans; [exact H1|].
      eapply onlyCalls_trans; [exact H2|]. apply IH.
    + eapply onlyCalls_trans; eassumption.
Qed.

(** A run of [processWithMainAgent] that returns has appended one row:
    this tool-call id with the summary returned. *)
Lemma processWithMainAgent_appends_row :
  forall self st summary st',
    processWithMainAgent self st = (Returned summary, st') ->
    exists conv,
      dualLlmResults st'
      = dualLlmResults st
        ++ [mkDualLlmResult (agentId self) (toolCallId self) conv summary]
      /\ dualLlmConfig st' = dualLlmConfig st.
Proof.
  intros self st summary st'.
  unfold DualLlm.processWithMainAgent. unfold bind at 1.
  match goal with
  | |- context [questionLoop self ?r ?c st] =>
      pose proof (questionLoop_onlyCalls self r c st) as H1;
      destruct (questionLoop self r c st) as [[conv|e] s1]
  end; cbn [snd] in H1; [|discriminate].
  unfold bind at 1, DualLlm.generateSummary.
  match goal with
  | |- context [llm_chat ?cl ?c s1] =>
      pose proof (llm_chat_onlyCalls cl c s1) as H2;
      destruct (llm_chat cl c s1) as [[s|e] s2]
  end; cbn [snd] in H2; [|discriminate].
  unfold bind, DualLlmResultModel_create, modify, ret.
  intros [= <- <-]. cbn.
  destruct H1 as (C1 & R1 & _), H2 as (C2 & R2 & _).
  exists conv. split; congruence.
Qed.

Lemma questionLoop_returns :
  forall self,
    reliable (llmClient self) ->
    forall rounds conversation st,
    exists conv st', questionLoop self rounds conversation st = (Returned conv, st').
Proof.
  intros self [Hchat Hschema] rounds.
  induction rounds as [|rounds IH]; intros conversation st.
  - cbn. unfold ret. eauto.
  - cbn [DualLlm.questionLoop]. unfold bind at 1, llm_chat.
    destruct (Hchat (llmCalls st) conversation) as [response ->].
    destruct ((response =? "DONE")%string || includes response "DONE");
      [unfold ret; eauto|].
    destruct (matchQuestion engine response) as [q|]; [|unfold ret; eauto].
    destruct (matchOptions engine response) as [o|]; [|unfold ret; eauto].
    unfold bind at 1. rewrite answerQuestion_run.
    match goal with
    | |- context [chatWithSchema ?cl ?k ?c] =>
        destruct (Hschema k c) as [j ->]
    end.
    apply IH.
Qed.

Lemma processWithMainAgent_returns :
  forall self st,
    reliable (llmClient self) ->
    exists summary st', processWithMainAgent self st = (Returned summary, st').
Proof.
  intros self st Hrel.
  unfold DualLlm.processWithMainAgent. unfold bind at 1.
  match goal with
  | |- context [questionLoop self ?r ?c st] =>
      destruct (questionLoop_returns self Hrel r c st) as (conv & s1 & ->)
  end.
  unfold bind at 1, DualLlm.generateSummary, llm_chat.
  destruct Hrel as [Hchat _].
  match goal with
  | |- context [chat ?cl ?k ?c] => destruct (Hchat k c) as [s ->]
  end.
  unfold bind, DualLlmResultModel_create, modify, ret. eauto.
Qed.

End DualLlmFacts.

(** ** Inbound tool results *)

Section TrustedDataFacts.

Import Anthropic DualLlm TrustedData.

Variable engine : StringEngine.
Variable createDualLlmClient : string -> string -> DualLlmClient.
Variable TrustedDataPolicyModel_evaluate :
  string -> string -> option Json -> Evaluation.

Local Abbreviation processContentBlock :=
  (TrustedData.processContentBlock engine createDualLlmClient
                                   TrustedDataPolicyModel_evaluate).
Local Abbreviation processContentBlocks :=
  (TrustedData.processContentBlocks engine createDualLlmClient
                                    TrustedDataPolicyModel_evaluate).
Local Abbreviation processMessage :=
  (TrustedData.processMessage engine createDualLlmClient
                              TrustedDataPolicyModel_evaluate).
Local Abbreviation processMessages :=
  (TrustedData.processMessages engine createDualLlmClient
                               TrustedDataPolicyModel_evaluate).
Local Abbreviation evaluateIfContextIsTrusted :=
  (TrustedData.evaluateIfContextIsTrusted engine createDualLlmClient
                                          TrustedDataPolicyModel_evaluate).
Local Abbreviation sanitiseTimes :=
  (TrustedData.sanitiseTimes engine createDualLlmClient
                             TrustedDataPolicyModel_evaluate).
Local Abbreviation create := (DualLlm.create engine createDualLlmClient).

Lemma create_run :
  forall messages toolUseId agent apiKey st,
    create messages toolUseId agent apiKey st
    = (match extractToolResultFromAnthropic engine messages toolUseId with
       | Returned v =>
           Returned (mkSubagent (dualLlmConfig st) agent toolUseId
                       (createDualLlmClient "anthropic" apiKey)
                       (extractUserRequestFromAnthropic messages) v)
       | Thrown e => Thrown e
       end, st).
Proof.
  intros. unfold DualLlm.create, bind, DualLlmConfigModel_getDefault, gets, lift, ret.
  destruct (extractToolResultFromAnthropic engine messages toolUseId); reflexivity.
Qed.

(** *** The cache *)

Lemma find_none_rowsFor :
  forall toolUseId rows,
    find (fun r => result_toolCallId r =? toolUseId)%string rows = None ->
    rowsFor toolUseId rows = [].
Proof.
  intros toolUseId rows. unfold rowsFor.
  induction rows as [|r rows IH]; cbn; [reflexivity|].
  destruct (result_toolCallId r =? toolUseId)%string; [discriminate|exact IH].
Qed.

Lemma find_some_rowsFor :
  forall toolUseId rows row,
    find (fun r => result_toolCallId r =? toolUseId)%string rows = Some row ->
    (1 <= length (rowsFor toolUseId rows))%nat.
Proof.
  intros toolUseId rows row. unfold rowsFor.
  induction rows as [|r rows IH]; cbn; [discriminate|].
  destruct (result_toolCallId r =? toolUseId)%string; cbn; [lia|exact IH].
Qed.

Lemma find_app_new_row :
  forall toolUseId rows row,
    find (fun r => result_toolCallId r =? toolUseId)%string rows = None ->
    result_toolCallId row = toolUseId ->
    find (fun r => result_toolCallId r =? toolUseId)%string (rows ++ [row])
    = Some row.
Proof.
  intros toolUseId rows row Hnone Hid.
  induction rows as [|r rows IH]; cbn in *.
  - rewrite Hid, String.eqb_refl. reflexivity.
  - destruct (result_toolCallId r =? toolUseId)%string; [discriminate|auto].
Qed.

(** *** The frame of the rewrite *)

Lemma frameBlock_refl : forall b, frameBlock b b.
Proof. intros [t|i n j|i c e|t d]; cbn; auto. Qed.

Lemma processContentBlock_frame :
  forall messages agent apiKey b hu st r st',
    processContentBlock messages agent apiKey b hu st = (Returned r, st') ->
    frameBlock b (fst r).
Proof.
  intros messages agent apiKey b hu st r st'.
  destruct b as [t|i n j|i c e|t d];
    try (cbn; unfold ret; intros [= <- _]; reflexivity).
  unfold TrustedData.processContentBlock.
  destruct (extractToolNameFromMessages messages i) as [toolName|];
    [|unfold ret; intros [= <- _]; left; reflexivity].
  destruct (truthy_string toolName);
    [|unfold ret; intros [= <- _]; left; reflexivity].
  destruct (isBlocked _);
    [unfold ret; intros [= <- _]; right; eexists; reflexivity|].
  destruct (shouldSanitizeWithDualLlm _);
    [|unfold ret; intros [= <- _]; left; reflexivity].
  unfold bind at 1, DualLlmResultModel_findByToolCallId, gets.
  destruct (find _ (dualLlmResults st)) as [row|];
    [unfold ret; intros [= <- _]; right; eexists; reflexivity|].
  unfold bind at 1. rewrite create_run.
  destruct (extractToolResultFromAnthropic engine messages i); [|discriminate].
  unfold bind at 1.
  destruct (DualLlm.processWithMainAgent engine _ st) as [[summary|err] s1];
    [|discriminate].
  unfold ret. intros [= <- _]. right. eexists. reflexivity.
Qed.

Lemma processContentBlocks_frame :
  forall messages agent apiKey blocks hu st r st',
    processContentBlocks messages agent apiKey blocks hu st = (Returned r, st') ->
    Forall2 frameBlock blocks (fst r).
Proof.
  intros messages agent apiKey blocks.
  induction blocks as [|b blocks IH]; intros hu st r st'.
  - cbn. unfold ret. intros [= <- _]. constructor.
  - cbn [TrustedData.processContentBlocks]. unfold bind at 1.
    destruct (processContentBlock messages agent apiKey b hu st)
      as [[r1|e] s1] eqn:H1; [|discriminate].
    unfold bind at 1.
    destruct (processContentBlocks messages agent apiKey blocks (snd r1) s1)
      as [[rs|e] s2] eqn:H2; [|discriminate].
    unfold ret. intros [= <- _]. cbn [fst]. constructor.
    + eapply processContentBlock_frame; eassumption.
    + eapply IH; eassumption.
Qed.

Lemma processMessage_frame :
  forall messages agent apiKey m hu st r st',
    processMessage messages agent apiKey m hu st = (Returned r, st') ->
    frameMessage m (fst r).
Proof.
  intros messages agent apiKey m hu st r st'.
  unfold TrustedData.processMessage, frameMessage.
  destruct (role m); [|unfold ret; intros [= <- _]; reflexivity].
  destruct (content m) as [text|[|b bs]];
    try (unfold ret; intros [= <- _]; reflexivity).
  unfold bind at 1.
  destruct (processContentBlocks messages agent apiKey (b :: bs) hu st)
    as [[rs|e] s1] eqn:H1; [|discriminate].
  unfold ret. intros [= <- _]. cbn [fst].
  exists (fst rs). split; [reflexivity|].
  eapply processContentBlocks_frame; eassumption.
Qed.

Lemma processMessages_frame :
  forall messages agent apiKey todo hu st r st',
    processMessages messages agent apiKey todo hu st = (Returned r, st') ->
    Forall2 frameMessage todo (fst r).
Proof.
  intros messages agent apiKey todo.
  induction todo as [|m todo IH]; intros hu st r st'.
  - cbn. unfold ret. intros [= <- _]. constructor.
  - cbn [TrustedData.processMessages]. unfold bind at 1.
    destruct (processMessage messages agent apiKey m hu st)
      as [[r1|e] s1] eqn:H1; [|discriminate].
    unfold bind at 1.
    destruct (processMessages messages agent apiKey todo (snd r1) s1)
      as [[rs|e] s2] eqn:H2; [|discriminate].
    unfold ret. intros [= <- _]. cbn [fst]. constructor.
    + eapply processMessage_frame; eassumption.
    + eapply IH; eassumption.
Qed.

(** *** The rewrite returns when the LLM client does *)

Lemma toolResultInBlocks_found :
  forall blocks i c e,
    In (ToolResultBlock i c e) blocks ->
    exists v, toolResultInBlocks engine blocks i = Some v.
Proof.
  induction blocks as [|b blocks IH]; intros i c e Hin; [destruct Hin|].
  destruct Hin as [-> | Hin].
  - cbn. rewrite String.eqb_refl. eauto.
  - destruct b as [t|j n inp|j c' e'|t d]; cbn; eauto.
    destruct (j =? i)%string; eauto.
Qed.

Lemma extractToolResult_found :
  forall messages i c e,
    hosted messages (ToolResultBlock i c e) ->
    exists v, extractToolResultFromAnthropic engine messages i = Returned v.
Proof.
  induction messages as [|m0 messages IH];
    intros i c e (m & blocks & Hin & Hrole & Hcontent & Hblock);
    [destruct Hin|].
  cbn [extractToolResultFromAnthropic].
  destruct Hin as [-> | Hin].
  - rewrite Hrole, Hcontent.
    destruct (toolResultInBlocks_found _ _ _ _ Hblock) as [v ->]. eauto.
  - assert (Hrest : exists v,
               extractToolResultFromAnthropic engine messages i = Returned v).
    { apply (IH i c e). exists m, blocks. auto. }
    destruct (role m0); [|exact Hrest].
    destruct (content m0) as [text|blocks0]; [exact Hrest|].
    destruct (toolResultInBlocks engine blocks0 i); eauto.
Qed.

Lemma processContentBlock_returns :
  forall messages agent apiKey b hu st,
    reliable (createDualLlmClient "anthropic" apiKey) ->
    hosted messages b ->
    exists r st',
      processContentBlock messages agent apiKey b hu st = (Returned r, st').
Proof.
  intros messages agent apiKey b hu st Hrel Hhost.
  destruct b as [t|i n j|i c e|t d]; try (cbn; unfold ret; eauto).
  unfold TrustedData.processContentBlock.
  destruct (extractToolNameFromMessages messages i) as [toolName|];
    [|unfold ret; eauto].
  destruct (truthy_string toolName); [|unfold ret; eauto].
  destruct (isBlocked _); [unfold ret; eauto|].
  destruct (shouldSanitizeWithDualLlm _); [|unfold ret; eauto].
  unfold bind at 1, DualLlmResultModel_findByToolCallId, gets.
  destruct (find _ (dualLlmResults st)) as [row|]; [unfold ret; eauto|].
  unfold bind at 1. rewrite create_run.
  destruct (extractToolResult_found _ _ _ _ Hhost) as [v ->].
  unfold bind at 1.
  match goal with
  | |- context [DualLlm.processWithMainAgent engine ?self st] =>
      destruct (processWithMainAgent_returns engine self st Hrel)
        as (summary & s1 & ->)
  end.
  unfold ret. eauto.
Qed.

Lemma processContentBlocks_returns :
  forall messages agent apiKey,
    reliable (createDualLlmClient "anthropic" apiKey) ->
    forall blocks hu st,
      (forall b, In b blocks -> hosted messages b) ->
      exists r st',
        processContentBlocks messages agent apiKey blocks hu st
        = (Returned r, st').
Proof.
  intros messages agent apiKey Hrel.
  induction blocks as [|b blocks IH]; intros hu st Hhost.
  - cbn. unfold ret. eauto.
  - cbn [TrustedData.processContentBlocks]. unfold bind at 1.
    destruct (processContentBlock_returns messages agent apiKey b hu st Hrel)
      as (r1 & s1 & ->); [apply Hhost; left; reflexivity|].
    unfold bind at 1.
    destruct (IH (snd r1) s1) as (rs & s2 & ->);
      [intros b' Hb'; apply Hhost; right; exact Hb'|].
    unfold ret. eauto.
Qed.

Lemma processMessages_returns :
  forall messages agent apiKey,
    reliable (createDualLlmClient "anthropic" apiKey) ->
    forall todo hu st,
      incl todo messages ->
      exists r st',
        processMessages messages agent apiKey todo hu st = (Returned r, st').
Proof.
  intros messages agent apiKey Hrel.
  induction todo as [|m todo IH]; intros hu st Hincl.
  - cbn. unfold ret. eauto.
  - cbn [TrustedData.processMessages]. unfold bind at 1.
    assert (Hm : exists r1 s1,
               processMessage messages agent apiKey m hu st = (Returned r1, s1)).
    { unfold TrustedData.processMessage.
      destruct (role m) eqn:Hrole; [|unfold ret; eauto].
      destruct (content m) as [text|[|b bs]] eqn:Hcontent;
        try (unfold ret; eauto).
      unfold bind at 1.
      destruct (processContentBlocks_returns messages agent apiKey Hrel
                  (b :: bs) hu st) as (rs & s1 & ->).
      - intros b' Hb'. exists m, (b :: bs).
        repeat split; auto. apply Hincl. left. reflexivity.
      - unfold ret. eauto. }
    destruct Hm as (r1 & s1 & ->).
    unfold bind at 1.
    destruct (IH (snd r1) s1) as (rs & s2 & ->);
      [intros x Hx; apply Hincl; right; exact Hx|].
    unfold ret. eauto.
Qed.

(** *** Sanitising the same tool result again *)

Section OneToolResult.

Variables (messages : Messages) (agent apiKey toolUseId toolName : string).
Variables (c : ToolResultContent) (is_error : option bool).

Hypothesis resolved :
  extractToolNameFromMessages messages toolUseId = Some toolName.
Hypothesis named : truthy_string toolName = true.
Hypothesis notBlocked :
  isBlocked (TrustedDataPolicyModel_evaluate agent toolName
               (toolResultValue engine c)) = false.
Hypothesis sanitise :
  shouldSanitizeWithDualLlm
    (TrustedDataPolicyModel_evaluate agent toolName
       (toolResultValue engine c)) = true.

Local Abbreviation block := (ToolResultBlock toolUseId c is_error).
Local Abbreviation flagAfter hu :=
  (if negb (isTrusted (TrustedDataPolicyModel_evaluate agent toolName
                         (toolResultValue engine c)))
   then true else hu).

(** With a cached row, the block gets the cached result and the store
    is left as it was. *)
Lemma sanitise_cached :
  forall st row hu,
    find (fun r => result_toolCallId r =? toolUseId)%string
         (dualLlmResults st) = Some row ->
    processContentBlock messages agent apiKey block hu st
    = (Returned (ToolResultBlock toolUseId (ContentString (result row))
                                 is_error,
                 flagAfter hu), st).
Proof.
  intros st row hu Hfind.
  unfold TrustedData.processContentBlock.
  rewrite resolved, named, notBlocked, sanitise.
  unfold bind at 1, DualLlmResultModel_findByToolCallId, gets.
  rewrite Hfind. reflexivity.
Qed.

(** Without one, a run that returns has put the summary in the block
    and appended one row for this id holding the same summary. *)
Lemma sanitise_fresh :
  forall st hu r st',
    find (fun r => result_toolCallId r =? toolUseId)%string
         (dualLlmResults st) = None ->
    processContentBlock messages agent apiKey block hu st
    = (Returned r, st') ->
    exists row,
      result_toolCallId row = toolUseId
      /\ fst r = ToolResultBlock toolUseId (ContentString (result row)) is_error
      /\ dualLlmResults st' = dualLlmResults st ++ [row].
Proof.
  intros st hu r st' Hfind.
  unfold TrustedData.processContentBlock.
  rewrite resolved, named, notBlocked, sanitise.
  unfold bind at 1, DualLlmResultModel_findByToolCallId, gets.
  rewrite Hfind.
  unfold bind at 1. rewrite create_run.
  destruct (extractToolResultFromAnthropic engine messages toolUseId)
    as [v|e]; [|discriminate].
  unfold bind at 1.
  match goal with
  | |- context [DualLlm.processWithMainAgent engine ?self st] =>
      pose proof (processWithMainAgent_appends_row engine self st) as Hrow;
      destruct (DualLlm.processWithMainAgent engine self st)
        as [[summary|e] s1]
  end; [|discriminate].
  destruct (Hrow summary s1 eq_refl) as (conv & Hrows & _).
  unfold ret. intros [= <- <-]. cbn [fst].
  eexists. split; [|split; [|exact Hrows]]; reflexivity.
Qed.

Lemma sanitiseTimes_cached :
  forall n st row,
    find (fun r => result_toolCallId r =? toolUseId)%string
         (dualLlmResults st) = Some row ->
    sanitiseTimes n messages agent apiKey block st
    = (Returned (repeat (ToolResultBlock toolUseId
                           (ContentString (result row)) is_error) n), st).
Proof.
  induction n as [|n IH]; intros st row Hfind; [reflexivity|].
  cbn [TrustedData.sanitiseTimes repeat]. unfold bind at 1.
  rewrite (sanitise_cached st row false Hfind).
  unfold bind at 1. rewrite (IH st row Hfind). reflexivity.
Qed.

Lemma sanitiseTimes_one_row :
  forall n st outs st',
    (length (rowsFor toolUseId (dualLlmResults st)) <= 1)%nat ->
    sanitiseTimes (S n) messages agent apiKey block st = (Returned outs, st') ->
    length (rowsFor toolUseId (dualLlmResults st')) = 1%nat
    /\ exists s,
         outs = repeat (ToolResultBlock toolUseId (ContentString s) is_error)
                       (S n).
Proof.
  intros n st outs st' Hkey Hrun.
  destruct (find (fun r => result_toolCallId r =? toolUseId)%string
                 (dualLlmResults st)) as [row|] eqn:Hfind.
  - rewrite (sanitiseTimes_cached (S n) st row Hfind) in Hrun.
    injection Hrun as <- <-.
    pose proof (find_some_rowsFor _ _ _ Hfind).
    split; [lia | exists (result row); reflexivity].
  - cbn [TrustedData.sanitiseTimes] in Hrun. unfold bind at 1 in Hrun.
    destruct (processContentBlock messages agent apiKey block false st)
      as [[r|e] s1] eqn:Hfirst; [|discriminate].
    destruct (sanitise_fresh st false r s1 Hfind Hfirst)
      as (row & Hid & Hblock & Hrows).
    assert (Hnow : find (fun r => result_toolCallId r =? toolUseId)%string
                        (dualLlmResults s1) = Some row).
    { rewrite Hrows. apply find_app_new_row; assumption. }
    unfold bind at 1 in Hrun.
    rewrite (sanitiseTimes_cached n s1 row Hnow) in Hrun.
    unfold ret in Hrun. injection Hrun as <- <-.
    split.
    + rewrite Hrows. unfold rowsFor. rewrite filter_app.
      fold (rowsFor toolUseId (dualLlmResults st)).
      rewrite (find_none_rowsFor _ _ Hfind). cbn.
      rewrite Hid, String.eqb_refl. reflexivity.
    + exists (result row). rewrite Hblock. reflexivity.
Qed.

(** With an LLM client that does not fail, sanitising a block of the
    conversation any number of times returns. *)
Lemma sanitiseTimes_returns :
  forall n st,
    reliable (createDualLlmClient "anthropic" apiKey) ->
    hosted messages block ->
    exists outs st',
      sanitiseTimes n messages agent apiKey block st = (Returned outs, st').
Proof.
  intros n st Hrel Hhost. revert st.
  induction n as [|n IH]; intros st; [cbn; unfold ret; eauto|].
  cbn [TrustedData.sanitiseTimes]. unfold bind at 1.
  destruct (processContentBlock_returns messages agent apiKey block false st
              Hrel Hhost) as (r & s1 & ->).
  unfold bind at 1. destruct (IH s1) as (outs & s2 & ->).
  unfold ret. eauto.
Qed.

(** C5. Take a tool result that the trusted-data evaluation sends to the
    dual LLM.  When a row is already cached for its tool-call id, the
    block gets that row's result string as it is, and the store is
    unchanged: no LLM call is made and no row is written.  Sanitising
    the block one or more times in a row, from a store with at most one
    row for the id, leaves exactly one row for the id, and every run
    yields the same result string.  With an LLM client that does not
    fail, such a sequence of runs over a block of the conversation does
    return, so the one row is produced. *)
Theorem sanitisation_idempotent :
  (forall st row hu,
      find (fun r => result_toolCallId r =? toolUseId)%string
           (dualLlmResults st) = Some row ->
      processContentBlock messages agent apiKey block hu st
      = (Returned (ToolResultBlock toolUseId (ContentString (result row))
                                   is_error,
                   flagAfter hu), st))
  /\ (forall n st outs st',
      (length (rowsFor toolUseId (dualLlmResults st)) <= 1)%nat ->
      sanitiseTimes (S n) messages agent apiKey block st
      = (Returned outs, st') ->
      length (rowsFor toolUseId (dualLlmResults st')) = 1%nat
      /\ exists s,
           outs = repeat (ToolResultBlock toolUseId (ContentString s)
                                          is_error) (S n))
  /\ (forall n st,
      (length (rowsFor toolUseId (dualLlmResults st)) <= 1)%nat ->
      reliable (createDualLlmClient "anthropic" apiKey) ->
      hosted messages block ->
      exists outs st',
        sanitiseTimes (S n) messages agent apiKey block st
        = (Returned outs, st')
        /\ length (rowsFor toolUseId (dualLlmResults st')) = 1%nat
        /\ exists s,
             outs = repeat (ToolResultBlock toolUseId (ContentString s)
                                            is_error) (S n)).
Proof.
  split; [exact sanitise_cached|].
  split; [exact sanitiseTimes_one_row|].
  intros n st Hkey Hrel Hhost.
  destruct (sanitiseTimes_returns (S n) st Hrel Hhost) as (outs & st' & Hrun).
  exists outs, st'. split; [exact Hrun|].
  exact (sanitiseTimes_one_row n st outs st' Hkey Hrun).
Qed.

End OneToolResult.

(** C10. [evaluateIfContextIsTrusted] rewrites in place.  A run that
    returns gives a list of the same length, in the same order: a message
    that is not a user message with a non-empty array of blocks is
    returned as it is; in a user message every block that is not a
    [tool_result] is returned as it is, and a [tool_result] block is either
    kept or gets a string content, with its id and error flag kept.  When
    the LLM client does not fail, the run returns. *)
Theorem evaluateIfContextIsTrusted_frame :
  forall messages agent apiKey st,
    (forall out st',
        evaluateIfContextIsTrusted messages agent apiKey st = (Returned out, st') ->
        length (filteredMessages out) = length messages
        /\ Forall2 frameMessage messages (filteredMessages out))
    /\ (reliable (createDualLlmClient "anthropic" apiKey) ->
        exists out st',
          evaluateIfContextIsTrusted messages agent apiKey st
          = (Returned out, st')).
Proof.
  intros messages agent apiKey st.
  unfold TrustedData.evaluateIfContextIsTrusted. split.
  - intros out st'. unfold bind at 1.
    destruct (processMessages messages agent apiKey messages false st)
      as [[r|e] s1] eqn:Hrun; [|discriminate].
    unfold ret. intros [= <- _]. cbn [filteredMessages].
    pose proof (processMessages_frame _ _ _ _ _ _ _ _ Hrun) as Hframe.
    split; [|exact Hframe].
    symmetry. eapply Forall2_length. exact Hframe.
  - intros Hrel. unfold bind at 1.
    destruct (processMessages_returns messages agent apiKey Hrel
                messages false st (incl_refl _)) as (r & s1 & ->).
    unfold ret. eauto.
Qed.

(** *** Tool results of unknown origin *)

Lemma processContentBlock_flag :
  forall messages agent apiKey b st r st',
    processContentBlock messages agent apiKey b true st = (Returned r, st') ->
    snd r = true.
Proof.
  intros messages agent apiKey b st r st'.
  destruct b as [t|i n j|i c e|t d];
    try (cbn; unfold ret; intros [= <- _]; reflexivity).
  unfold TrustedData.processContentBlock.
  destruct (extractToolNameFromMessages messages i) as [toolName|];
    [|unfold ret; intros [= <- _]; reflexivity].
  destruct (truthy_string toolName);
    [|unfold ret; intros [= <- _]; reflexivity].
  assert (Hflag : (if negb (isTrusted
                     (TrustedDataPolicyModel_evaluate agent toolName
                        (toolResultValue engine c)))
                   then true else true) = true)
    by (destruct (negb _); reflexivity).
  destruct (isBlocked _);
    [unfold ret; intros [= <- _]; exact Hflag|].
  destruct (shouldSanitizeWithDualLlm _);
    [|unfold ret; intros [= <- _]; exact Hflag].
  unfold bind at 1, DualLlmResultModel_findByToolCallId, gets.
  destruct (find _ (dualLlmResults st)) as [row|];
    [unfold ret; intros [= <- _]; exact Hflag|].
  unfold bind at 1. rewrite create_run.
  destruct (extractToolResultFromAnthropic engine messages i); [|discriminate].
  unfold bind at 1.
  destruct (DualLlm.processWithMainAgent engine _ st) as [[summary|err] s1];
    [|discriminate].
  unfold ret. intros [= <- _]. exact Hflag.
Qed.

Lemma processContentBlock_unresolved :
  forall messages agent apiKey i c e hu st,
    extractToolNameFromMessages messages i = None ->
    processContentBlock messages agent apiKey (ToolResultBlock i c e) hu st
    = (Returned (ToolResultBlock i c e, true), st).
Proof.
  intros messages agent apiKey i c e hu st Hnone.
  unfold TrustedData.processContentBlock. rewrite Hnone. reflexivity.
Qed.

Lemma processContentBlocks_flag :
  forall messages agent apiKey blocks st r st',
    processContentBlocks messages agent apiKey blocks true st = (Returned r, st') ->
    snd r = true.
Proof.
  intros messages agent apiKey blocks.
  induction blocks as [|b blocks IH]; intros st r st'.
  - cbn. unfold ret. intros [= <- _]. reflexivity.
  - cbn [TrustedData.processContentBlocks]. unfold bind at 1.
    destruct (processContentBlock messages agent apiKey b true st)
      as [[r1|e] s1] eqn:H1; [|discriminate].
    rewrite (processContentBlock_flag _ _ _ _ _ _ _ H1).
    unfold bind at 1.
    destruct (processContentBlocks messages agent apiKey blocks true s1)
      as [[rs|e] s2] eqn:H2; [|discriminate].
    unfold ret. intros [= <- _]. cbn [snd]. eapply IH; eassumption.
Qed.

Lemma processContentBlocks_unresolved :
  forall messages agent apiKey i c e,
    extractToolNameFromMessages messages i = None ->
    forall blocks hu st r st',
      In (ToolResultBlock i c e) blocks ->
      processContentBlocks messages agent apiKey blocks hu st = (Returned r, st') ->
      snd r = true.
Proof.
  intros messages agent apiKey i c e Hnone.
  induction blocks as [|b blocks IH]; intros hu st r st' Hin; [destruct Hin|].
  cbn [TrustedData.processContentBlocks]. unfold bind at 1.
  destruct Hin as [-> | Hin].
  - rewrite (processContentBlock_unresolved _ _ _ _ _ _ _ _ Hnone). cbn [snd].
    unfold bind at 1.
    destruct (processContentBlocks messages agent apiKey blocks true st)
      as [[rs|err] s2] eqn:H2; [|discriminate].
    unfold ret. intros [= <- _]. cbn [snd].
    eapply processContentBlocks_flag; eassumption.
  - destruct (processContentBlock messages agent apiKey b hu st)
      as [[r1|err] s1] eqn:H1; [|discriminate].
    unfold bind at 1.
    destruct (processContentBlocks messages agent apiKey blocks (snd r1) s1)
      as [[rs|err] s2] eqn:H2; [|discriminate].
    unfold ret. intros [= <- _]. cbn [snd]. eapply IH; eassumption.
Qed.

Lemma processMessage_flag :
  forall messages agent apiKey m st r st',
    processMessage messages agent apiKey m true st = (Returned r, st') ->
    snd r = true.
Proof.
  intros messages agent apiKey m st r st'.
  unfold TrustedData.processMessage.
  destruct (role m); [|unfold ret; intros [= <- _]; reflexivity].
  destruct (content m) as [text|[|b bs]];
    try (unfold ret; intros [= <- _]; reflexivity).
  unfold bind at 1.
  destruct (processContentBlocks messages agent apiKey (b :: bs) true st)
    as [[rs|e] s1] eqn:H1; [|discriminate].
  unfold ret. intros [= <- _]. cbn [snd].
  eapply processContentBlocks_flag; eassumption.
Qed.

Lemma processMessages_flag :
  forall messages agent apiKey todo st r st',
    processMessages messages agent apiKey todo true st = (Returned r, st') ->
    snd r = true.
Proof.
  intros messages agent apiKey todo.
  induction todo as [|m todo IH]; intros st r st'.
  - cbn. unfold ret. intros [= <- _]. reflexivity.
  - cbn [TrustedData.processMessages]. unfold bind at 1.
    destruct (processMessage messages agent apiKey m true st)
      as [[r1|e] s1] eqn:H1; [|discriminate].
    rewrite (processMessage_flag _ _ _ _ _ _ _ H1).
    unfold bind at 1.
    destruct (processMessages messages agent apiKey todo true s1)
      as [[rs|e] s2] eqn:H2; [|discriminate].
    unfold ret. intros [= <- _]. cbn [snd]. eapply IH; eassumption.
Qed.

Lemma processMessages_unresolved :
  forall messages agent apiKey i c e,
    extractToolNameFromMessages messages i = None ->
    forall todo hu st r st',
      hosted todo (ToolResultBlock i c e) ->
      processMessages messages agent apiKey todo hu st = (Returned r, st') ->
      snd r = true.
Proof.
  intros messages agent apiKey i c e Hnone.
  induction todo as [|m0 todo IH];
    intros hu st r st' (m & blocks & Hin & Hrole & Hcontent & Hblock);
    [destruct Hin|].
  cbn [TrustedData.processMessages]. unfold bind at 1.
  destruct (processMessage messages agent apiKey m0 hu st)
    as [[r1|err] s1] eqn:H1; [|discriminate].
  unfold bind at 1.
  destruct (processMessages messages agent apiKey todo (snd r1) s1)
    as [[rs|err] s2] eqn:H2; [|discriminate].
  unfold ret. intros [= <- _]. cbn [snd].
  destruct Hin as [-> | Hin].
  - assert (Hr1 : snd r1 = true).
    { revert H1. unfold TrustedData.processMessage.
      rewrite Hrole, Hcontent.
      destruct blocks as [|b bs]; [destruct Hblock|].
      unfold bind at 1.
      destruct (processContentBlocks messages agent apiKey (b :: bs) hu st)
        as [[rs1|err] s3] eqn:H3; [|discriminate].
      unfold ret. intros [= <- _]. cbn [snd].
      eapply processContentBlocks_unresolved; eassumption. }
    rewrite Hr1 in H2. eapply processMessages_flag; eassumption.
  - eapply IH; [|eassumption]. exists m, blocks. auto.
Qed.

(** C8, as the code has it.  For a tool result whose tool name cannot be
    resolved nothing is persisted and no sanitisation is attempted.  In
    the proxy handler the content of the tool message is parsed before the
    name is looked up, and the store is left as it was either way: when
    the content parses, the scan goes on with the next message and the
    request is handled as it came in, the tool message still in it; when
    it does not parse, the request is answered 500 with type [api_error].
    In the Anthropic rewrite, a [tool_result] block whose [tool_use_id] no
    assistant message carries is returned as it is with the store untouched
    (no LLM call, no cached row); a run over a conversation holding such a
    block reports the context as not trusted, and with an LLM client that
    does not fail the run returns. *)
Theorem unresolved_tool_result_passes_through :
  (forall JSON_parse trustedDataEvaluate chat m st,
      Proxy.role m = "tool" ->
      Proxy.searchHistory (ProxySpec.history chat st) (Proxy.tool_call_id m)
      = Returned None ->
      Proxy.processIncomingMessage JSON_parse trustedDataEvaluate chat m st
      = (match JSON_parse (Proxy.contentText (Proxy.content m)) with
         | inl _ => Returned tt
         | inr msg => Thrown (SyntaxError msg)
         end, st))
  /\ (forall JSON_parse JSON_stringify trustedDataEvaluate toolInvocationEvaluate
             llmProvider chat requestBody st st1 pre m post,
      existsb (String.eqb chat) (Proxy.chats st) = true ->
      Proxy.messages requestBody = pre ++ m :: post ->
      Proxy.processIncomingMessages JSON_parse trustedDataEvaluate chat pre st
      = (Returned tt, st1) ->
      Proxy.role m = "tool" ->
      Proxy.searchHistory (ProxySpec.history chat st1) (Proxy.tool_call_id m)
      = Returned None ->
      match JSON_parse (Proxy.contentText (Proxy.content m)) with
      | inl _ =>
          Proxy.tryBlock JSON_parse JSON_stringify trustedDataEvaluate
                         toolInvocationEvaluate llmProvider chat requestBody st
          = (Proxy.processIncomingMessages JSON_parse trustedDataEvaluate
                                           chat post ;;;
             Proxy.storeUserMessage chat (Proxy.messages requestBody) ;;;
             if Proxy.stream requestBody
             then Proxy.handleStreaming JSON_stringify llmProvider requestBody
             else Proxy.handleNonStreaming JSON_parse toolInvocationEvaluate
                                           llmProvider chat requestBody)%eff st1
      | inr msg =>
          Proxy.chatCompletions JSON_parse JSON_stringify trustedDataEvaluate
                                toolInvocationEvaluate llmProvider
                                chat requestBody st
          = (Proxy.SentJson 500 (Proxy.ErrorBody msg "api_error"), st1)
      end)
  /\ (forall messages agent apiKey i c e hu st,
      extractToolNameFromMessages messages i = None ->
      processContentBlock messages agent apiKey (ToolResultBlock i c e) hu st
      = (Returned (ToolResultBlock i c e, true), st))
  /\ (forall messages agent apiKey i c e st,
      extractToolNameFromMessages messages i = None ->
      hosted messages (ToolResultBlock i c e) ->
      (forall out st',
          evaluateIfContextIsTrusted messages agent apiKey st
          = (Returned out, st') ->
          contextIsTrusted out = false)
      /\ (reliable (createDualLlmClient "anthropic" apiKey) ->
          exists out st',
            evaluateIfContextIsTrusted messages agent apiKey st
            = (Returned out, st')
            /\ contextIsTrusted out = false)).
Proof.
  split; [|split; [|split]].
  - intros. apply unresolved_tool_message_run; assumption.
  - intros. eapply unresolved_tool_message_in_request; eassumption.
  - intros. apply processContentBlock_unresolved. assumption.
  - intros messages agent apiKey i c e st Hnone Hhost.
    assert (Hflag : forall out st',
               evaluateIfContextIsTrusted messages agent apiKey st
               = (Returned out, st') ->
               contextIsTrusted out = false).
    { intros out st'.
      unfold TrustedData.evaluateIfContextIsTrusted, bind at 1.
      destruct (processMessages messages agent apiKey messages false st)
        as [[r|err] s1] eqn:Hrun; [|discriminate].
      unfold ret. intros [= <- _]. cbn [contextIsTrusted].
      rewrite (processMessages_unresolved _ _ _ _ _ _ Hnone _ _ _ _ _ Hhost Hrun).
      reflexivity. }
    split; [exact Hflag|].
    intros Hrel.
    unfold TrustedData.evaluateIfContextIsTrusted in *.
    destruct (processMessages_returns messages agent apiKey Hrel
                messages false st (incl_refl _)) as (r & s1 & Hrun).
    eexists. eexists. split.
    + unfold bind at 1. rewrite Hrun. reflexivity.
    + eapply Hflag. unfold bind at 1. rewrite Hrun. reflexivity.
Qed.

End TrustedDataFacts.

(* ===================================================================== *)
(** * The properties at concrete inputs *)
(* ===================================================================== *)

Section Instances.

Import ToolInvocationPolicyModel Proxy Examples MoreExamples.

(** C2 at concrete inputs.  [readFile({})] under the allow rule on [path]
    is denied for the missing argument.  [sendEmail({})] has no argument
    named [constructor], yet [_.get] finds the inherited member: the block
    rule on [constructor] denies the call; the allow rule on [constructor]
    with [equal] denies it with its own reason, not for a missing argument;
    and the allow rule with [notEqual] lets the call through. *)
Lemma absent_argument_found_by_get_witness :
  evaluateForAgent lodashGet literalRegExp joinOrder
                   db "agent-A" "readFile" (JObject [])
  = Returned (mkResult false "Missing required argument: path")
  /\ argumentAt (JObject []) "constructor" = None
  /\ lodashGet (JObject []) "constructor" = Some (Inherited "constructor")
  /\ evaluateForAgent lodashGet literalRegExp joinOrder
                      dbBlockConstructor "agent-A" "sendEmail" (JObject [])
     = Returned (mkResult false "Policy violation: No constructor but x")
  /\ evaluateForAgent lodashGet literalRegExp joinOrder
                      dbAllowConstructor "agent-A" "sendEmail" (JObject [])
     = Returned (mkResult false "Policy violation: The constructor must be x")
  /\ evaluateForAgent lodashGet literalRegExp joinOrder
                      dbAllowOtherConstructor "agent-A" "sendEmail" (JObject [])
     = Returned (mkResult true "").
Proof.
  split; [|split; [reflexivity|split; [reflexivity|split; [|split]]]].
  - apply (proj1 (absent_argument_found_by_get
                    lodashGet literalRegExp joinOrder
                    db "agent-A" "readFile" (JObject [])
                    [] allowHome [] eq_refl (Forall_nil _) eq_refl)).
    reflexivity.
  - apply (proj2 (absent_argument_found_by_get
                    lodashGet literalRegExp joinOrder
                    dbBlockConstructor "agent-A" "sendEmail" (JObject [])
                    [] blockConstructor [] eq_refl (Forall_nil _) eq_refl)
             (Inherited "constructor")); [reflexivity | discriminate].
  - apply (proj2 (absent_argument_found_by_get
                    lodashGet literalRegExp joinOrder
                    dbAllowConstructor "agent-A" "sendEmail" (JObject [])
                    [] allowConstructor [] eq_refl (Forall_nil _) eq_refl)
             (Inherited "constructor")); [reflexivity | discriminate].
  - apply (proj2 (absent_argument_found_by_get
                    lodashGet literalRegExp joinOrder
                    dbAllowOtherConstructor "agent-A" "sendEmail" (JObject [])
                    [] allowOtherConstructor [] eq_refl (Forall_nil _) eq_refl)
             (Inherited "constructor")); [reflexivity | discriminate].
Defined.

(** [sendEmail({to: "x@grafana.com", body: "hi"})]: the rule on [cc]
    passes, the rule on [to] denies. *)
Lemma first_denial_wins_witness :
  evaluateForAgent lodashGet literalRegExp joinOrder db "agent-A" "sendEmail"
                   emailToGrafana
  = Returned (mkResult false
      "Policy violation: Cannot send emails to @grafana.com domain")
  /\ evaluateForAgent lodashGet literalRegExp joinOrder db "agent-A" "sendEmail"
                      Examples.emailToBob
     = Returned (mkResult true "").
Proof.
  split.
  - apply (proj1 (first_denial_wins lodashGet literalRegExp joinOrder db "agent-A"
                    "sendEmail" emailToGrafana)
             [blockCc] blockGrafana [] (Data (JString "x@grafana.com")) true);
      try reflexivity.
    constructor; [reflexivity | constructor].
  - apply (proj2 (first_denial_wins lodashGet literalRegExp joinOrder db "agent-A"
                    "sendEmail" Examples.emailToBob)).
    constructor; [reflexivity|].
    constructor; [exists false; split; reflexivity | constructor].
Defined.

(** A block rule with the pattern [(] and a string argument. *)
Lemma invalid_regex_throws_witness :
  evaluateForAgent lodashGet literalRegExp joinOrder dbBadRegex "agent-A" "sendEmail"
                   emailToGrafana
  = Thrown (SyntaxError "Invalid regular expression: /(/: Unterminated group").
Proof.
  apply (invalid_regex_throws lodashGet literalRegExp joinOrder dbBadRegex "agent-A"
           "sendEmail" emailToGrafana [] blockBadRegex [] "x@grafana.com");
    try reflexivity.
  constructor.
Defined.

(** A denied call answers 403 and stores nothing more; an allowed call
    stores the assistant message and answers with the upstream response. *)
Lemma tool_call_gate_witness :
  handle emailToGrafanaText (request false) freshChat
  = (SentJson 403
       (ErrorBody "Policy violation: Cannot send emails to @grafana.com domain"
                  "tool_invocation_blocked"),
     afterIngress)
  /\ handle emailToBobText (request false) freshChat
     = (SentJson 200 (CompletionBody (upstreamReply emailToBobText)),
        mkState ["chat-1"]
                [mkInteraction "chat-1" userAsks false None;
                 mkInteraction "chat-1" (assistantCalls emailToBobText)
                               false None]
                [] []).
Proof.
  split.
  - apply (proj1 (tool_call_gate tableParse chunkText trustNothing
                    agentAEvaluate (upstream emailToGrafanaText)
                    "chat-1" (request false) freshChat afterIngress
                    (upstreamReply emailToGrafanaText)
                    (mkChoice 0 (assistantCalls emailToGrafanaText) "tool_calls")
                    []
                    [FunctionToolCall "call-1" "sendEmail" emailToGrafanaText]
                    eq_refl eq_refl eq_refl eq_refl eq_refl eq_refl)
             [] "call-1" "sendEmail" emailToGrafanaText [] emailToGrafana);
      try reflexivity.
    constructor.
  - apply (proj2 (tool_call_gate tableParse chunkText trustNothing
                    agentAEvaluate (upstream emailToBobText)
                    "chat-1" (request false) freshChat afterIngress
                    (upstreamReply emailToBobText)
                    (mkChoice 0 (assistantCalls emailToBobText) "tool_calls")
                    []
                    [FunctionToolCall "call-1" "sendEmail" emailToBobText]
                    eq_refl eq_refl eq_refl eq_refl eq_refl eq_refl)).
    constructor; [|constructor].
    exists Examples.emailToBob. split; reflexivity.
Defined.

(** C4 at a concrete input.  The stream carries a [sendEmail] call to
    [x@grafana.com], which the evaluator denies; the client receives the
    chunk and [data: [DONE]], with no error event in between. *)
Lemma streaming_relays_without_gate_witness :
  isAllowed (agentAEvaluate "sendEmail" "call-1" emailToGrafana) = false
  /\ handle emailToGrafanaText (request true) freshChat
     = (RawEnded,
        mkState ["chat-1"] [mkInteraction "chat-1" userAsks false None]
                [("Content-Type", "text/event-stream");
                 ("Cache-Control", "no-cache");
                 ("Connection", "keep-alive")]
                [sseEvent chunkText toolCallChunk;
                 ("data: [DONE]" ++ newline ++ newline)%string]).
Proof.
  split; [reflexivity|].
  exact (streaming_relays_without_gate tableParse chunkText trustNothing
           agentAEvaluate (upstream emailToGrafanaText)
           "chat-1" (request true) freshChat afterIngress [toolCallChunk]
           eq_refl eq_refl eq_refl eq_refl).
Defined.

(** C7 as stated fails: arguments cut short are answered with status 500
    and type [api_error], the message being the parser's, and not with a
    denial whose reason is "unparseable tool arguments". *)
Lemma unparseable_arguments_not_denied :
  fst (handle truncatedText (request false) freshChat)
  = SentJson 500 (ErrorBody "Unexpected end of JSON input" "api_error")
  /\ fst (handle truncatedText (request false) freshChat)
     <> SentJson 403 (ErrorBody "unparseable tool arguments"
                                "tool_invocation_blocked").
Proof.
  split; [reflexivity | discriminate].
Qed.

Lemma unparseable_arguments_witness :
  handle truncatedText (request false) freshChat
  = (SentJson 500 (ErrorBody "Unexpected end of JSON input" "api_error"),
     afterIngress).
Proof.
  apply (unparseable_arguments_answer_api_error tableParse chunkText
           trustNothing agentAEvaluate (upstream truncatedText)
           "chat-1" (request false) freshChat afterIngress
           (upstreamReply truncatedText)
           (mkChoice 0 (assistantCalls truncatedText) "tool_calls") []
           [] "call-1" "sendEmail" truncatedText []);
    try reflexivity.
  constructor.
Defined.

(** C8 as stated fails: after a request carrying a tool result of unknown
    origin, the store holds no interaction for that message, tainted or
    not. *)
Lemma unresolved_tool_result_not_recorded :
  let st' := snd (handle emailToBobText requestWithOrphan freshChat) in
  ~ In (mkInteraction "chat-1" orphanToolMessage true
                      (Some "unknown tool for result"))
       (interactions st')
  /\ existsb tainted (interactions st') = false
  /\ existsb (fun i => role (interaction_content i) =? "tool")%string
             (interactions st') = false.
Proof.
  cbv zeta. split; [|split; reflexivity].
  intros Hin.
  assert (H : existsb tainted
                (interactions
                   (snd (handle emailToBobText requestWithOrphan freshChat)))
              = true).
  { apply existsb_exists. eexists. split; [exact Hin | reflexivity]. }
  discriminate H.
Qed.

Import Anthropic DualLlm TrustedData.

(** C9 as stated fails for an answer that is a number but not an integer:
    with three options, 1.5 is rounded down and index 1 is selected, not
    the last option. *)
Lemma non_integral_answer_is_floored :
  fst (answerQuestion textEngine (subagent (answerOf (Finite (3 # 2))))
                      "Who sent the mail?" threeOptions emptyStore)
  = Returned 1%Z
  /\ 1%Z <> (lengthZ threeOptions - 1)%Z.
Proof.
  split; [reflexivity | discriminate].
Qed.

(** Three options and the answer 9: index 2. *)
Lemma quarantined_answer_clamped_witness :
  fst (answerQuestion textEngine (subagent (answerOf (Finite (inject_Z 9))))
                      "Who sent the mail?" threeOptions emptyStore)
  = Returned 2%Z.
Proof.
  destruct (quarantined_answer_clamped textEngine
              (subagent (answerOf (Finite (inject_Z 9))))
              "Who sent the mail?" threeOptions emptyStore
              (answerOf (Finite (inject_Z 9)))
              (le_S _ _ (le_S _ _ (le_n 1))) eq_refl)
    as (k & Hrun & _ & _ & _ & _ & Hnine).
  rewrite Hrun, (Hnine eq_refl eq_refl). reflexivity.
Defined.

Lemma scripted_reliable :
  forall answer provider apiKey, reliable (clientFor answer provider apiKey).
Proof.
  intros answer provider apiKey. split.
  - intros [|[|[|calls]]] conv; cbn; eauto.
  - intros calls conv; cbn; eauto.
Defined.

Lemma getEmailsResult_hosted : hosted conversation getEmailsResult.
Proof.
  exists (Anthropic.mkMessage User
            (ArrayContent [getEmailsResult; TextBlock "and summarise it"])),
         [getEmailsResult; TextBlock "and summarise it"].
  repeat split; cbn; auto.
Defined.

(** A cached row is reused as it is; three runs from an empty cache
    return, leave one row and give the same summary three times. *)
Lemma sanitisation_idempotent_witness :
  processContentBlock textEngine (clientFor (answerOf (Finite (inject_Z 9))))
                      sanitiseAll conversation "agent-A" "key"
                      getEmailsResult false cachedStore
  = (Returned (ToolResultBlock "toolu-1" (ContentString "SAFE") None, true),
     cachedStore)
  /\ exists outs st',
       sanitiseTimes textEngine (clientFor (answerOf (Finite (inject_Z 9))))
                     sanitiseAll 3 conversation "agent-A" "key"
                     getEmailsResult emptyStore
       = (Returned outs, st')
       /\ length (rowsFor "toolu-1" (dualLlmResults st')) = 1%nat
       /\ exists s,
            outs = repeat (ToolResultBlock "toolu-1" (ContentString s) None) 3.
Proof.
  pose proof (sanitisation_idempotent textEngine
                (clientFor (answerOf (Finite (inject_Z 9)))) sanitiseAll
                conversation "agent-A" "key" "toolu-1" "getEmails"
                (ContentString emailsText) None
                eq_refl eq_refl eq_refl eq_refl) as (Hhit & _ & Hruns).
  split.
  - exact (Hhit cachedStore
                (mkDualLlmResult "agent-A" "toolu-1" [] "SAFE") false eq_refl).
  - exact (Hruns 2%nat emptyStore (le_S _ _ (le_n 0))
                 (scripted_reliable _ _ _) getEmailsResult_hosted).
Defined.

(** The conversation of the examples: three messages in, three out; only
    the [tool_result] block of the last one differs. *)
Lemma evaluateIfContextIsTrusted_frame_witness :
  (forall out st',
      evaluateContext (answerOf (Finite (inject_Z 9)))
                      conversation "agent-A" "key" emptyStore
      = (Returned out, st') ->
      length (filteredMessages out) = 3%nat
      /\ Forall2 frameMessage conversation (filteredMessages out))
  /\ exists out st',
       evaluateContext (answerOf (Finite (inject_Z 9)))
                       conversation "agent-A" "key" emptyStore
       = (Returned out, st').
Proof.
  pose proof (evaluateIfContextIsTrusted_frame textEngine
                (clientFor (answerOf (Finite (inject_Z 9)))) sanitiseAll
                conversation "agent-A" "key" emptyStore) as [Hframe Hruns].
  split.
  - exact Hframe.
  - apply Hruns. apply scripted_reliable.
Defined.

Lemma orphanResult_hosted : hosted conversationWithOrphan orphanResult.
Proof.
  exists (Anthropic.mkMessage User (ArrayContent [orphanResult])),
         [orphanResult].
  repeat split; cbn; auto.
Defined.

(** A tool result of unknown origin, in both shapes.  In the proxy, one
    whose content parses is stepped over and the request is answered with
    the upstream response, no row being stored for it; one whose content is
    plain text ends the request with status 500.  In the rewrite the block
    is kept and the context is reported as not trusted. *)
Lemma unresolved_tool_result_witness :
  processIncomingMessage tableParse trustNothing "chat-1"
                         orphanToolMessage freshChat
  = (Returned tt, freshChat)
  /\ tryBlock tableParse chunkText trustNothing agentAEvaluate
              (upstream emailToBobText) "chat-1" requestWithOrphan freshChat
     = (Returned (SentJson 200 (CompletionBody (upstreamReply emailToBobText))),
        mkState ["chat-1"]
                [mkInteraction "chat-1" userAsks false None;
                 mkInteraction "chat-1" (assistantCalls emailToBobText)
                               false None]
                [] [])
  /\ handle emailToBobText requestWithPlainOrphan freshChat
     = (SentJson 500 (ErrorBody "Unexpected end of JSON input" "api_error"),
        freshChat)
  /\ processContentBlock textEngine
       (clientFor (answerOf (Finite (inject_Z 9)))) sanitiseAll
       conversationWithOrphan "agent-A" "key" orphanResult false emptyStore
     = (Returned (orphanResult, true), emptyStore)
  /\ exists out st',
       evaluateContext (answerOf (Finite (inject_Z 9)))
                       conversationWithOrphan "agent-A" "key" emptyStore
       = (Returned out, st')
       /\ contextIsTrusted out = false.
Proof.
  pose proof (unresolved_tool_result_passes_through textEngine
                (clientFor (answerOf (Finite (inject_Z 9)))) sanitiseAll)
    as (Hmessage & Hrequest & Hblock & Hcontext).
  split; [|split; [|split; [|split]]].
  - exact (Hmessage tableParse trustNothing "chat-1" orphanToolMessage
                    freshChat eq_refl eq_refl).
  - exact (eq_trans
             (Hrequest tableParse chunkText trustNothing agentAEvaluate
                       (upstream emailToBobText) "chat-1" requestWithOrphan
                       freshChat freshChat [] orphanToolMessage [userAsks]
                       eq_refl eq_refl eq_refl eq_refl eq_refl)
             eq_refl).
  - exact (Hrequest tableParse chunkText trustNothing agentAEvaluate
                    (upstream emailToBobText) "chat-1" requestWithPlainOrphan
                    freshChat freshChat [] plainTextOrphan [userAsks]
                    eq_refl eq_refl eq_refl eq_refl eq_refl).
  - exact (Hblock conversationWithOrphan "agent-A" "key" "toolu-9"
                  (ContentString emailsText) None false emptyStore eq_refl).
  - exact (proj2 (Hcontext conversationWithOrphan "agent-A" "key" "toolu-9"
                           (ContentString emailsText) None emptyStore
                           eq_refl orphanResult_hosted)
                 (scripted_reliable _ _ _)).
Defined.

End Instances.

(* ===================================================================== *)
(** * Further properties of the code *)
(* ===================================================================== *)

(** ** Which policies apply, and what the evaluator's result looks like *)

Section EvaluatorMore.

Import ToolInvocationPolicyModel PolicyStore.

Variable lodash_get : Json -> string -> option Value.
Variable RegExp_new : string -> (string -> bool) + string.
Variable rowOrder : list ToolInvocationPolicy -> list ToolInvocationPolicy.

(** The store returns the rows a select matches, in an order of its
    own. *)
Hypothesis rowOrder_permutes : forall rows, Permutation (rowOrder rows) rows.

Local Abbreviation applicablePoliciesForAgent :=
  (ToolInvocationPolicyModel.applicablePoliciesForAgent rowOrder).
Local Abbreviation evaluatePolicies :=
  (ToolInvocationPolicyModel.evaluatePolicies lodash_get RegExp_new).
Local Abbreviation evaluateForAgent :=
  (ToolInvocationPolicyModel.evaluateForAgent lodash_get RegExp_new rowOrder).
Local Abbreviation conditionMet :=
  (ToolInvocationPolicyModel.conditionMet RegExp_new).
Local Abbreviation passes :=
  (ToolInvocationPolicyModel.passes lodash_get RegExp_new).

Lemma matchedPolicies_iff :
  forall db agentId toolName p,
    In p (matchedPolicies db agentId toolName)
    <-> exists j t,
          In j (agentToolInvocationPoliciesTable db)
          /\ In p (toolInvocationPoliciesTable db)
          /\ In t (toolsTable db)
          /\ join_agentId j = agentId
          /\ join_policyId j = id p
          /\ toolId p = tool_id t
          /\ tool_name t = toolName.
Proof.
  intros db agentId toolName p. unfold matchedPolicies. split.
  - intros H.
    apply in_flat_map in H. destruct H as (j & Hj & H).
    apply in_flat_map in H. destruct H as (q & Hq & H).
    apply in_flat_map in H. destruct H as (t & Ht & H).
    apply filter_In in Hq. destruct Hq as [Hq Hjq].
    apply filter_In in Ht. destruct Ht as [Ht Hqt].
    destruct ((join_agentId j =? agentId)%string
              && (tool_name t =? toolName)%string) eqn:Hc; [|destruct H].
    destruct H as [<- | []].
    apply andb_true_iff in Hc. destruct Hc as [Ha Hn].
    apply String.eqb_eq in Hjq, Hqt, Ha, Hn.
    exists j, t. repeat split; assumption.
  - intros (j & t & Hj & Hp & Ht & Ha & Hjp & Hpt & Hn).
    apply in_flat_map. exists j. split; [exact Hj|].
    apply in_flat_map. exists p. split.
    { apply filter_In. split; [exact Hp|]. apply String.eqb_eq. exact Hjp. }
    apply in_flat_map. exists t. split.
    { apply filter_In. split; [exact Ht|]. apply String.eqb_eq. exact Hpt. }
    rewrite Ha, Hn, !String.eqb_refl. left. reflexivity.
Qed.

(** X1. Whatever the order in which the store returns the rows, a policy
    is applied to a call exactly when a join row assigns it to the agent
    and the tool it is attached to has the name of the tool being
    invoked. *)
Theorem applicable_iff_assigned_and_named :
  forall db agentId toolName p,
    In p (applicablePoliciesForAgent db agentId toolName)
    <-> exists j t,
          In j (agentToolInvocationPoliciesTable db)
          /\ In p (toolInvocationPoliciesTable db)
          /\ In t (toolsTable db)
          /\ join_agentId j = agentId
          /\ join_policyId j = id p
          /\ toolId p = tool_id t
          /\ tool_name t = toolName.
Proof.
  intros db agentId toolName p.
  rewrite <- matchedPolicies_iff.
  unfold ToolInvocationPolicyModel.applicablePoliciesForAgent.
  split; apply Permutation_in;
    [|apply Permutation_sym]; apply rowOrder_permutes.
Qed.

Lemma evaluatePolicies_allowed_inv :
  forall toolInput policies r,
    evaluatePolicies policies toolInput = Returned r ->
    isAllowed r = true ->
    Forall (passes toolInput) policies /\ r = mkResult true "".
Proof.
  intros toolInput policies r.
  induction policies as [|q policies IH];
    cbn [ToolInvocationPolicyModel.evaluatePolicies].
  - intros [= <-] _. split; [constructor | reflexivity].
  - destruct (lodash_get toolInput (argumentName q)) as [v|] eqn:Hget.
    + destruct (conditionMet (operator q) v (value q)) as [met|e] eqn:Hmet;
        [|discriminate].
      assert (Hpass : met = match action q with Allow => true | Block => false end ->
                      passes toolInput q).
      { intros Hval. unfold ToolInvocationPolicyModel.passes. rewrite Hget.
        exists met. split; assumption. }
      destruct (action q), met; cbn;
        try (intros [= <-] Hallowed; discriminate Hallowed);
        intros Hrun Hallowed; destruct (IH Hrun Hallowed) as [Hall Hr];
        (split; [constructor; [apply Hpass; reflexivity | exact Hall] | exact Hr]).
    + destruct (action q) eqn:Hact.
      * intros [= <-] Hallowed. discriminate Hallowed.
      * intros Hrun Hallowed. destruct (IH Hrun Hallowed) as [Hall ->].
        split; [|reflexivity]. constructor; [|exact Hall].
        unfold ToolInvocationPolicyModel.passes. rewrite Hget. exact Hact.
Qed.

(** X2. A call is allowed exactly when every applicable policy passes: a
    block policy for whose argument [_.get] answers [undefined] or whose
    operator does not match the value [_.get] answers, an allow policy for
    whose argument [_.get] answers a value that its operator matches. *)
Theorem allowed_iff_every_policy_passes :
  forall db agentId toolName toolInput,
    (exists r, evaluateForAgent db agentId toolName toolInput = Returned r
               /\ isAllowed r = true)
    <-> Forall (passes toolInput)
               (applicablePoliciesForAgent db agentId toolName).
Proof.
  intros db agentId toolName toolInput.
  unfold ToolInvocationPolicyModel.evaluateForAgent. split.
  - intros (r & Hrun & Hallowed).
    apply (evaluatePolicies_allowed_inv _ _ _ Hrun Hallowed).
  - intros Hall. exists (mkResult true ""). split; [|reflexivity].
    apply evaluatePolicies_all_pass. exact Hall.
Qed.

(** X3. Whether a list of policies allows a call does not depend on their
    order, and a list that allows a call still allows it when policies are
    taken away: policies can only restrict. *)
Theorem allowing_ignores_order_and_policies_only_restrict :
  forall toolInput policies policies',
    evaluatePolicies policies toolInput = Returned (mkResult true "") ->
    (Permutation policies policies' ->
     evaluatePolicies policies' toolInput = Returned (mkResult true ""))
    /\ (incl policies' policies ->
        evaluatePolicies policies' toolInput = Returned (mkResult true "")).
Proof.
  intros toolInput policies policies' Hrun.
  destruct (evaluatePolicies_allowed_inv _ _ _ Hrun eq_refl) as [Hall _].
  split.
  - intros Hperm. apply evaluatePolicies_all_pass.
    eapply Permutation_Forall; eassumption.
  - intros Hincl. apply evaluatePolicies_all_pass.
    apply Forall_forall. intros q Hq.
    apply (proj1 (Forall_forall _ _) Hall). apply Hincl. exact Hq.
Qed.

(** X4. An allowed result carries the empty reason, and every denial
    carries a reason that is not empty. *)
Theorem denial_always_has_a_reason :
  forall db agentId toolName toolInput r,
    evaluateForAgent db agentId toolName toolInput = Returned r ->
    if isAllowed r then denyReason r = "" else denyReason r <> "".
Proof.
  intros db agentId toolName toolInput r.
  unfold ToolInvocationPolicyModel.evaluateForAgent.
  generalize (applicablePoliciesForAgent db agentId toolName) as policies.
  assert (Hviolation : forall q, violationReason q <> "").
  { intros q. unfold violationReason.
    destruct (blockPrompt q) as [[|c s]|]; cbn; discriminate. }
  induction policies as [|q policies IH];
    cbn [ToolInvocationPolicyModel.evaluatePolicies].
  - intros [= <-]. reflexivity.
  - destruct (lodash_get toolInput (argumentName q)) as [v|].
    + destruct (conditionMet (operator q) v (value q)) as [met|e];
        [|discriminate].
      destruct (action q), met; cbn; try exact IH;
        intros [= <-]; cbn; apply Hviolation.
    + destruct (action q); [|exact IH].
      intros [= <-]. cbn. discriminate.
Qed.

(** X5. An argument value that [_.get] finds and that is not a string (a
    number, an object, a member read from the prototype) never makes the
    evaluator throw, a pattern that does not compile included: [notEqual]
    holds of it and every other operator fails, so an allow policy denies
    and a block policy passes, the other way round for [notEqual]. *)
Theorem non_string_argument_never_throws :
  forall toolInput p rest v,
    lodash_get toolInput (argumentName p) = Some v ->
    (forall s, v <> Data (JString s)) ->
    conditionMet (operator p) v (value p)
    = Returned match operator p with OpNotEqual => true | _ => false end
    /\ evaluatePolicies (p :: rest) toolInput
       = match operator p, action p with
         | OpNotEqual, Allow => evaluatePolicies rest toolInput
         | OpNotEqual, Block => Returned (mkResult false (violationReason p))
         | _, Allow => Returned (mkResult false (violationReason p))
         | _, Block => evaluatePolicies rest toolInput
         end.
Proof.
  intros toolInput p rest v Hget Hnot.
  assert (Hmet : conditionMet (operator p) v (value p)
                 = Returned match operator p with
                            | OpNotEqual => true | _ => false end).
  { destruct v as [[| b | n | s | xs | fields] | name];
      try (destruct (operator p); reflexivity).
    exfalso. apply (Hnot s). reflexivity. }
  split; [exact Hmet|].
  cbn [ToolInvocationPolicyModel.evaluatePolicies]. rewrite Hget, Hmet.
  destruct (operator p), (action p); reflexivity.
Qed.

End EvaluatorMore.

(** ** The operator table *)

Section OperatorFacts.

Import ToolInvocationPolicyModel.

Variable RegExp_new : string -> (string -> bool) + string.

Local Abbreviation conditionMet :=
  (ToolInvocationPolicyModel.conditionMet RegExp_new).

Lemma startsWith_iff :
  forall affix s,
    startsWith s affix = true <-> exists rest, s = (affix ++ rest)%string.
Proof.
  unfold startsWith.
  induction affix as [|a affix IH]; intros s.
  - destruct s; cbn; split; eauto.
  - destruct s as [|b s]; cbn.
    + split; [discriminate | intros [rest H]; discriminate H].
    + destruct (ascii_dec a b) as [<-|Hne].
      * rewrite IH. split; intros [rest H]; exists rest.
        -- rewrite H. reflexivity.
        -- injection H as ->. reflexivity.
      * split; [discriminate|]. intros [rest H]. injection H as H _.
        exfalso. apply Hne. symmetry. exact H.
Qed.

Lemma endsWith_iff :
  forall s affix,
    endsWith s affix = true <-> exists before, s = (before ++ affix)%string.
Proof.
  induction s as [|c s IH]; intros affix; cbn [endsWith].
  - rewrite orb_false_r, String.eqb_eq. split.
    + intros <-. exists "". reflexivity.
    + intros [[|b before] H]; cbn in H; [exact H | discriminate H].
  - rewrite orb_true_iff, String.eqb_eq, IH. split.
    + intros [<- | [before ->]].
      * exists "". reflexivity.
      * exists (String c before). reflexivity.
    + intros [[|b before] H]; cbn in H.
      * left. exact H.
      * injection H as _ H. right. exists before. exact H.
Qed.

Lemma includes_iff :
  forall s needle,
    includes s needle = true
    <-> exists before rest, s = (before ++ needle ++ rest)%string.
Proof.
  induction s as [|c s IH]; intros needle; cbn [includes].
  - rewrite orb_false_r. fold (startsWith "" needle). rewrite startsWith_iff.
    split.
    + intros [rest H]. exists "", rest. exact H.
    + intros ([|b before] & rest & H); cbn in H; [eauto | discriminate H].
  - rewrite orb_true_iff.
    fold (startsWith (String c s) needle). rewrite startsWith_iff, IH. split.
    + intros [[rest H] | (before & rest & ->)].
      * exists "", rest. exact H.
      * exists (String c before), rest. reflexivity.
    + intros ([|b before] & rest & H); cbn in H.
      * left. eauto.
      * injection H as _ H. right. eauto.
Qed.

(** X6. On a string argument the operators [startsWith], [endsWith] and
    [contains] hold exactly when the policy value is a prefix, a suffix, a
    substring of the argument. *)
Theorem string_operators_meaning :
  forall s policyValue,
    (conditionMet OpStartsWith (Data (JString s)) policyValue = Returned true
     <-> exists rest, s = (policyValue ++ rest)%string)
    /\ (conditionMet OpEndsWith (Data (JString s)) policyValue = Returned true
        <-> exists before, s = (before ++ policyValue)%string)
    /\ (conditionMet OpContains (Data (JString s)) policyValue = Returned true
        <-> exists before rest, s = (before ++ policyValue ++ rest)%string).
Proof.
  intros s policyValue. cbn. repeat split.
  - intros [= H]. apply startsWith_iff. exact H.
  - intros H. apply startsWith_iff in H. rewrite H. reflexivity.
  - intros [= H]. apply endsWith_iff. exact H.
  - intros H. apply endsWith_iff in H. rewrite H. reflexivity.
  - intros [= H]. apply includes_iff. exact H.
  - intros H. apply includes_iff in H. rewrite H. reflexivity.
Qed.

End OperatorFacts.

(** ** The policy table *)

Section PolicyStoreFacts.

Import ToolInvocationPolicyModel PolicyStore.

Variable lodash_get : Json -> string -> option Value.
Variable RegExp_new : string -> (string -> bool) + string.
Variable rowOrder : list ToolInvocationPolicy -> list ToolInvocationPolicy.

(** The store returns the rows a select matches, in an order of its
    own. *)
Hypothesis rowOrder_permutes : forall rows, Permutation (rowOrder rows) rows.

Local Abbreviation applicablePoliciesForAgent :=
  (ToolInvocationPolicyModel.applicablePoliciesForAgent rowOrder).
Local Abbreviation evaluateForAgent :=
  (ToolInvocationPolicyModel.evaluateForAgent lodash_get RegExp_new rowOrder).
Local Abbreviation findById := (PolicyStore.findById rowOrder).
Local Abbreviation findByToolId := (PolicyStore.findByToolId rowOrder).

Lemma rowOrder_nil : rowOrder [] = [].
Proof.
  apply Permutation_nil, Permutation_sym, rowOrder_permutes.
Qed.

Lemma rowOrder_one : forall p, rowOrder [p] = [p].
Proof.
  intros p. apply Permutation_length_1_inv, Permutation_sym, rowOrder_permutes.
Qed.

Lemma rowOrder_empty_iff : forall rows, rowOrder rows = [] <-> rows = [].
Proof.
  intros rows. split.
  - intros H. apply Permutation_nil. rewrite <- H. apply rowOrder_permutes.
  - intros ->. apply rowOrder_nil.
Qed.

Lemma Permutation_filter :
  forall (f : ToolInvocationPolicy -> bool) l l',
    Permutation l l' -> Permutation (filter f l) (filter f l').
Proof.
  intros f l l' H.
  induction H as [|x l l' _ IH|x y l|l l' l'' _ IH1 _ IH2]; cbn.
  - constructor.
  - destruct (f x); [constructor|]; exact IH.
  - destruct (f x), (f y); try apply Permutation_refl. constructor.
  - eapply Permutation_trans; eassumption.
Qed.

Lemma filter_id_after_delete :
  forall (i j : string) (rows : list ToolInvocationPolicy),
    j <> i ->
    filter (fun p => id p =? j)%string
           (filter (fun p => negb (id p =? i)%string) rows)
    = filter (fun p => id p =? j)%string rows.
Proof.
  intros i j rows Hne.
  induction rows as [|p rows IH]; [reflexivity|]. cbn.
  destruct (id p =? i)%string eqn:Hi; cbn.
  - apply String.eqb_eq in Hi.
    destruct (id p =? j)%string eqn:Hj; [|exact IH].
    apply String.eqb_eq in Hj. exfalso. apply Hne. congruence.
  - destruct (id p =? j)%string; [f_equal|]; exact IH.
Qed.

Lemma filter_id_deleted :
  forall (i : string) (rows : list ToolInvocationPolicy),
    filter (fun p => id p =? i)%string
           (filter (fun p => negb (id p =? i)%string) rows) = [].
Proof.
  intros i rows. induction rows as [|p rows IH]; [reflexivity|]. cbn.
  destruct (id p =? i)%string eqn:Hi; cbn; [exact IH|].
  rewrite Hi. exact IH.
Qed.

Lemma filter_flat_map :
  forall (A B : Type) (f : B -> bool) (g : A -> list B) (l : list A),
    filter f (flat_map g l) = flat_map (fun x => filter f (g x)) l.
Proof.
  intros A B f g l. induction l as [|x l IH]; [reflexivity|].
  cbn. rewrite filter_app, IH. reflexivity.
Qed.

Lemma flat_map_filter_nil :
  forall (A B : Type) (keep : A -> bool) (g : A -> list B) (l : list A),
    (forall x, keep x = false -> g x = []) ->
    flat_map g (filter keep l) = flat_map g l.
Proof.
  intros A B keep g l Hnil. induction l as [|x l IH]; [reflexivity|].
  cbn. destruct (keep x) eqn:Hk; cbn.
  - rewrite IH. reflexivity.
  - rewrite (Hnil x Hk). exact IH.
Qed.

(** The rows the select of [evaluateForAgent] matches once a policy is
    deleted: those it matched before, without the deleted one. *)
Lemma matchedPolicies_delete :
  forall i db agentId toolName,
    matchedPolicies (snd (delete i db)) agentId toolName
    = filter (fun p => negb (id p =? i)%string)
             (matchedPolicies db agentId toolName).
Proof.
  intros i db agentId toolName. unfold matchedPolicies, delete.
  cbn [snd agentToolInvocationPoliciesTable toolInvocationPoliciesTable toolsTable].
  rewrite filter_flat_map.
  rewrite flat_map_filter_nil.
  - apply flat_map_ext. intros j.
    rewrite filter_flat_map.
    induction (toolInvocationPoliciesTable db) as [|p rows IH];
      [reflexivity|].
    cbn. destruct (id p =? i)%string eqn:Hi; cbn.
    + destruct (join_policyId j =? id p)%string; cbn; [|exact IH].
      rewrite <- IH.
      assert (Hnone : filter (fun p0 => negb (id p0 =? i)%string)
                (flat_map
                   (fun t => if (join_agentId j =? agentId)%string
                                && (tool_name t =? toolName)%string
                             then [p] else [])
                   (filter (fun t => (toolId p =? tool_id t)%string)
                           (toolsTable db))) = []).
      { induction (filter (fun t => (toolId p =? tool_id t)%string)
                          (toolsTable db)) as [|t ts IHt]; [reflexivity|].
        cbn. destruct ((join_agentId j =? agentId)%string
                       && (tool_name t =? toolName)%string); cbn.
        - rewrite Hi. cbn. exact IHt.
        - exact IHt. }
      rewrite Hnone. reflexivity.
    + destruct (join_policyId j =? id p)%string; cbn; [|exact IH].
      rewrite IH. f_equal.
      induction (filter (fun t => (toolId p =? tool_id t)%string)
                        (toolsTable db)) as [|t ts IHt]; [reflexivity|].
      cbn. destruct ((join_agentId j =? agentId)%string
                     && (tool_name t =? toolName)%string); cbn.
      * rewrite Hi. cbn. f_equal. exact IHt.
      * exact IHt.
  - intros j Hj. apply negb_false_iff, String.eqb_eq in Hj.
    induction (toolInvocationPoliciesTable db) as [|p rows IH];
      [reflexivity|].
    cbn. destruct (id p =? i)%string eqn:Hi; cbn; [exact IH|].
    assert (Hjp : (join_policyId j =? id p)%string = false).
    { apply String.eqb_neq. apply String.eqb_neq in Hi. congruence. }
    rewrite Hjp. exact IH.
Qed.

(** X7. [delete] reports true exactly when a policy with the id was
    stored.  Afterwards the id is not found, every other id is found as
    before, and every agent and tool have the policies they had, each as
    often as before, without the deleted one; the order in which they come
    is the store's. *)
Theorem delete_removes_the_policy_everywhere :
  forall i db,
    (fst (delete i db) = true <-> findById db i <> None)
    /\ findById (snd (delete i db)) i = None
    /\ (forall j, j <> i ->
                  findById (snd (delete i db)) j = findById db j)
    /\ (forall agentId toolName,
          Permutation
            (applicablePoliciesForAgent (snd (delete i db)) agentId toolName)
            (filter (fun p => negb (id p =? i)%string)
                    (applicablePoliciesForAgent db agentId toolName))).
Proof.
  intros i db. split; [|split; [|split]].
  - unfold delete, PolicyStore.findById. cbn [fst].
    rewrite Nat.ltb_lt.
    destruct (rowOrder (filter (fun p => (id p =? i)%string)
                               (toolInvocationPoliciesTable db)))
      as [|p rows] eqn:Hrows.
    + apply (proj1 (rowOrder_empty_iff _)) in Hrows. rewrite Hrows. cbn.
      split; [lia | congruence].
    + split; [discriminate|]. intros _.
      assert (Hsome : filter (fun p => (id p =? i)%string)
                             (toolInvocationPoliciesTable db) <> []).
      { intros Hf. rewrite Hf, rowOrder_nil in Hrows. discriminate. }
      destruct (filter (fun p => (id p =? i)%string)
                       (toolInvocationPoliciesTable db));
        [congruence | cbn; lia].
  - unfold delete, PolicyStore.findById.
    cbn [snd toolInvocationPoliciesTable].
    rewrite filter_id_deleted, rowOrder_nil. reflexivity.
  - intros j Hne. unfold delete, PolicyStore.findById.
    cbn [snd toolInvocationPoliciesTable].
    rewrite (filter_id_after_delete _ _ _ Hne). reflexivity.
  - intros agentId toolName.
    unfold ToolInvocationPolicyModel.applicablePoliciesForAgent.
    rewrite matchedPolicies_delete.
    eapply Permutation_trans; [apply rowOrder_permutes|].
    apply Permutation_filter, Permutation_sym, rowOrder_permutes.
Qed.

(** X8. [create] returns the row it stores; with an id not yet stored, the
    row is found by its id, [findByToolId] of its tool returns it together
    with the rows it returned before (in the store's order), and the other
    tools and ids are answered as before. *)
Theorem create_then_find :
  forall policy db,
    findById db (id policy) = None ->
    fst (create policy db) = policy
    /\ findById (snd (create policy db)) (id policy) = Some policy
    /\ Permutation (findByToolId (snd (create policy db)) (toolId policy))
                   (policy :: findByToolId db (toolId policy))
    /\ (forall t, t <> toolId policy ->
                  findByToolId (snd (create policy db)) t = findByToolId db t)
    /\ (forall j, j <> id policy ->
                  findById (snd (create policy db)) j = findById db j).
Proof.
  intros policy db Hfresh.
  assert (Hnone : filter (fun p => (id p =? id policy)%string)
                         (toolInvocationPoliciesTable db) = []).
  { unfold PolicyStore.findById in Hfresh.
    destruct (rowOrder (filter (fun p => (id p =? id policy)%string)
                               (toolInvocationPoliciesTable db)))
      as [|p rows] eqn:Hrows; [|discriminate].
    apply (proj1 (rowOrder_empty_iff _)). exact Hrows. }
  unfold create, PolicyStore.findById, PolicyStore.findByToolId.
  cbn [fst snd toolInvocationPoliciesTable].
  split; [reflexivity|]. split; [|split; [|split]].
  - rewrite filter_app, Hnone. cbn. rewrite String.eqb_refl.
    rewrite rowOrder_one. reflexivity.
  - rewrite filter_app. cbn [filter]. rewrite String.eqb_refl.
    eapply Permutation_trans; [apply rowOrder_permutes|].
    eapply Permutation_trans;
      [apply Permutation_sym, Permutation_cons_append|].
    constructor. apply Permutation_sym, rowOrder_permutes.
  - intros t Hne. rewrite filter_app. cbn [filter].
    assert (Ht : (toolId policy =? t)%string = false).
    { apply String.eqb_neq. congruence. }
    rewrite Ht, app_nil_r. reflexivity.
  - intros j Hne. rewrite filter_app. cbn [filter].
    assert (Hj : (id policy =? j)%string = false).
    { apply String.eqb_neq. congruence. }
    rewrite Hj, app_nil_r. reflexivity.
Qed.

(** X9. A policy that no join row refers to changes no evaluation: after
    [create], every call of every agent gets the result it got before, until
    the policy is assigned. *)
Theorem created_policy_is_inert_until_assigned :
  forall policy db,
    (forall j, In j (agentToolInvocationPoliciesTable db) ->
               join_policyId j <> id policy) ->
    forall agentId toolName toolInput,
      evaluateForAgent (snd (create policy db)) agentId toolName toolInput
      = evaluateForAgent db agentId toolName toolInput.
Proof.
  intros policy db Hfree agentId toolName toolInput.
  unfold ToolInvocationPolicyModel.evaluateForAgent,
    ToolInvocationPolicyModel.applicablePoliciesForAgent.
  f_equal. f_equal.
  unfold matchedPolicies, create.
  cbn [snd agentToolInvocationPoliciesTable toolInvocationPoliciesTable toolsTable].
  induction (agentToolInvocationPoliciesTable db) as [|j joins IH];
    [reflexivity|].
  cbn [flat_map]. rewrite IH by (intros x Hx; apply Hfree; right; exact Hx).
  f_equal. rewrite filter_app. cbn [filter].
  assert (Hj : (join_policyId j =? id policy)%string = false).
  { apply String.eqb_neq. apply Hfree. left. reflexivity. }
  rewrite Hj, app_nil_r. reflexivity.
Qed.

End PolicyStoreFacts.

(** ** The handler: what it stores and what it writes *)

Section ProxyMore.

Import ToolInvocationPolicyModel Proxy ProxySpec.

Variable JSON_parse : string -> Json + string.
Variable JSON_stringify : ChatCompletionChunk -> string.
Variable trustedDataEvaluate : string -> option string -> Json -> TrustResult.
Variable toolInvocationEvaluate : string -> string -> Json -> EvaluationResult.
Variable llmProvider : LLMProvider.

Local Abbreviation evaluateToolCalls :=
  (Proxy.evaluateToolCalls JSON_parse toolInvocationEvaluate).
Local Abbreviation processIncomingMessage :=
  (Proxy.processIncomingMessage JSON_parse trustedDataEvaluate).
Local Abbreviation processIncomingMessages :=
  (Proxy.processIncomingMessages JSON_parse trustedDataEvaluate).
Local Abbreviation ingress :=
  (Proxy.ingress JSON_parse trustedDataEvaluate).
Local Abbreviation chatCompletions :=
  (Proxy.chatCompletions JSON_parse JSON_stringify trustedDataEvaluate
                         toolInvocationEvaluate llmProvider).
Local Abbreviation handleNonStreaming :=
  (Proxy.handleNonStreaming JSON_parse toolInvocationEvaluate llmProvider).
Local Abbreviation handleStreaming :=
  (Proxy.handleStreaming JSON_stringify llmProvider).
Local Abbreviation sseEvent := (Proxy.sseEvent JSON_stringify).
Local Abbreviation rowFor := (ProxySpec.rowFor JSON_parse trustedDataEvaluate).
Local Abbreviation scannable := (ProxySpec.scannable JSON_parse).

Lemma chatCompletions_grows :
  forall c requestBody st,
    grows c st (snd (chatCompletions c requestBody st)).
Proof.
  intros c requestBody st. unfold Proxy.chatCompletions.
  destruct (existsb (String.eqb c) (chats st)); [|apply grows_refl].
  unfold tryBlock, bind at 1.
  pose proof (ingress_grows JSON_parse trustedDataEvaluate c requestBody st) as [G1 _].
  destruct (ingress c requestBody st) as [[[]|e] s1]; cbn [snd] in *;
    [|exact G1].
  destruct (stream requestBody).
  - rewrite (handleStreaming_run JSON_stringify llmProvider).
    destruct (chatCompletionStream llmProvider requestBody) as [chunks [e|]];
      cbn [snd]; (eapply grows_trans; [exact G1|]);
      (split; [reflexivity|]); exists []; cbn; rewrite app_nil_r;
      (split; [reflexivity | constructor]).
  - pose proof (handleNonStreaming_grows JSON_parse toolInvocationEvaluate llmProvider c requestBody s1) as [G2 _].
    destruct (handleNonStreaming c requestBody s1) as [[sent|e] s2];
      cbn [snd] in *; eapply grows_trans; eassumption.
Qed.

(** X10. Whatever the request and however it ends, the handler leaves the
    chats as they are and only appends to the interactions; every row it
    appends belongs to the chat of the request, and a row it appends as
    tainted is a tool message with a taint reason.  The rows of every other
    chat read as before. *)
Theorem handler_only_appends_to_its_chat :
  forall c requestBody st,
    let st' := snd (chatCompletions c requestBody st) in
    chats st' = chats st
    /\ (exists added,
          interactions st' = interactions st ++ added
          /\ Forall (fun i => chatId i = c) added
          /\ Forall (fun i => tainted i = true ->
                              role (interaction_content i) = "tool"
                              /\ taintReason i <> None) added)
    /\ (forall other,
          other <> c ->
          filter (fun i => chatId i =? other)%string (interactions st')
          = filter (fun i => chatId i =? other)%string (interactions st)).
Proof.
  intros c requestBody st. cbv zeta.
  destruct (chatCompletions_grows c requestBody st) as (Hc & added & Hi & Hf).
  split; [exact Hc|]. split.
  - exists added. split; [exact Hi|].
    split; eapply Forall_impl; try exact Hf; intros i [H1 H2]; assumption.
  - intros other Hne. rewrite Hi, filter_app.
    assert (Hnone : filter (fun i => chatId i =? other)%string added = []).
    { clear Hi. induction Hf as [|i added [Hchat _] _ IH]; [reflexivity|].
      cbn. rewrite Hchat.
      destruct (c =? other)%string eqn:Heq; [|exact IH].
      apply String.eqb_eq in Heq. exfalso. apply Hne. congruence. }
    rewrite Hnone, app_nil_r. reflexivity.
Qed.

(** X11. A request that is not streamed sets no header and writes nothing
    on the raw reply, however it ends; a streamed one only adds to what was
    set and written. *)
Theorem raw_reply_only_when_streaming :
  forall c requestBody st,
    let st' := snd (chatCompletions c requestBody st) in
    (stream requestBody = false ->
     replyHeaders st' = replyHeaders st /\ rawWritten st' = rawWritten st)
    /\ (exists headers events,
          replyHeaders st' = replyHeaders st ++ headers
          /\ rawWritten st' = rawWritten st ++ events).
Proof.
  intros c requestBody st. cbv zeta.
  destruct (chatCompletions c requestBody st) as [sent s] eqn:Hrun.
  cbn [snd]. revert Hrun. unfold Proxy.chatCompletions.
  assert (Hsame : forall x : State,
             replyHeaders x = replyHeaders st ->
             rawWritten x = rawWritten st ->
             (stream requestBody = false ->
              replyHeaders x = replyHeaders st /\ rawWritten x = rawWritten st)
             /\ (exists headers events,
                   replyHeaders x = replyHeaders st ++ headers
                   /\ rawWritten x = rawWritten st ++ events)).
  { intros x H1 H2. split; [intros _; split; assumption|].
    exists [], []. rewrite !app_nil_r. split; assumption. }
  destruct (existsb (String.eqb c) (chats st));
    [|intros [= _ <-]; apply Hsame; reflexivity].
  unfold tryBlock, bind at 1.
  pose proof (ingress_grows JSON_parse trustedDataEvaluate c requestBody st) as [_ [Q1 Q2]].
  destruct (ingress c requestBody st) as [[[]|e] s1]; cbn [snd] in *;
    [|intros [= _ <-]; apply Hsame; assumption].
  destruct (stream requestBody).
  - rewrite (handleStreaming_run JSON_stringify llmProvider).
    destruct (chatCompletionStream llmProvider requestBody) as [chunks [e|]];
      intros [= _ <-]; (split; [discriminate|]);
      cbn [replyHeaders rawWritten]; rewrite Q1, Q2; eauto.
  - pose proof (handleNonStreaming_grows JSON_parse toolInvocationEvaluate llmProvider c requestBody s1) as [_ [Q3 Q4]].
    destruct (handleNonStreaming c requestBody s1) as [[sent'|e] s2];
      cbn [snd] in *; intros [= _ <-]; apply Hsame; congruence.
Qed.

End ProxyMore.

(** ** The handler: how requests end and what the ingress scan records *)

Section ProxyRuns.

Import ToolInvocationPolicyModel Proxy ProxySpec.

Variable JSON_parse : string -> Json + string.
Variable JSON_stringify : ChatCompletionChunk -> string.
Variable trustedDataEvaluate : string -> option string -> Json -> TrustResult.
Variable toolInvocationEvaluate : string -> string -> Json -> EvaluationResult.
Variable llmProvider : LLMProvider.

Local Abbreviation processIncomingMessage :=
  (Proxy.processIncomingMessage JSON_parse trustedDataEvaluate).
Local Abbreviation processIncomingMessages :=
  (Proxy.processIncomingMessages JSON_parse trustedDataEvaluate).
Local Abbreviation ingress :=
  (Proxy.ingress JSON_parse trustedDataEvaluate).
Local Abbreviation chatCompletions :=
  (Proxy.chatCompletions JSON_parse JSON_stringify trustedDataEvaluate
                         toolInvocationEvaluate llmProvider).
Local Abbreviation handleNonStreaming :=
  (Proxy.handleNonStreaming JSON_parse toolInvocationEvaluate llmProvider).
Local Abbreviation sseEvent := (Proxy.sseEvent JSON_stringify).
Local Abbreviation rowFor := (ProxySpec.rowFor JSON_parse trustedDataEvaluate).
Local Abbreviation scannable := (ProxySpec.scannable JSON_parse).



(** X13. A request with no message at all is answered with status 500 and
    type [api_error], the store being left as it was: the handler reads the
    role of a last message that does not exist. *)
Theorem empty_request_is_an_internal_error :
  forall c requestBody st,
    existsb (String.eqb c) (chats st) = true ->
    messages requestBody = [] ->
    exists msg,
      chatCompletions c requestBody st
      = (SentJson 500 (ErrorBody msg "api_error"), st).
Proof.
  intros c requestBody st Hchat Hempty.
  unfold Proxy.chatCompletions, tryBlock, Proxy.ingress. rewrite Hchat, Hempty.
  cbn. unfold rawStarted. rewrite Nat.eqb_refl. eexists. reflexivity.
Qed.

(** X14. A response whose first choice has no tool call, or only tool
    calls that are not function calls, is never put to the evaluator: the
    assistant message is stored and the response sent with status 200,
    whatever the evaluator and the parser would say. *)
Theorem custom_tool_calls_are_not_evaluated :
  forall c requestBody st st1 response first others,
    existsb (String.eqb c) (chats st) = true ->
    stream requestBody = false ->
    ingress c requestBody st = (Returned tt, st1) ->
    chatCompletion llmProvider requestBody = Returned response ->
    choices response = first :: others ->
    match tool_calls (message first) with
    | Some tcs =>
        Forall (fun tc => match tc with
                          | CustomToolCall _ _ _ => True
                          | FunctionToolCall _ _ _ => False
                          end) tcs
    | None => True
    end ->
    chatCompletions c requestBody st
    = (SentJson 200 (CompletionBody response),
       mkState (chats st1)
               (interactions st1 ++ [mkInteraction c (message first) false None])
               (replyHeaders st1) (rawWritten st1)).
Proof.
  intros c requestBody st st1 response first others
         Hchat Hstream Hingress Hup Hchoices Hcustom.
  rewrite (chatCompletions_non_streaming _ _ _ _ _ _ _ _ _ Hchat Hstream Hingress).
  destruct (tool_calls (message first)) as [tcs|] eqn:Htcs.
  - rewrite (handleNonStreaming_gate _ _ _ _ _ _ _ _ _ _ Hup Hchoices Htcs).
    rewrite evaluateToolCalls_all_pass; [reflexivity|].
    eapply Forall_impl; [|exact Hcustom].
    intros [i n a | i n a] H; [destruct H | exact I].
  - unfold Proxy.handleNonStreaming, bind at 1, lift.
    rewrite Hup, Hchoices, Htcs. reflexivity.
Qed.

Lemma searchHistory_skip :
  forall extra rest wanted,
    Forall (fun i => role (interaction_content i) <> "assistant") extra ->
    searchHistory (extra ++ rest) wanted = searchHistory rest wanted.
Proof.
  intros extra rest wanted H.
  induction H as [|i extra Hi _ IH]; [reflexivity|].
  cbn [app searchHistory]. apply String.eqb_neq in Hi. rewrite Hi. exact IH.
Qed.

Lemma history_ignores_new_tool_rows :
  forall c rows extra wanted,
    Forall (fun i => role (interaction_content i) <> "assistant") extra ->
    searchHistory (rev (filter (fun i => chatId i =? c)%string (rows ++ extra)))
                  wanted
    = searchHistory (rev (filter (fun i => chatId i =? c)%string rows)) wanted.
Proof.
  intros c rows extra wanted H.
  rewrite filter_app, rev_app_distr. apply searchHistory_skip.
  apply Forall_forall. intros i Hi.
  apply in_rev, filter_In in Hi. destruct Hi as [Hi _].
  apply (proj1 (Forall_forall _ _) H). exact Hi.
Qed.

Lemma rowFor_not_assistant :
  forall c past m,
    Forall (fun i => role (interaction_content i) <> "assistant")
           (rowFor c past m).
Proof.
  intros c past m. unfold ProxySpec.rowFor.
  destruct (role m =? "tool")%string eqn:Hrole; [|constructor].
  apply String.eqb_eq in Hrole.
  destruct (JSON_parse _) as [v|msg]; [|constructor].
  destruct (searchHistory past (tool_call_id m)) as [[name|]|e];
    try constructor.
  destruct (truthy_string name); constructor; [|constructor].
  cbn. rewrite Hrole. discriminate.
Qed.

Lemma processIncomingMessage_rows :
  forall c m chats0 rows extra headers written,
    Forall (fun i => role (interaction_content i) <> "assistant") extra ->
    scannable (rev (filter (fun i => chatId i =? c)%string rows)) m ->
    processIncomingMessage c m (mkState chats0 (rows ++ extra) headers written)
    = (Returned tt,
       mkState chats0
               (rows ++ extra
                ++ rowFor c (rev (filter (fun i => chatId i =? c)%string rows)) m)
               headers written).
Proof.
  intros c m chats0 rows extra headers written Hextra Hscan.
  unfold Proxy.processIncomingMessage, ProxySpec.rowFor.
  destruct (role m =? "tool")%string eqn:Hrole.
  2:{ rewrite app_nil_r. reflexivity. }
  apply String.eqb_eq in Hrole.
  destruct (Hscan Hrole) as ((v & Hv) & (found & Hfound)).
  unfold bind at 1.
  assert (Hparse : forall s,
             parseContent JSON_parse (content m) s = (Returned v, s)).
  { intros s. unfold parseContent, parse. rewrite Hv. reflexivity. }
  rewrite Hparse, Hv.
  unfold bind at 1. rewrite extractToolNameFromHistory_run.
  unfold history. cbn [interactions].
  rewrite (history_ignores_new_tool_rows _ _ _ _ Hextra), Hfound.
  destruct found as [name|]; [|rewrite app_nil_r; reflexivity].
  destruct (truthy_string name); [|rewrite app_nil_r; reflexivity].
  unfold InteractionModel_create, modify. cbn. rewrite <- app_assoc.
  reflexivity.
Qed.

Lemma processIncomingMessages_rows :
  forall c chats0 rows headers written ms extra,
    Forall (fun i => role (interaction_content i) <> "assistant") extra ->
    Forall (scannable (rev (filter (fun i => chatId i =? c)%string rows))) ms ->
    processIncomingMessages c ms (mkState chats0 (rows ++ extra) headers written)
    = (Returned tt,
       mkState chats0
               (rows ++ extra
                ++ flat_map
                     (rowFor c (rev (filter (fun i => chatId i =? c)%string rows)))
                     ms)
               headers written).
Proof.
  intros c chats0 rows headers written ms.
  induction ms as [|m ms IH]; intros extra Hextra Hscan.
  - cbn. rewrite app_nil_r. reflexivity.
  - inversion Hscan as [|? ? Hm Hms]; subst.
    cbn [Proxy.processIncomingMessages flat_map]. unfold bind at 1.
    rewrite (processIncomingMessage_rows _ _ _ _ _ _ _ Hextra Hm).
    rewrite (IH (extra ++ rowFor c _ m)).
    + rewrite <- !app_assoc. reflexivity.
    + apply Forall_app. split; [exact Hextra | apply rowFor_not_assistant].
    + exact Hms.
Qed.

(** A tool message whose content does not parse stops the scan, whatever
    its tool call id. *)
Lemma processIncomingMessage_unparsed :
  forall c m st msg,
    role m = "tool" ->
    JSON_parse (contentText (content m)) = inr msg ->
    processIncomingMessage c m st = (Thrown (SyntaxError msg), st).
Proof.
  intros c m st msg Hrole Hbad.
  unfold Proxy.processIncomingMessage. rewrite Hrole.
  cbn [String.eqb Ascii.eqb Bool.eqb].
  unfold bind, parseContent, parse. rewrite Hbad. reflexivity.
Qed.

(** X15. Within one request the ingress scan parses the content of every
    tool message before anything else.  When every tool message has a
    content that parses as JSON, and the walk through the history does not
    throw, the scan records, after the rows already stored, one row per
    tool message whose tool name resolves, in message order, then the last
    message when it is a user message; every tool name is resolved in the
    history as it was before the request, the rows recorded along the way
    not changing what is found.  At the first tool message whose content
    does not parse (plain text, or no content at all) the scan stops with
    the parser's error: the rows recorded before it stay, and neither the
    later tool results nor the user message are recorded. *)
Theorem ingress_records_tool_results_then_user_message :
  forall c requestBody st,
    (messages requestBody <> [] ->
     Forall (scannable (history c st)) (messages requestBody) ->
     ingress c requestBody st
     = (Returned tt,
        mkState (chats st)
                (interactions st
                 ++ flat_map (rowFor c (history c st)) (messages requestBody)
                 ++ userRow c (messages requestBody))
                (replyHeaders st) (rawWritten st)))
    /\ (forall pre m post msg,
          messages requestBody = pre ++ m :: post ->
          Forall (scannable (history c st)) pre ->
          role m = "tool" ->
          JSON_parse (contentText (content m)) = inr msg ->
          ingress c requestBody st
          = (Thrown (SyntaxError msg),
             mkState (chats st)
                     (interactions st
                      ++ flat_map (rowFor c (history c st)) pre)
                     (replyHeaders st) (rawWritten st))).
Proof.
  intros c requestBody st.
  destruct st as [chats0 rows headers written].
  unfold history in *. cbn [interactions chats replyHeaders rawWritten] in *.
  split.
  - intros Hne Hscan. unfold Proxy.ingress, bind.
    pose proof (processIncomingMessages_rows c chats0 rows headers written
                  (messages requestBody) [] (Forall_nil _) Hscan) as Hrun.
    rewrite app_nil_r in Hrun. cbn [app] in Hrun. rewrite Hrun.
    unfold storeUserMessage, userRow.
    assert (Hlast : exists m, last (map Some (messages requestBody)) None = Some m).
    { destruct (messages requestBody) as [|m0 ms]; [congruence|].
      clear. revert m0. induction ms as [|m1 ms IH]; intros m0; cbn; eauto.
      apply (IH m1). }
    destruct Hlast as [m ->].
    destruct (role m =? "user")%string.
    + unfold InteractionModel_create, modify. cbn. rewrite <- app_assoc.
      reflexivity.
    + unfold ret. rewrite app_nil_r. reflexivity.
  - intros pre m post msg Hmessages Hscan Hrole Hbad.
    unfold Proxy.ingress, bind. rewrite Hmessages.
    rewrite (processIncomingMessages_app JSON_parse trustedDataEvaluate).
    pose proof (processIncomingMessages_rows c chats0 rows headers written
                  pre [] (Forall_nil _) Hscan) as Hrun.
    rewrite app_nil_r in Hrun. cbn [app] in Hrun. rewrite Hrun.
    cbn [Proxy.processIncomingMessages]. unfold bind.
    rewrite (processIncomingMessage_unparsed _ _ _ _ Hrole Hbad).
    reflexivity.
Qed.

Lemma findToolCallName_sound :
  forall tcs wanted name,
    findToolCallName tcs (Some wanted) = Some (Returned name) ->
    exists arguments, In (FunctionToolCall wanted name arguments) tcs.
Proof.
  induction tcs as [|tc tcs IH]; intros wanted name; cbn; [discriminate|].
  destruct (toolCallId tc =? wanted)%string eqn:Hid.
  - apply String.eqb_eq in Hid.
    destruct tc as [i n a | i n a]; cbn in *; [|discriminate].
    intros [= <-]. subst i. eauto.
  - intros H. destruct (IH _ _ H) as [a Ha]. eauto.
Qed.

Lemma findToolCallName_none :
  forall tcs wanted,
    (forall tc, In tc tcs -> toolCallId tc <> wanted) ->
    findToolCallName tcs (Some wanted) = None.
Proof.
  induction tcs as [|tc tcs IH]; intros wanted H; cbn; [reflexivity|].
  assert (Hid : (toolCallId tc =? wanted)%string = false).
  { apply String.eqb_neq. apply H. left. reflexivity. }
  rewrite Hid. apply IH. intros tc' Hin. apply H. right. exact Hin.
Qed.

Lemma findToolCallName_no_id :
  forall tcs, findToolCallName tcs None = None.
Proof. induction tcs as [|tc tcs IH]; cbn; auto. Qed.

(** X16. Resolving a tool name reads the store without changing it.  A
    name that is found is the name of a function tool call with the wanted
    id, issued by a stored assistant message of the same chat; when no
    stored assistant message of the chat carries a tool call with the id,
    nothing is found; and a tool message without a [tool_call_id] never
    resolves. *)
Theorem tool_name_resolution :
  forall c st,
    (forall wanted, snd (extractToolNameFromHistory c wanted st) = st)
    /\ (forall wanted name,
          fst (extractToolNameFromHistory c (Some wanted) st)
          = Returned (Some name) ->
          exists i, In i (interactions st) /\ chatId i = c
                    /\ issued i wanted name)
    /\ (forall wanted,
          (forall i, In i (interactions st) -> chatId i = c ->
                     ~ carries i wanted) ->
          fst (extractToolNameFromHistory c (Some wanted) st) = Returned None)
    /\ fst (extractToolNameFromHistory c None st) = Returned None.
Proof.
  intros c st. split; [reflexivity|].
  assert (Hin : forall i, In i (history c st) ->
                          In i (interactions st) /\ chatId i = c).
  { intros i Hi. unfold history in Hi. apply in_rev, filter_In in Hi.
    destruct Hi as [Hi Hc]. apply String.eqb_eq in Hc. auto. }
  split; [|split].
  - intros wanted name. rewrite extractToolNameFromHistory_run. cbn [fst].
    revert Hin. generalize (history c st) as past. intros past Hin.
    induction past as [|i past IH]; cbn [searchHistory]; [discriminate|].
    assert (Hrest : searchHistory past (Some wanted) = Returned (Some name) ->
                    exists i0, In i0 (interactions st) /\ chatId i0 = c
                               /\ issued i0 wanted name).
    { apply IH. intros x Hx. apply Hin. right. exact Hx. }
    destruct (role (interaction_content i) =? "assistant")%string eqn:Hrole;
      [|exact Hrest].
    destruct (tool_calls (interaction_content i)) as [tcs|] eqn:Htcs;
      [|exact Hrest].
    destruct (findToolCallName tcs (Some wanted)) as [[n|e]|] eqn:Hfind;
      [|discriminate|exact Hrest].
    intros [= ->].
    destruct (findToolCallName_sound _ _ _ Hfind) as [a Ha].
    exists i. destruct (Hin i (or_introl eq_refl)) as [H1 H2].
    repeat split; try assumption.
    + apply String.eqb_eq. exact Hrole.
    + exists tcs, a. split; assumption.
  - intros wanted Hnone. rewrite extractToolNameFromHistory_run. cbn [fst].
    revert Hin. generalize (history c st) as past. intros past Hin.
    induction past as [|i past IH]; cbn [searchHistory]; [reflexivity|].
    assert (Hrest : searchHistory past (Some wanted) = Returned None).
    { apply IH. intros x Hx. apply Hin. right. exact Hx. }
    destruct (role (interaction_content i) =? "assistant")%string eqn:Hrole;
      [|exact Hrest].
    destruct (tool_calls (interaction_content i)) as [tcs|] eqn:Htcs;
      [|exact Hrest].
    rewrite findToolCallName_none; [exact Hrest|].
    intros tc Htc Hid.
    destruct (Hin i (or_introl eq_refl)) as [H1 H2].
    apply (Hnone i H1 H2). split; [apply String.eqb_eq; exact Hrole|].
    exists tcs, tc. repeat split; assumption.
  - clear Hin. rewrite extractToolNameFromHistory_run. cbn [fst].
    generalize (history c st) as past.
    induction past as [|i past IH]; cbn [searchHistory];
      [reflexivity|].
    destruct (role (interaction_content i) =? "assistant")%string;
      [|exact IH].
    destruct (tool_calls (interaction_content i)) as [tcs|]; [|exact IH].
    rewrite findToolCallName_no_id. exact IH.
Qed.

End ProxyRuns.

(** ** The quarantine sub-agent: cost, failure, early exit *)

Section DualLlmMore.

Import Anthropic DualLlm TrustedData.

Variable engine : StringEngine.

Local Abbreviation answerQuestion := (DualLlm.answerQuestion engine).
Local Abbreviation questionLoop := (DualLlm.questionLoop engine).
Local Abbreviation generateSummary := (DualLlm.generateSummary engine).
Local Abbreviation processWithMainAgent := (DualLlm.processWithMainAgent engine).
Local Abbreviation quarantinedPromptFor := (DualLlm.quarantinedPromptFor engine).

Lemma llm_chat_run :
  forall client conversation st,
    llm_chat client conversation st
    = (chat client (llmCalls st) conversation,
       mkStore (dualLlmConfig st) (dualLlmResults st) (S (llmCalls st))).
Proof. reflexivity. Qed.

Lemma questionLoop_calls :
  forall self rounds conversation st,
    (llmCalls (snd (questionLoop self rounds conversation st))
     <= llmCalls st + 2 * rounds)%nat.
Proof.
  intros self rounds.
  induction rounds as [|rounds IH]; intros conversation st.
  - cbn. lia.
  - cbn [DualLlm.questionLoop]. unfold bind at 1. rewrite llm_chat_run.
    destruct (chat (llmClient self) (llmCalls st) conversation) as [response|e];
      [|cbn; lia].
    destruct ((response =? "DONE")%string || includes response "DONE");
      [cbn; lia|].
    destruct (matchQuestion engine response) as [q|]; [|cbn; lia].
    destruct (matchOptions engine response) as [o|]; [|cbn; lia].
    unfold bind at 1. rewrite answerQuestion_run.
    destruct (chatWithSchema _ _ _) as [parsed|e]; [|cbn; lia].
    cbn [snd]. eapply Nat.le_trans; [apply IH|]. cbn [llmCalls]. lia.
Qed.


(** X17. One sanitisation makes at most two LLM calls per round and one
    for the summary, and never takes calls back; a run that returns has made
    at least the summary call. *)
Theorem llm_calls_are_bounded :
  forall self st,
    let st' := snd (processWithMainAgent self st) in
    (llmCalls st <= llmCalls st')%nat
    /\ (llmCalls st' <= llmCalls st + 2 * maxRounds (config self) + 1)%nat
    /\ (forall summary,
          fst (processWithMainAgent self st) = Returned summary ->
          (llmCalls st + 1 <= llmCalls st')%nat).
Proof.
  intros self st. cbv zeta.
  destruct (processWithMainAgent self st) as [o s] eqn:Hrun. cbn [fst snd].
  revert Hrun. unfold DualLlm.processWithMainAgent. unfold bind at 1.
  match goal with
  | |- context [questionLoop self ?r ?c st] =>
      pose proof (questionLoop_calls self r c st) as Hup;
      pose proof (questionLoop_onlyCalls engine self r c st) as (_ & _ & Hlow);
      destruct (questionLoop self r c st) as [[conv|e] s1]
  end; cbn [snd] in *.
  2:{ intros [= <- <-]. repeat split; try lia; try discriminate. }
  unfold bind at 1, DualLlm.generateSummary. rewrite llm_chat_run.
  destruct (chat _ _ _) as [summary|e].
  - unfold bind, DualLlmResultModel_create, modify, ret. intros [= <- <-].
    cbn. repeat split; lia.
  - intros [= <- <-]. cbn. repeat split; try lia; try discriminate.
Qed.



(** X20. The option fed back to the privileged model is one of the
    options asked, at the index chosen, as soon as there is an option; with
    no option at all the index is -1 and the text is [undefined]. *)
Theorem selected_option_is_one_of_the_options :
  forall self question options st parsed,
    chatWithSchema (llmClient self) (llmCalls st)
      [mkMsg "user" (quarantinedPromptFor self question options)]
    = Returned parsed ->
    exists k,
      fst (answerQuestion self question options st) = Returned k
      /\ (options <> [] ->
          nth_error options (Z.to_nat k) = Some (optionAt options k)
          /\ In (optionAt options k) options)
      /\ (options = [] -> k = (-1)%Z /\ optionAt options k = "undefined").
Proof.
  intros self question options st parsed Hreply.
  exists (validateAnswer parsed (lengthZ options)).
  rewrite answerQuestion_run, Hreply. cbn [fst].
  split; [reflexivity|]. split.
  - intros Hne.
    assert (Hn : (1 <= lengthZ options)%Z).
    { unfold lengthZ. destruct options; [congruence | cbn; lia]. }
    pose proof (validateAnswer_range parsed _ Hn) as [Hlo Hhi].
    set (k := validateAnswer parsed (lengthZ options)) in *.
    unfold optionAt.
    destruct (k <? 0)%Z eqn:Hneg; [apply Z.ltb_lt in Hneg; lia|].
    assert (Hlt : (Z.to_nat k < length options)%nat)
      by (unfold lengthZ in Hhi; lia).
    rewrite (nth_error_nth' options "undefined" Hlt).
    split; [reflexivity | apply nth_In; exact Hlt].
  - intros ->.
    assert (Hk : validateAnswer parsed (lengthZ (@nil string)) = (-1)%Z).
    { unfold validateAnswer, lengthZ. cbn [length Z.of_nat].
      destruct (falsy parsed); [reflexivity|].
      destruct (prop parsed "answer") as [[| |[q| |]| | |]|]; try reflexivity.
      cbv zeta.
      destruct (Qfloor q <? 0)%Z eqn:Hlo; [reflexivity|].
      apply Z.ltb_ge in Hlo.
      assert (Hge : (Qfloor q >=? 0)%Z = true)
        by (rewrite Z.geb_leb; apply Z.leb_le; exact Hlo).
      rewrite Hge. reflexivity. }
    rewrite Hk. split; reflexivity.
Qed.

Lemma toolResultInBlocks_sound :
  forall blocks i v,
    toolResultInBlocks engine blocks i = Some v ->
    exists c e,
      In (ToolResultBlock i c e) blocks /\ v = toolResultValue engine c.
Proof.
  induction blocks as [|b blocks IH]; intros i v; cbn; [discriminate|].
  destruct b as [t|j n inp|j c e|t d];
    try (intros H; destruct (IH _ _ H) as (c0 & e0 & Hin & Hv); eauto 6).
  destruct (j =? i)%string eqn:Hid.
  - apply String.eqb_eq in Hid. subst j. intros [= <-]. eauto 6.
  - intros H. destruct (IH _ _ H) as (c0 & e0 & Hin & Hv). eauto 6.
Qed.

Lemma toolResultInBlocks_complete :
  forall blocks i c e,
    In (ToolResultBlock i c e) blocks ->
    toolResultInBlocks engine blocks i <> None.
Proof.
  induction blocks as [|b blocks IH]; intros i c e Hin; [destruct Hin|].
  destruct Hin as [-> | Hin].
  - cbn. rewrite String.eqb_refl. discriminate.
  - destruct b as [t|j n inp|j c' e'|t d]; cbn; eauto.
    destruct (j =? i)%string; [discriminate | eauto].
Qed.

(** X21. Looking up the tool result of a [tool_use_id] returns the value
    of a [tool_result] block with that id sitting in a user message, and
    throws "Tool result not found for toolUseId: <id>" exactly when no user
    message holds such a block. *)
Theorem tool_result_lookup :
  forall messages i,
    match extractToolResultFromAnthropic engine messages i with
    | Returned v =>
        exists c e,
          hosted messages (ToolResultBlock i c e)
          /\ v = toolResultValue engine c
    | Thrown err =>
        err = mkError "Error" ("Tool result not found for toolUseId: " ++ i) None
        /\ forall c e, ~ hosted messages (ToolResultBlock i c e)
    end.
Proof.
  intros messages i. unfold hosted.
  induction messages as [|m messages IH]; cbn [extractToolResultFromAnthropic].
  - split; [reflexivity|]. intros c e (m & blocks & [] & _).
  - assert (Hskip :
      (forall c e blocks, content m = ArrayContent blocks -> role m = User ->
                          ~ In (ToolResultBlock i c e) blocks) ->
      match extractToolResultFromAnthropic engine messages i with
      | Returned v =>
          exists c e,
            (exists m0 blocks,
                In m0 (m :: messages) /\ role m0 = User
                /\ content m0 = ArrayContent blocks
                /\ In (ToolResultBlock i c e) blocks)
            /\ v = toolResultValue engine c
      | Thrown err =>
          err = mkError "Error" ("Tool result not found for toolUseId: " ++ i) None
          /\ forall c e,
               ~ (exists m0 blocks,
                     In m0 (m :: messages) /\ role m0 = User
                     /\ content m0 = ArrayContent blocks
                     /\ In (ToolResultBlock i c e) blocks)
      end).
    { intros Hnot.
      destruct (extractToolResultFromAnthropic engine messages i) as [v|err].
      - destruct IH as (c & e & (m0 & blocks & Hin & Hr & Hc & Hb) & Hv).
        exists c, e. split; [|exact Hv].
        exists m0, blocks. repeat split; auto. right. exact Hin.
      - destruct IH as [Herr Hnone]. split; [exact Herr|].
        intros c e (m0 & blocks & [<- | Hin] & Hr & Hc & Hb).
        + apply (Hnot c e blocks Hc Hr Hb).
        + apply (Hnone c e). exists m0, blocks. auto. }
    destruct (role m) eqn:Hrole.
    2:{ apply Hskip. intros c e blocks _ Hr. discriminate Hr. }
    destruct (content m) as [text|blocks] eqn:Hcontent.
    { apply Hskip. intros c e blocks Hc _. discriminate Hc. }
    destruct (toolResultInBlocks engine blocks i) as [v|] eqn:Hfind.
    + destruct (toolResultInBlocks_sound _ _ _ Hfind) as (c & e & Hin & Hv).
      exists c, e. split; [|exact Hv].
      exists m, blocks. repeat split; auto. left. reflexivity.
    + apply Hskip. intros c e blocks' [= <-] _ Hin.
      apply (toolResultInBlocks_complete _ _ _ _ Hin). exact Hfind.
Qed.

(** X22. The original user request is read from the most recent user
    message that has a string content or a text block: appending an
    assistant message, or a user message made of blocks none of which is a
    text block (tool results only, say), does not change it; appending a
    user message with a string content makes that string the request; and
    with no such message at all the request is "process this data". *)
Theorem user_request_extraction :
  forall messages m,
    (role m = Assistant
     \/ (exists blocks,
            content m = ArrayContent blocks
            /\ Forall (fun b => forall t, b <> TextBlock t) blocks) ->
     extractUserRequestFromAnthropic (messages ++ [m])
     = extractUserRequestFromAnthropic messages)
    /\ (forall s,
          role m = User -> content m = StringContent s ->
          extractUserRequestFromAnthropic (messages ++ [m]) = s)
    /\ extractUserRequestFromAnthropic [] = "process this data".
Proof.
  intros messages m. unfold extractUserRequestFromAnthropic.
  rewrite rev_app_distr. cbn [rev app userRequestFrom].
  split; [|split; [|reflexivity]].
  - intros [Hrole | (blocks & Hcontent & Hnone)].
    + rewrite Hrole. reflexivity.
    + rewrite Hcontent. destruct (role m); [|reflexivity].
      assert (Hfind : find (fun b => match b with
                                     | TextBlock _ => true | _ => false end)
                           blocks = None).
      { clear Hcontent.
        induction Hnone as [|b blocks Hb _ IH]; [reflexivity|].
        cbn. destruct b as [t| | |]; try exact IH.
        exfalso. apply (Hb t). reflexivity. }
      rewrite Hfind. reflexivity.
  - intros s Hrole Hcontent. rewrite Hrole, Hcontent. reflexivity.
Qed.

End DualLlmMore.

(** ** The rewrite of inbound tool results: decisions, trust flag, cache *)

Section TrustedDataMore.

Import Anthropic DualLlm TrustedData TrustedDataSpec.

Variable engine : StringEngine.
Variable createDualLlmClient : string -> string -> DualLlmClient.
Variable TrustedDataPolicyModel_evaluate :
  string -> string -> option Json -> Evaluation.

Local Abbreviation processContentBlock :=
  (TrustedData.processContentBlock engine createDualLlmClient
                                   TrustedDataPolicyModel_evaluate).
Local Abbreviation processContentBlocks :=
  (TrustedData.processContentBlocks engine createDualLlmClient
                                    TrustedDataPolicyModel_evaluate).
Local Abbreviation processMessage :=
  (TrustedData.processMessage engine createDualLlmClient
                              TrustedDataPolicyModel_evaluate).
Local Abbreviation processMessages :=
  (TrustedData.processMessages engine createDualLlmClient
                               TrustedDataPolicyModel_evaluate).
Local Abbreviation evaluateIfContextIsTrusted :=
  (TrustedData.evaluateIfContextIsTrusted engine createDualLlmClient
                                          TrustedDataPolicyModel_evaluate).
Local Abbreviation untrusted :=
  (TrustedDataSpec.untrusted engine TrustedDataPolicyModel_evaluate).
Local Abbreviation needsLlm :=
  (TrustedDataSpec.needsLlm engine TrustedDataPolicyModel_evaluate).

Lemma processContentBlock_without_llm :
  forall messages agent apiKey b hu st,
    needsLlm messages agent (dualLlmResults st) b = false ->
    exists r, processContentBlock messages agent apiKey b hu st = (Returned r, st).
Proof.
  intros messages agent apiKey b hu st.
  destruct b as [t|i n j|i c e|t d]; try (cbn; unfold ret; eauto).
  unfold TrustedDataSpec.needsLlm, TrustedData.processContentBlock.
  destruct (extractToolNameFromMessages messages i) as [toolName|];
    [|unfold ret; eauto].
  destruct (truthy_string toolName); [|unfold ret; eauto].
  destruct (isBlocked _); [unfold ret; eauto|].
  destruct (shouldSanitizeWithDualLlm _); [|unfold ret; eauto].
  unfold bind at 1, DualLlmResultModel_findByToolCallId, gets.
  destruct (find _ (dualLlmResults st)) as [row|]; [unfold ret; eauto|].
  cbn. discriminate.
Qed.

(** X23. The LLM is called only for a tool result that has a resolved tool
    name, is not blocked, is to be sanitised and has no cached row.  When no
    [tool_result] block of the conversation is of that kind, the rewrite
    returns with the store as it was: no LLM call, no row written. *)
Theorem llm_is_called_only_for_uncached_results_to_sanitise :
  forall messages agent apiKey st,
    (forall b, hosted messages b ->
               needsLlm messages agent (dualLlmResults st) b = false) ->
    exists out,
      evaluateIfContextIsTrusted messages agent apiKey st = (Returned out, st).
Proof.
  intros messages agent apiKey st Hnone.
  unfold TrustedData.evaluateIfContextIsTrusted, bind at 1.
  assert (Hblocks : forall blocks hu,
             (forall b, In b blocks -> hosted messages b) ->
             exists r,
               processContentBlocks messages agent apiKey blocks hu st
               = (Returned r, st)).
  { induction blocks as [|b blocks IH]; intros hu Hhost.
    - cbn. unfold ret. eauto.
    - cbn [TrustedData.processContentBlocks]. unfold bind at 1.
      destruct (processContentBlock_without_llm messages agent apiKey b hu st)
        as [r1 ->]; [apply Hnone, Hhost; left; reflexivity|].
      unfold bind at 1.
      destruct (IH (snd r1)) as [rs ->];
        [intros x Hx; apply Hhost; right; exact Hx|].
      unfold ret. eauto. }
  assert (Hrun : forall todo hu,
             incl todo messages ->
             exists r,
               processMessages messages agent apiKey todo hu st
               = (Returned r, st)).
  { induction todo as [|m todo IH]; intros hu Hincl.
    - cbn. unfold ret. eauto.
    - cbn [TrustedData.processMessages]. unfold bind at 1.
      assert (Hm : exists r1,
                 processMessage messages agent apiKey m hu st = (Returned r1, st)).
      { unfold TrustedData.processMessage.
        destruct (role m) eqn:Hrole; [|unfold ret; eauto].
        destruct (content m) as [text|[|b bs]] eqn:Hcontent;
          try (unfold ret; eauto).
        unfold bind at 1.
        destruct (Hblocks (b :: bs) hu) as [rs ->].
        - intros b' Hb'. exists m, (b :: bs). repeat split; auto.
          apply Hincl. left. reflexivity.
        - unfold ret. eauto. }
      destruct Hm as [r1 ->]. unfold bind at 1.
      destruct (IH (snd r1)) as [rs ->];
        [intros x Hx; apply Hincl; right; exact Hx|].
      unfold ret. eauto. }
  destruct (Hrun messages false (incl_refl _)) as [r ->].
  unfold ret. eauto.
Qed.

Lemma processContentBlock_flag_eq :
  forall messages agent apiKey b hu st r st',
    processContentBlock messages agent apiKey b hu st = (Returned r, st') ->
    snd r = hu || untrusted messages agent b.
Proof.
  intros messages agent apiKey b hu st r st'.
  destruct b as [t|i n j|i c e|t d];
    try (cbn; unfold ret; intros [= <- _]; cbn; rewrite orb_false_r;
         reflexivity).
  unfold TrustedData.processContentBlock, TrustedDataSpec.untrusted.
  destruct (extractToolNameFromMessages messages i) as [toolName|];
    [|unfold ret; intros [= <- _]; cbn; rewrite orb_true_r; reflexivity].
  destruct (truthy_string toolName);
    [|unfold ret; intros [= <- _]; cbn; rewrite orb_true_r; reflexivity].
  assert (Hflag : (if negb (isTrusted
                     (TrustedDataPolicyModel_evaluate agent toolName
                        (toolResultValue engine c)))
                   then true else hu)
                  = hu || negb (isTrusted
                     (TrustedDataPolicyModel_evaluate agent toolName
                        (toolResultValue engine c))))
    by (destruct (negb _), hu; reflexivity).
  destruct (isBlocked _); [unfold ret; intros [= <- _]; exact Hflag|].
  destruct (shouldSanitizeWithDualLlm _);
    [|unfold ret; intros [= <- _]; exact Hflag].
  unfold bind at 1, DualLlmResultModel_findByToolCallId, gets.
  destruct (find _ (dualLlmResults st)) as [row|];
    [unfold ret; intros [= <- _]; exact Hflag|].
  unfold bind at 1. rewrite create_run.
  destruct (extractToolResultFromAnthropic engine messages i); [|discriminate].
  unfold bind at 1.
  destruct (DualLlm.processWithMainAgent engine _ st) as [[summary|err] s1];
    [|discriminate].
  unfold ret. intros [= <- _]. exact Hflag.
Qed.

Lemma processContentBlocks_flag_eq :
  forall messages agent apiKey blocks hu st r st',
    processContentBlocks messages agent apiKey blocks hu st = (Returned r, st') ->
    snd r = hu || existsb (untrusted messages agent) blocks.
Proof.
  intros messages agent apiKey blocks.
  induction blocks as [|b blocks IH]; intros hu st r st'.
  - cbn. unfold ret. intros [= <- _]. cbn. rewrite orb_false_r. reflexivity.
  - cbn [TrustedData.processContentBlocks existsb]. unfold bind at 1.
    destruct (processContentBlock messages agent apiKey b hu st)
      as [[r1|e] s1] eqn:H1; [|discriminate].
    unfold bind at 1.
    destruct (processContentBlocks messages agent apiKey blocks (snd r1) s1)
      as [[rs|e] s2] eqn:H2; [|discriminate].
    unfold ret. intros [= <- _]. cbn [snd].
    rewrite (IH _ _ _ _ H2), (processContentBlock_flag_eq _ _ _ _ _ _ _ _ H1).
    rewrite orb_assoc. reflexivity.
Qed.

Lemma processMessages_flag_eq :
  forall messages agent apiKey todo hu st r st',
    processMessages messages agent apiKey todo hu st = (Returned r, st') ->
    snd r
    = hu || existsb (fun m => existsb (untrusted messages agent) (scanned m))
                    todo.
Proof.
  intros messages agent apiKey todo.
  induction todo as [|m todo IH]; intros hu st r st'.
  - cbn. unfold ret. intros [= <- _]. cbn. rewrite orb_false_r. reflexivity.
  - cbn [TrustedData.processMessages existsb]. unfold bind at 1.
    destruct (processMessage messages agent apiKey m hu st)
      as [[r1|e] s1] eqn:H1; [|discriminate].
    unfold bind at 1.
    destruct (processMessages messages agent apiKey todo (snd r1) s1)
      as [[rs|e] s2] eqn:H2; [|discriminate].
    unfold ret. intros [= <- _]. cbn [snd].
    rewrite (IH _ _ _ _ H2), orb_assoc. f_equal.
    revert H1. unfold TrustedData.processMessage, scanned.
    destruct (role m);
      [|unfold ret; intros [= <- _]; cbn; rewrite orb_false_r; reflexivity].
    destruct (content m) as [text|[|b bs]];
      try (unfold ret; intros [= <- _]; cbn; rewrite orb_false_r; reflexivity).
    unfold bind at 1.
    destruct (processContentBlocks messages agent apiKey (b :: bs) hu st)
      as [[rs1|e] s3] eqn:H3; [|discriminate].
    unfold ret. intros [= <- _]. cbn [snd].
    apply (processContentBlocks_flag_eq _ _ _ _ _ _ _ _ H3).
Qed.

(** X24. The context is reported trusted exactly when no user message
    holds a [tool_result] block whose tool name is unresolved or whose
    evaluation is not trusted.  Blocking or sanitising a result does not
    make the context trusted. *)
Theorem context_is_trusted_iff_every_tool_result_is :
  forall messages agent apiKey st out st',
    evaluateIfContextIsTrusted messages agent apiKey st = (Returned out, st') ->
    contextIsTrusted out
    = negb (existsb (fun m => existsb (untrusted messages agent) (scanned m))
                    messages)
    /\ (contextIsTrusted out = true
        <-> forall b, hosted messages b -> untrusted messages agent b = false).
Proof.
  intros messages agent apiKey st out st'.
  unfold TrustedData.evaluateIfContextIsTrusted, bind at 1.
  destruct (processMessages messages agent apiKey messages false st)
    as [[r|err] s1] eqn:Hrun; [|discriminate].
  unfold ret. intros [= <- _]. cbn [contextIsTrusted].
  rewrite (processMessages_flag_eq _ _ _ _ _ _ _ _ Hrun). cbn [orb].
  split; [reflexivity|].
  rewrite negb_true_iff. split.
  - intros Hnone b (m & blocks & Hm & Hrole & Hcontent & Hb).
    destruct (untrusted messages agent b) eqn:Hu; [|reflexivity].
    assert (Hex : existsb (fun m0 => existsb (untrusted messages agent)
                                             (scanned m0)) messages = true).
    { apply existsb_exists. exists m. split; [exact Hm|].
      apply existsb_exists. exists b. split; [|exact Hu].
      unfold scanned. rewrite Hrole, Hcontent. exact Hb. }
    congruence.
  - intros Hall.
    destruct (existsb _ messages) eqn:Hex; [|reflexivity].
    apply existsb_exists in Hex. destruct Hex as (m & Hm & Hex).
    apply existsb_exists in Hex. destruct Hex as (b & Hb & Hu).
    rewrite Hall in Hu; [discriminate|].
    unfold scanned in Hb.
    destruct (role m) eqn:Hrole; [|destruct Hb].
    destruct (content m) as [text|blocks] eqn:Hcontent; [destruct Hb|].
    exists m, blocks. auto.
Qed.

Lemma processContentBlocks_identity :
  forall messages agent apiKey blocks hu st,
    Forall (fun b => isToolResult b = false) blocks ->
    processContentBlocks messages agent apiKey blocks hu st
    = (Returned (blocks, hu), st).
Proof.
  intros messages agent apiKey blocks hu st H.
  induction H as [|b blocks Hb _ IH]; [reflexivity|].
  cbn [TrustedData.processContentBlocks]. unfold bind at 1.
  assert (H1 : processContentBlock messages agent apiKey b hu st
               = (Returned (b, hu), st)).
  { destruct b; try reflexivity. discriminate Hb. }
  rewrite H1. cbn [snd]. unfold bind at 1. rewrite IH. reflexivity.
Qed.

(** X25. A conversation without any [tool_result] block in its user
    messages comes back as it went in, reported trusted, with the store
    untouched: no LLM call and no cache access. *)
Theorem conversation_without_tool_results_is_untouched :
  forall messages agent apiKey st,
    (forall b, hosted messages b -> isToolResult b = false) ->
    evaluateIfContextIsTrusted messages agent apiKey st
    = (Returned (mkFiltered messages true), st).
Proof.
  intros messages agent apiKey st Hnone.
  unfold TrustedData.evaluateIfContextIsTrusted, bind at 1.
  assert (Hrun : forall todo,
             incl todo messages ->
             processMessages messages agent apiKey todo false st
             = (Returned (todo, false), st)).
  { induction todo as [|m todo IH]; intros Hincl; [reflexivity|].
    cbn [TrustedData.processMessages]. unfold bind at 1.
    assert (Hm : processMessage messages agent apiKey m false st
                 = (Returned (m, false), st)).
    { unfold TrustedData.processMessage.
      destruct m as [r cnt]. cbn [role content].
      destruct r; [|reflexivity].
      destruct cnt as [text|[|b bs]]; try reflexivity.
      unfold bind at 1. rewrite processContentBlocks_identity; [reflexivity|].
      apply Forall_forall. intros b' Hb'. apply Hnone.
      exists (mkMessage User (ArrayContent (b :: bs))), (b :: bs).
      repeat split; auto. apply Hincl. left. reflexivity. }
    rewrite Hm. cbn [snd]. unfold bind at 1.
    rewrite IH by (intros x Hx; apply Hincl; right; exact Hx).
    reflexivity. }
  rewrite (Hrun messages (incl_refl _)). reflexivity.
Qed.

Lemma cacheGrows_refl :
  forall messages agent st, cacheGrows messages agent st st.
Proof.
  intros. split; [reflexivity|]. split; [lia|].
  exists []. rewrite app_nil_r. split; [reflexivity | constructor].
Qed.

Lemma cacheGrows_trans :
  forall messages agent a b d,
    cacheGrows messages agent a b -> cacheGrows messages agent b d ->
    cacheGrows messages agent a d.
Proof.
  intros messages agent a b d (C1 & L1 & add1 & R1 & F1)
         (C2 & L2 & add2 & R2 & F2).
  split; [congruence|]. split; [lia|].
  exists (add1 ++ add2). split.
  - rewrite R2, R1, app_assoc. reflexivity.
  - apply Forall_app. split; assumption.
Qed.

Lemma processWithMainAgent_cache :
  forall self st,
    dualLlmConfig (snd (DualLlm.processWithMainAgent engine self st))
    = dualLlmConfig st
    /\ (llmCalls st
        <= llmCalls (snd (DualLlm.processWithMainAgent engine self st)))%nat
    /\ exists added,
         dualLlmResults (snd (DualLlm.processWithMainAgent engine self st))
         = dualLlmResults st ++ added
         /\ Forall (fun r => result_agentId r = agentId self
                             /\ result_toolCallId r = toolCallId self) added.
Proof.
  intros self st.
  destruct (DualLlm.processWithMainAgent engine self st) as [o s] eqn:Hrun.
  cbn [snd]. revert Hrun.
  unfold DualLlm.processWithMainAgent. unfold bind at 1.
  match goal with
  | |- context [DualLlm.questionLoop engine self ?r ?c st] =>
      pose proof (questionLoop_onlyCalls engine self r c st) as (C1 & R1 & L1);
      destruct (DualLlm.questionLoop engine self r c st) as [[conv|e] s1]
  end; cbn [snd] in *.
  2:{ intros [= _ <-]. repeat split; try assumption.
      exists []. rewrite app_nil_r. split; [exact R1 | constructor]. }
  unfold bind at 1, DualLlm.generateSummary, llm_chat.
  destruct (chat _ _ _) as [summary|e].
  - unfold bind, DualLlmResultModel_create, modify, ret. intros [= _ <-].
    cbn. repeat split; try assumption; try lia.
    eexists. split; [rewrite R1; reflexivity|].
    constructor; [split; reflexivity | constructor].
  - intros [= _ <-]. cbn. repeat split; try assumption; try lia.
    exists []. rewrite app_nil_r. split; [exact R1 | constructor].
Qed.

Lemma processContentBlock_cache :
  forall messages agent apiKey b hu st,
    hosted messages b ->
    cacheGrows messages agent st
               (snd (processContentBlock messages agent apiKey b hu st)).
Proof.
  intros messages agent apiKey b hu st Hhost.
  destruct (processContentBlock messages agent apiKey b hu st) as [o s] eqn:Hrun.
  cbn [snd]. revert Hrun.
  destruct b as [t|i n j|i c e|t d];
    try (cbn; unfold ret; intros [= _ <-]; apply cacheGrows_refl).
  unfold TrustedData.processContentBlock.
  destruct (extractToolNameFromMessages messages i) as [toolName|];
    [|unfold ret; intros [= _ <-]; apply cacheGrows_refl].
  destruct (truthy_string toolName);
    [|unfold ret; intros [= _ <-]; apply cacheGrows_refl].
  destruct (isBlocked _);
    [unfold ret; intros [= _ <-]; apply cacheGrows_refl|].
  destruct (shouldSanitizeWithDualLlm _);
    [|unfold ret; intros [= _ <-]; apply cacheGrows_refl].
  unfold bind at 1, DualLlmResultModel_findByToolCallId, gets.
  destruct (find _ (dualLlmResults st)) as [row|];
    [unfold ret; intros [= _ <-]; apply cacheGrows_refl|].
  unfold bind at 1. rewrite create_run.
  destruct (extractToolResultFromAnthropic engine messages i) as [v|err];
    [|intros [= _ <-]; apply cacheGrows_refl].
  unfold bind at 1.
  match goal with
  | |- context [DualLlm.processWithMainAgent engine ?self st] =>
      pose proof (processWithMainAgent_cache self st)
        as (C1 & L1 & added & R1 & F1);
      destruct (DualLlm.processWithMainAgent engine self st)
        as [[summary|err] s1]
  end; cbn [snd agentId toolCallId] in *;
    (unfold ret; intros [= _ <-]);
    (split; [exact C1|]; split; [exact L1|]; exists added;
     split; [exact R1|]; eapply Forall_impl; [|exact F1];
     intros r [Ha Hi]; split; [exact Ha|]; exists c, e; rewrite Hi;
     exact Hhost).
Qed.

Lemma processContentBlocks_cache :
  forall messages agent apiKey blocks hu st,
    (forall b, In b blocks -> hosted messages b) ->
    cacheGrows messages agent st
               (snd (processContentBlocks messages agent apiKey blocks hu st)).
Proof.
  intros messages agent apiKey blocks.
  induction blocks as [|b blocks IH]; intros hu st Hhost.
  - apply cacheGrows_refl.
  - destruct (processContentBlocks messages agent apiKey (b :: blocks) hu st)
      as [o s] eqn:Hrun.
    cbn [snd]. revert Hrun.
    cbn [TrustedData.processContentBlocks]. unfold bind at 1.
    pose proof (processContentBlock_cache messages agent apiKey b hu st
                  (Hhost b (or_introl eq_refl))) as G1.
    destruct (processContentBlock messages agent apiKey b hu st)
      as [[r1|e] s1]; cbn [snd] in G1; [|intros [= _ <-]; exact G1].
    unfold bind at 1.
    pose proof (IH (snd r1) s1 (fun x Hx => Hhost x (or_intror Hx))) as G2.
    destruct (processContentBlocks messages agent apiKey blocks (snd r1) s1)
      as [[rs|e] s2]; cbn [snd] in G2; unfold ret; intros [= _ <-];
      eapply cacheGrows_trans; eassumption.
Qed.

Lemma processMessages_cache :
  forall messages agent apiKey todo hu st,
    incl todo messages ->
    cacheGrows messages agent st
               (snd (processMessages messages agent apiKey todo hu st)).
Proof.
  intros messages agent apiKey todo.
  induction todo as [|m todo IH]; intros hu st Hincl.
  - apply cacheGrows_refl.
  - destruct (processMessages messages agent apiKey (m :: todo) hu st)
      as [o s] eqn:Hrun.
    cbn [snd]. revert Hrun.
    cbn [TrustedData.processMessages]. unfold bind at 1.
    assert (G1 : cacheGrows messages agent st
                   (snd (processMessage messages agent apiKey m hu st))).
    { unfold TrustedData.processMessage.
      destruct (role m) eqn:Hrole; [|apply cacheGrows_refl].
      destruct (content m) as [text|[|b bs]] eqn:Hcontent;
        try apply cacheGrows_refl.
      unfold bind.
      pose proof (processContentBlocks_cache messages agent apiKey
                    (b :: bs) hu st) as G.
      destruct (processContentBlocks messages agent apiKey (b :: bs) hu st)
        as [[rs|e] s1]; cbn [snd] in *; apply G;
        intros b' Hb'; exists m, (b :: bs); repeat split; auto;
        apply Hincl; left; reflexivity. }
    destruct (processMessage messages agent apiKey m hu st) as [[r1|e] s1];
      cbn [snd] in G1; [|intros [= _ <-]; exact G1].
    unfold bind at 1.
    pose proof (IH (snd r1) s1 (fun x Hx => Hincl x (or_intror Hx))) as G2.
    destruct (processMessages messages agent apiKey todo (snd r1) s1)
      as [[rs|e] s2]; cbn [snd] in G2; unfold ret; intros [= _ <-];
      eapply cacheGrows_trans; eassumption.
Qed.

(** X26. However the rewrite ends, it leaves the dual-LLM configuration as
    it was and never drops or changes a cached result: rows are only added
    at the end, each one for the agent of the call and keyed by the id of a
    [tool_result] block that a user message of the conversation holds. *)
Theorem cache_only_grows_with_results_of_the_conversation :
  forall messages agent apiKey st,
    let st' := snd (evaluateIfContextIsTrusted messages agent apiKey st) in
    dualLlmConfig st' = dualLlmConfig st
    /\ (llmCalls st <= llmCalls st')%nat
    /\ exists added,
         dualLlmResults st' = dualLlmResults st ++ added
         /\ Forall (fun r =>
                      result_agentId r = agent
                      /\ exists c e,
                           hosted messages
                                  (ToolResultBlock (result_toolCallId r) c e))
                   added.
Proof.
  intros messages agent apiKey st. cbv zeta.
  destruct (evaluateIfContextIsTrusted messages agent apiKey st)
    as [o s] eqn:Hrun.
  cbn [snd]. revert Hrun.
  unfold TrustedData.evaluateIfContextIsTrusted, bind.
  pose proof (processMessages_cache messages agent apiKey messages false st
                (incl_refl _)) as G.
  destruct (processMessages messages agent apiKey messages false st)
    as [[r|e] s1]; cbn [snd] in G; unfold ret; intros [= _ <-]; exact G.
Qed.

Lemma toolUseName_sound :
  forall blocks i name,
    toolUseName blocks i = Some name ->
    exists input, In (ToolUseBlock i name input) blocks.
Proof.
  induction blocks as [|b blocks IH]; intros i name; cbn; [discriminate|].
  destruct b as [t|j n inp|j c e|t d];
    try (intros H; destruct (IH _ _ H) as [x Hx]; eauto).
  destruct (j =? i)%string eqn:Hid.
  - apply String.eqb_eq in Hid. subst j. intros [= <-]. eauto.
  - intros H. destruct (IH _ _ H) as [x Hx]. eauto.
Qed.

Lemma toolUseName_complete :
  forall blocks i name input,
    In (ToolUseBlock i name input) blocks ->
    toolUseName blocks i <> None.
Proof.
  induction blocks as [|b blocks IH]; intros i name input Hin; [destruct Hin|].
  destruct Hin as [-> | Hin].
  - cbn. rewrite String.eqb_refl. discriminate.
  - destruct b as [t|j n inp|j c e|t d]; cbn; eauto.
    destruct (j =? i)%string; [discriminate | eauto].
Qed.

(** X27. The tool name found for a [tool_use_id] is the name of a
    [tool_use] block with that id in an assistant message of the
    conversation, and no name is found exactly when no assistant message
    holds a [tool_use] block with that id. *)
Theorem tool_name_lookup :
  forall messages i,
    match extractToolNameFromMessages messages i with
    | Some name => uses messages i name
    | None => forall name, ~ uses messages i name
    end.
Proof.
  intros messages i. unfold extractToolNameFromMessages.
  assert (Hgen : forall past,
             match toolNameFrom past i with
             | Some name => uses past i name
             | None => forall name, ~ uses past i name
             end).
  { induction past as [|m past IH]; cbn [toolNameFrom].
    - intros name (m & blocks & input & [] & _).
    - assert (Hskip :
          (forall blocks name input,
              role m = Assistant -> content m = ArrayContent blocks ->
              ~ In (ToolUseBlock i name input) blocks) ->
          match toolNameFrom past i with
          | Some name => uses (m :: past) i name
          | None => forall name, ~ uses (m :: past) i name
          end).
      { intros Hnot. destruct (toolNameFrom past i) as [name|].
        - destruct IH as (m0 & blocks & input & Hin & Hr & Hc & Hb).
          exists m0, blocks, input. repeat split; auto. right. exact Hin.
        - intros name (m0 & blocks & input & [<- | Hin] & Hr & Hc & Hb).
          + apply (Hnot blocks name input Hr Hc Hb).
          + apply (IH name). exists m0, blocks, input. auto. }
      destruct (role m) eqn:Hrole.
      { apply Hskip. intros blocks name input Hr. discriminate Hr. }
      destruct (content m) as [text|blocks] eqn:Hcontent.
      { apply Hskip. intros blocks name input _ Hc. discriminate Hc. }
      destruct (toolUseName blocks i) as [name|] eqn:Hfind.
      + destruct (toolUseName_sound _ _ _ Hfind) as [input Hin].
        exists m, blocks, input. repeat split; auto. left. reflexivity.
      + apply Hskip. intros blocks' name input _ [= <-] Hin.
        apply (toolUseName_complete _ _ _ _ Hin). exact Hfind. }
  specialize (Hgen (rev messages)).
  assert (Hrev : forall name, uses (rev messages) i name -> uses messages i name).
  { intros name (m & blocks & input & Hin & H). exists m, blocks, input.
    split; [apply in_rev; exact Hin | exact H]. }
  assert (Hrev' : forall name, uses messages i name -> uses (rev messages) i name).
  { intros name (m & blocks & input & Hin & H). exists m, blocks, input.
    split; [apply in_rev; rewrite rev_involutive; exact Hin | exact H]. }
  destruct (toolNameFrom (rev messages) i) as [name|].
  - apply Hrev. exact Hgen.
  - intros name H. apply (Hgen name). apply Hrev'. exact H.
Qed.

End TrustedDataMore.

(** ** The interaction model *)

Section InteractionModelFacts.

Import Proxy InteractionModel.

(** X28. [create] records the row with [tainted] false unless told
    otherwise; the row comes last among the rows of its chat and the rows of
    every other chat read as before.  The tainted rows of a chat are its
    rows that are tainted, in the same order, so an untainted row never
    shows among them. *)
Theorem interaction_rows_round_trip :
  forall data rows c,
    let row := fst (create data rows) in
    let rows' := snd (create data rows) in
    findByChatId (data_chatId data) rows'
    = findByChatId (data_chatId data) rows ++ [row]
    /\ (c <> data_chatId data -> findByChatId c rows' = findByChatId c rows)
    /\ findTaintedByChatId c rows' = filter tainted (findByChatId c rows')
    /\ (data_tainted data = None ->
        tainted row = false
        /\ findTaintedByChatId c rows' = findTaintedByChatId c rows).
Proof.
  intros data rows c. cbv zeta. unfold create, findByChatId, findTaintedByChatId.
  cbn [fst snd].
  assert (Hsplit : forall l : list Interaction,
             filter (fun i => (chatId i =? c)%string && tainted i) l
             = filter tainted (filter (fun i => (chatId i =? c)%string) l)).
  { induction l as [|i l IH]; [reflexivity|]. cbn.
    destruct (chatId i =? c)%string; cbn; [|exact IH].
    destruct (tainted i); [f_equal|]; exact IH. }
  split; [|split; [|split]].
  - rewrite filter_app. cbn. rewrite String.eqb_refl. reflexivity.
  - intros Hne. rewrite filter_app. cbn.
    assert (Hc : (data_chatId data =? c)%string = false).
    { apply String.eqb_neq. congruence. }
    rewrite Hc, app_nil_r. reflexivity.
  - apply Hsplit.
  - intros Hnone. rewrite Hnone. split; [reflexivity|].
    rewrite filter_app. cbn. rewrite andb_false_r, app_nil_r. reflexivity.
Qed.

End InteractionModelFacts.

(** ** The sub-agent for OpenAI-shape messages *)

Section DualLlmOpenAiFacts.

Import DualLlm DualLlmOpenAi.

Variable engine : StringEngine.
Variable JSON_stringify : Json -> string.
Variable createDualLlmClient : string -> string -> DualLlmClient.

Local Abbreviation create :=
  (DualLlmOpenAi.create engine JSON_stringify createDualLlmClient).
Local Abbreviation extractUserRequestFromOpenAi :=
  (DualLlmOpenAi.extractUserRequestFromOpenAi JSON_stringify).


(** X30. The user request of an OpenAI-shape conversation is read from the
    last user message alone: messages after it that are not user messages
    do not matter; a non-empty string content is the request; an empty or
    null content gives "process this data" even when an earlier user message
    has text. *)
Theorem openai_user_request_is_the_last_user_message :
  forall messages m,
    (role m <> "user" ->
     extractUserRequestFromOpenAi (messages ++ [m])
     = extractUserRequestFromOpenAi messages)
    /\ (role m = "user" ->
        extractUserRequestFromOpenAi (messages ++ [m])
        = match content m with
          | TextContent s => if truthy_string s then s else "process this data"
          | PartsContent parts => JSON_stringify parts
          | NoContent => "process this data"
          end)
    /\ extractUserRequestFromOpenAi [] = "process this data".
Proof.
  intros messages m. unfold DualLlmOpenAi.extractUserRequestFromOpenAi.
  rewrite filter_app. cbn [filter]. split; [|split; [|reflexivity]].
  - intros Hrole. apply String.eqb_neq in Hrole. rewrite Hrole, app_nil_r.
    reflexivity.
  - intros Hrole. rewrite Hrole.
    cbn [String.eqb Ascii.eqb Bool.eqb andb].
    rewrite map_app. cbn [map]. rewrite last_last. reflexivity.
Qed.

End DualLlmOpenAiFacts.

(* ===================================================================== *)
(** * The further properties at concrete inputs *)
(* ===================================================================== *)

Section MoreInstances.

Import ToolInvocationPolicyModel PolicyStore Proxy ProxySpec Examples MoreExamples.

(** The rule on [to] applies to [sendEmail] calls of agent A: the join
    row for [pol-2] assigns it and its tool is named [sendEmail]. *)
Lemma applicable_iff_assigned_witness :
  In blockGrafana (applicablePoliciesForAgent joinOrder db "agent-A" "sendEmail").
Proof.
  apply (proj2 (applicable_iff_assigned_and_named
                  joinOrder (fun rows => Permutation_refl rows)
                  db "agent-A" "sendEmail" blockGrafana)).
  exists (mkJoin "agent-A" "pol-2"), sendEmailTool.
  repeat split; cbn; auto.
Defined.

(** The rule on [cc] and the rule on [to] allow a mail to Bob in either
    order, and the rule on [cc] alone allows it too. *)
Lemma allowing_ignores_order_witness :
  evaluatePolicies lodashGet literalRegExp [blockGrafana; blockCc]
                   Examples.emailToBob
  = Returned (mkResult true "")
  /\ evaluatePolicies lodashGet literalRegExp [blockCc] Examples.emailToBob
     = Returned (mkResult true "").
Proof.
  split.
  - apply (proj1 (allowing_ignores_order_and_policies_only_restrict
                    lodashGet literalRegExp Examples.emailToBob
                    [blockCc; blockGrafana] [blockGrafana; blockCc] eq_refl)).
    apply perm_swap.
  - apply (proj2 (allowing_ignores_order_and_policies_only_restrict
                    lodashGet literalRegExp Examples.emailToBob
                    [blockCc; blockGrafana] [blockCc] eq_refl)).
    intros x [<- | []]. left. reflexivity.
Defined.

(** The denial of a mail to [x@grafana.com] has a reason. *)
Lemma denial_always_has_a_reason_witness :
  "Policy violation: Cannot send emails to @grafana.com domain" <> "".
Proof.
  exact (denial_always_has_a_reason lodashGet literalRegExp joinOrder
           db "agent-A"
           "sendEmail" emailToGrafana
           (mkResult false
              "Policy violation: Cannot send emails to @grafana.com domain")
           eq_refl).
Defined.

(** A recipient that is a number: the block rule whose pattern does not
    compile passes without throwing. *)
Lemma non_string_argument_witness :
  conditionMet literalRegExp OpRegex (Data (JNumber (Finite (inject_Z 42)))) "("
  = Returned false
  /\ evaluatePolicies lodashGet literalRegExp [blockBadRegex] emailToNumber
     = Returned (mkResult true "").
Proof.
  apply (non_string_argument_never_throws lodashGet literalRegExp
           emailToNumber blockBadRegex []
           (Data (JNumber (Finite (inject_Z 42)))) eq_refl).
  intros s H. discriminate H.
Defined.

(** Deleting the rule on [to]: it is gone from the table and from the
    rules applied to [sendEmail] calls, where the rule on [cc] stays. *)
Lemma delete_removes_the_policy_witness :
  fst (delete "pol-2" db) = true
  /\ findById joinOrder (snd (delete "pol-2" db)) "pol-2" = None
  /\ findById joinOrder (snd (delete "pol-2" db)) "pol-3" = Some blockCc
  /\ Permutation
       (applicablePoliciesForAgent joinOrder (snd (delete "pol-2" db))
                                   "agent-A" "sendEmail")
       [blockCc].
Proof.
  destruct (delete_removes_the_policy_everywhere
              joinOrder (fun rows => Permutation_refl rows) "pol-2" db)
    as (Hfound & Hgone & Hothers & Happlied).
  split; [|split; [|split]].
  - apply (proj2 Hfound). discriminate.
  - exact Hgone.
  - rewrite (Hothers "pol-3") by discriminate. reflexivity.
  - exact (Happlied "agent-A" "sendEmail").
Defined.

(** A new policy is found once created, and listed under its tool with the
    rules that were there. *)
Lemma create_then_find_witness :
  findById joinOrder (snd (create blockAttachments db)) "pol-9"
  = Some blockAttachments
  /\ Permutation
       (findByToolId joinOrder (snd (create blockAttachments db)) "tool-2")
       [blockAttachments; blockGrafana; blockCc; blockBadRegex].
Proof.
  destruct (create_then_find joinOrder (fun rows => Permutation_refl rows)
                             blockAttachments db eq_refl)
    as (_ & Hfind & Htool & _).
  split; [exact Hfind | exact Htool].
Defined.

(** ... and changes nothing for a mail to Bob until it is assigned. *)
Lemma created_policy_is_inert_witness :
  evaluateForAgent lodashGet literalRegExp joinOrder (snd (create blockAttachments db))
                   "agent-A" "sendEmail" Examples.emailToBob
  = Returned (mkResult true "").
Proof.
  rewrite (created_policy_is_inert_until_assigned lodashGet literalRegExp
             joinOrder blockAttachments db).
  - reflexivity.
  - intros j [<- | [<- | [<- | []]]]; discriminate.
Defined.


(** A request without messages. *)
Lemma empty_request_witness :
  exists msg,
    handle emailToBobText emptyRequest freshChat
    = (SentJson 500 (ErrorBody msg "api_error"), freshChat).
Proof.
  exact (empty_request_is_an_internal_error
           tableParse chunkText trustNothing agentAEvaluate
           (upstream emailToBobText) "chat-1" emptyRequest freshChat
           eq_refl eq_refl).
Defined.

(** A custom tool call goes through although the evaluator of the examples
    is in place. *)
Lemma custom_tool_calls_witness :
  handleCustom (request false) freshChat
  = (SentJson 200
       (CompletionBody (mkResponse "chatcmpl-2" "gpt-4o"
                          [mkChoice 0 assistantCustom "tool_calls"])),
     mkState ["chat-1"]
             [mkInteraction "chat-1" userAsks false None;
              mkInteraction "chat-1" assistantCustom false None]
             [] []).
Proof.
  apply (custom_tool_calls_are_not_evaluated
           tableParse chunkText trustNothing agentAEvaluate customUpstream
           "chat-1" (request false) freshChat afterIngress
           (mkResponse "chatcmpl-2" "gpt-4o"
              [mkChoice 0 assistantCustom "tool_calls"])
           (mkChoice 0 assistantCustom "tool_calls") []
           eq_refl eq_refl eq_refl eq_refl eq_refl).
  cbn. constructor; [exact I | constructor].
Defined.

(** A request bringing back the result of [call-1], a result of unknown
    origin and a user message: one tainted row for the first, nothing for
    the second, one row for the user message.  With a tool message that has
    no content in second place, the scan stops there: the row of the first
    result stays and the user message is not recorded. *)
Lemma ingress_records_witness :
  ingress tableParse trustNothing "chat-1" requestWithResult chatWithCall
  = (Returned tt,
     mkState ["chat-1"]
             [mkInteraction "chat-1" userAsks false None;
              mkInteraction "chat-1" assistantAsksEmails false None;
              mkInteraction "chat-1" emailsToolMessage true
                (Some "no applicable trusted-data policy matched");
              mkInteraction "chat-1" userAsks false None]
             [] [])
  /\ ingress tableParse trustNothing "chat-1" requestWithEmptyResult chatWithCall
     = (Thrown (SyntaxError "Unexpected end of JSON input"),
        mkState ["chat-1"]
                [mkInteraction "chat-1" userAsks false None;
                 mkInteraction "chat-1" assistantAsksEmails false None;
                 mkInteraction "chat-1" emailsToolMessage true
                   (Some "no applicable trusted-data policy matched")]
                [] []).
Proof.
  assert (Hfirst : scannable tableParse (history "chat-1" chatWithCall)
                             emailsToolMessage).
  { intros _. split; eexists; reflexivity. }
  split.
  - apply (proj1 (ingress_records_tool_results_then_user_message
                    tableParse trustNothing "chat-1" requestWithResult
                    chatWithCall)).
    + discriminate.
    + constructor; [exact Hfirst|].
      constructor; [intros _; split; eexists; reflexivity|].
      constructor; [intros Hrole; discriminate Hrole | constructor].
  - apply (proj2 (ingress_records_tool_results_then_user_message
                    tableParse trustNothing "chat-1" requestWithEmptyResult
                    chatWithCall)
             [emailsToolMessage] emptyToolMessage [userAsks]
             "Unexpected end of JSON input" eq_refl).
    + constructor; [exact Hfirst | constructor].
    + reflexivity.
    + reflexivity.
Defined.

(** The name found for [call-1] is the one the stored assistant message
    called. *)
Lemma tool_name_resolution_witness :
  exists i,
    In i (interactions chatWithCall) /\ chatId i = "chat-1"
    /\ issued i "call-1" "getEmails".
Proof.
  exact (proj1 (proj2 (tool_name_resolution "chat-1" chatWithCall))
               "call-1" "getEmails" eq_refl).
Defined.

Import Anthropic DualLlm TrustedData TrustedDataSpec.

(** The run of the examples makes four calls, within the bound of seven. *)
Lemma llm_calls_are_bounded_witness :
  (llmCalls (snd (processWithMainAgent textEngine
                    (subagent (answerOf (Finite (inject_Z 9)))) emptyStore))
   <= 7)%nat
  /\ (1 <= llmCalls (snd (processWithMainAgent textEngine
                            (subagent (answerOf (Finite (inject_Z 9))))
                            emptyStore)))%nat.
Proof.
  destruct (llm_calls_are_bounded textEngine
              (subagent (answerOf (Finite (inject_Z 9)))) emptyStore)
    as (_ & Hup & Hlow).
  split; [exact Hup|].
  exact (Hlow "summary of 1 message(s)" eq_refl).
Defined.


(** Three options and the answer 9: the option fed back is the third. *)
Lemma selected_option_witness :
  exists k,
    fst (answerQuestion textEngine (subagent (answerOf (Finite (inject_Z 9))))
                        "Who sent the mail?" threeOptions emptyStore)
    = Returned k
    /\ In (optionAt threeOptions k) threeOptions.
Proof.
  destruct (selected_option_is_one_of_the_options textEngine
              (subagent (answerOf (Finite (inject_Z 9))))
              "Who sent the mail?" threeOptions emptyStore
              (answerOf (Finite (inject_Z 9))) eq_refl)
    as (k & Hrun & Hsome & _).
  exists k. split; [exact Hrun|].
  apply Hsome. discriminate.
Defined.

(** A trailing message of tool results does not change the user request. *)
Lemma user_request_extraction_witness :
  extractUserRequestFromAnthropic
    ([Anthropic.mkMessage User (StringContent "check my mail")]
     ++ [Anthropic.mkMessage User (ArrayContent [getEmailsResult])])
  = "check my mail".
Proof.
  rewrite (proj1 (user_request_extraction
                    [Anthropic.mkMessage User (StringContent "check my mail")]
                    (Anthropic.mkMessage User (ArrayContent [getEmailsResult])))).
  - reflexivity.
  - right. exists [getEmailsResult]. split; [reflexivity|].
    constructor; [intros t H; discriminate H | constructor].
Defined.

(** With the result of [toolu-1] cached, the conversation of the examples
    is rewritten without any LLM call. *)
Lemma llm_is_called_only_when_needed_witness :
  exists out,
    evaluateContext (answerOf (Finite (inject_Z 9)))
                    conversation "agent-A" "key" cachedStore
    = (Returned out, cachedStore).
Proof.
  apply (llm_is_called_only_for_uncached_results_to_sanitise
           textEngine (clientFor (answerOf (Finite (inject_Z 9)))) sanitiseAll
           conversation "agent-A" "key" cachedStore).
  intros b (m & blocks & Hm & Hrole & Hcontent & Hb).
  destruct Hm as [<- | [<- | [<- | []]]]; cbn in Hcontent;
    try discriminate; injection Hcontent as <-.
  destruct Hb as [<- | [<- | []]]; reflexivity.
Defined.

(** A tool result of unknown origin: the context is not trusted. *)
Lemma context_is_trusted_witness :
  evaluateContext (answerOf (Finite (inject_Z 9)))
                  conversationWithOrphan "agent-A" "key" emptyStore
  = (Returned (mkFiltered conversationWithOrphan false), emptyStore)
  /\ (contextIsTrusted (mkFiltered conversationWithOrphan false) = true
      <-> forall b, hosted conversationWithOrphan b ->
                    untrusted textEngine sanitiseAll conversationWithOrphan "agent-A" b
                    = false).
Proof.
  assert (Hrun : evaluateContext (answerOf (Finite (inject_Z 9)))
                   conversationWithOrphan "agent-A" "key" emptyStore
                 = (Returned (mkFiltered conversationWithOrphan false),
                    emptyStore)) by (vm_compute; reflexivity).
  split; [exact Hrun|].
  exact (proj2 (context_is_trusted_iff_every_tool_result_is
                  textEngine (clientFor (answerOf (Finite (inject_Z 9))))
                  sanitiseAll conversationWithOrphan "agent-A" "key"
                  emptyStore _ _ Hrun)).
Defined.

(** A conversation without tool results. *)
Lemma conversation_without_tool_results_witness :
  evaluateContext (answerOf (Finite (inject_Z 9)))
                  smallTalk "agent-A" "key" emptyStore
  = (Returned (mkFiltered smallTalk true), emptyStore).
Proof.
  apply (conversation_without_tool_results_is_untouched
           textEngine (clientFor (answerOf (Finite (inject_Z 9)))) sanitiseAll
           smallTalk "agent-A" "key" emptyStore).
  intros b (m & blocks & Hm & Hrole & Hcontent & Hb).
  destruct Hm as [<- | [<- | [<- | []]]]; cbn in Hcontent;
    try discriminate; injection Hcontent as <-.
  destruct Hb as [<- | []]. reflexivity.
Defined.


(** The tool message after the user message does not change the request. *)
Lemma openai_user_request_witness :
  DualLlmOpenAi.extractUserRequestFromOpenAi (fun _ => "[]")
    ([openAiUser] ++ [openAiTool])
  = "check my mail".
Proof.
  rewrite (proj1 (openai_user_request_is_the_last_user_message
                    (fun _ => "[]") [openAiUser] openAiTool)).
  - reflexivity.
  - discriminate.
Defined.

End MoreInstances.
